(** * feedback_bot: the conversation handlers and the sheet-backed store

  A shallow embedding of [main.py], [google_sheets.py] and
  [google_sheets_service.py].  Python text is modelled by [string], holding
  its UTF-8 encoding; what the interpreter knows about the characters above
  ASCII is a parameter of the environment.  Python integers are modelled by
  [Z], dictionaries with string keys by [gmap string _], and the remote
  spreadsheet by the list of rows handed to it.  Python floats are modelled by the exact rational value of the
  binary64 number, with the rounding of every operation written out. *)

From Stdlib Require Import ZArith QArith Qabs Ascii String List Bool Lia.
From stdpp Require Import base option gmap strings list pretty.

Local Open Scope string_scope.
Local Open Scope Z_scope.

(** ** Python text primitives *)

Module PyStr.

(** [s.split(sep)] with a one-character separator: every occurrence cuts,
    so the result always has at least one piece. *)
Fixpoint split (sep : ascii) (s : string) : list string :=
  match s with
  | EmptyString => [EmptyString]
  | String c s' =>
      if Ascii.eqb c sep then EmptyString :: split sep s'
      else match split sep s' with
           | [] => [String c EmptyString]
           | w :: ws => String c w :: ws
           end
  end.

Definition startswith (p s : string) : bool := String.prefix p s.

(** *** Characters

    A text is read as a sequence of code points.  Below 128 the classes of
    a character are fixed; above, they are those of the interpreter's
    Unicode tables, which differ between interpreters. *)

Record Runtime := {
  decimal : N -> option Z;   (* the decimal value of a character above ASCII *)
  other_digit : N -> bool;   (* above ASCII: a digit that is no decimal,
                                such as a superscript or a circled digit *)
  space : N -> bool;         (* above ASCII: [str.isspace] *)
  max_str_digits : N         (* [sys.get_int_max_str_digits()]; 0 where the
                                interpreter has no limit *)
}.

Definition utf8_step (b : N) (st : N * N * list N) : N * N * list N :=
  (let '(acc, bits, out) := st in
   if b <? 128 then (0, 0, b :: out)
   else if b <? 192 then ((b - 128) * 2 ^ bits + acc, bits + 6, out)
   else let lead := if b <? 224 then b - 192
                    else if b <? 240 then b - 224 else b - 240 in
        (0, 0, (lead * 2 ^ bits + acc) :: out))%N.

(** The code points of a text, decoded from UTF-8: the bytes are taken from
    the right, a lead byte closing the continuation bytes after it. *)
Definition chars (s : string) : list N :=
  (fold_right utf8_step (0%N, 0%N, []) (N_of_ascii <$> list_ascii_of_string s)).2.

(** The bytes below 128 for which [str.isspace] holds: what the command
    filter below cuts the first word at. *)
Definition is_space (c : ascii) : bool :=
  let n := Z.of_N (N_of_ascii c) in
  ((9 <=? n) && (n <=? 13)) || ((28 <=? n) && (n <=? 32)).

(** [c.isspace()] for a code point *)
Definition isspace (u : Runtime) (cp : N) : bool :=
  (if cp <? 128
   then ((9 <=? cp) && (cp <=? 13)) || ((28 <=? cp) && (cp <=? 32))
   else space u cp)%N.

(** [c.isdigit()] for a code point: a decimal or another digit *)
Definition is_digit (u : Runtime) (cp : N) : bool :=
  (if cp <? 128 then (48 <=? cp) && (cp <=? 57)
   else match decimal u cp with
        | Some _ => true
        | None => other_digit u cp
        end)%N.

Fixpoint lstrip_l (l : list ascii) : list ascii :=
  match l with
  | c :: l' => if is_space c then lstrip_l l' else l
  | [] => []
  end.

Fixpoint lstrip (u : Runtime) (l : list N) : list N :=
  match l with
  | cp :: l' => if isspace u cp then lstrip u l' else l
  | [] => []
  end.

(** [s.strip()], as code points *)
Definition strip (u : Runtime) (s : string) : list N :=
  rev (lstrip u (rev (lstrip u (chars s)))).

(** [s.isdigit()]: at least one character, all of them digits. *)
Definition isdigit (u : Runtime) (s : string) : bool :=
  match chars s with
  | [] => false
  | l => forallb (is_digit u) l
  end.

(** *** [int(s)]

    What [int] makes of a character: the decimals and the spaces above
    ASCII count as ASCII digits and blanks, the characters below 128 are
    taken as they are, of which only tab, line feed, vertical tab, form
    feed, carriage return and the blank are skipped as space. *)
Inductive int_char :=
| IDigit (d : Z)
| ISpace
| ISign (negative : bool)
| IUnderscore
| IOther.

Definition int_char_of (u : Runtime) (cp : N) : int_char :=
  (if cp <? 128 then
     if (48 <=? cp) && (cp <=? 57) then IDigit (Z.of_N cp - 48)
     else if ((9 <=? cp) && (cp <=? 13)) || (cp =? 32) then ISpace
     else if cp =? 43 then ISign false
     else if cp =? 45 then ISign true
     else if cp =? 95 then IUnderscore
     else IOther
   else if space u cp then ISpace
   else match decimal u cp with
        | Some d => IDigit d
        | None => IOther
        end)%N.

Fixpoint skip_space (l : list int_char) : list int_char :=
  match l with
  | ISpace :: l' => skip_space l'
  | _ => l
  end.

(** The digit run of an integer literal: digits, with single underscores
    allowed between two digits.  The result is the value, the number of
    digits and what follows the run. *)
Fixpoint int_digits (acc : Z) (count : N) (prev_digit : bool) (l : list int_char)
  : option (Z * N * list int_char) :=
  match l with
  | IDigit d :: l' => int_digits (10 * acc + d) (count + 1) true l'
  | IUnderscore :: l' =>
      if prev_digit then int_digits acc count false l' else None
  | _ => if prev_digit then Some (acc, count, l) else None
  end.

(** The literal after the leading space and the sign.  A run of more than
    640 digits is refused when it is longer than the interpreter's limit. *)
Definition int_literal (u : Runtime) (l : list int_char) : option Z :=
  match int_digits 0 0 false l with
  | Some (n, count, rest) =>
      match skip_space rest with
      | [] =>
          if ((640 <? count) && (0 <? max_str_digits u)
              && (max_str_digits u <? count))%N
          then None else Some n
      | _ => None
      end
  | None => None
  end.

(** [int(s)] in base ten; [None] stands for [ValueError]. *)
Definition int (u : Runtime) (s : string) : option Z :=
  match skip_space (int_char_of u <$> chars s) with
  | ISign negative :: l =>
      (fun n => if negative then - n else n) <$> int_literal u l
  | l => int_literal u l
  end.

(** [str(n)] for an integer. *)
Definition of_int (n : Z) : string := pretty n.

(** [s.lower()] on ASCII letters. *)
Definition lower_char (c : ascii) : ascii :=
  let n := N_of_ascii c in
  if ((65 <=? n) && (n <=? 90))%N then ascii_of_N (n + 32) else c.

Fixpoint lower (s : string) : string :=
  match s with
  | EmptyString => EmptyString
  | String c s' => String (lower_char c) (lower s')
  end.

Fixpoint take_word (l : list ascii) : list ascii :=
  match l with
  | c :: l' => if is_space c then [] else c :: take_word l'
  | [] => []
  end.

(** [s.split(maxsplit=1)[0]]: the first whitespace-delimited word; [None]
    when there is none. *)
Definition first_word (s : string) : option string :=
  match take_word (lstrip_l (list_ascii_of_string s)) with
  | [] => None
  | w => Some (string_of_list_ascii w)
  end.

(** [s.partition(sep)] without the separator: the text before the first
    [sep] and the text after it. *)
Fixpoint partition (sep : ascii) (s : string) : string * string :=
  match s with
  | EmptyString => (EmptyString, EmptyString)
  | String c s' =>
      if Ascii.eqb c sep then (EmptyString, s')
      else let '(a, b) := partition sep s' in (String c a, b)
  end.

(** The bytes of the first [n] characters: a continuation byte belongs to
    the character begun before it. *)
Fixpoint take_chars (n : nat) (l : list ascii) : list ascii :=
  match l with
  | [] => []
  | c :: l' =>
      if ((128 <=? N_of_ascii c) && (N_of_ascii c <? 192))%N
      then c :: take_chars n l'
      else match n with
           | O => []
           | S n' => c :: take_chars n' l'
           end
  end.

(** [s[:n]] *)
Definition slice_to (n : nat) (s : string) : string :=
  string_of_list_ascii (take_chars n (list_ascii_of_string s)).

Definition ascii_digit (c : ascii) : bool :=
  ((48 <=? N_of_ascii c) && (N_of_ascii c <=? 57))%N.

(** The number a text of ASCII digits writes, read on from [acc]. *)
Definition digits_value (acc : Z) (l : list ascii) : Z :=
  fold_left (fun a c => 10 * a + (Z.of_N (N_of_ascii c) - 48)) l acc.

(** A text of at most 300 characters, all of them ASCII digits. *)
Definition plain_digits (s : string) : bool :=
  (String.length s <=? 300)%nat && forallb ascii_digit (list_ascii_of_string s).

(** A rating text the statistics can take in: one that is no digit string,
    or a digit string of at most 300 ASCII digits. *)
Definition tame (u : Runtime) (s : string) : bool :=
  negb (isdigit u s) || plain_digits s.

End PyStr.

(** ** Python floats

    A finite float is represented by the exact rational value of the binary64
    number, in lowest terms.  Every operation computes the exact result and
    rounds it to the nearest binary64 value, ties to even. *)

Module PyFloat.

Inductive float := Fin (q : Q) | PInf | NInf.

(** Nearest integer to [p/d] for [d > 0], ties to even. *)
Definition round_half_even (p d : Z) : Z :=
  let f := p / d in
  let r := p mod d in
  if 2 * r <? d then f
  else if d <? 2 * r then f + 1
  else if Z.even f then f else f + 1.

(** [floor (log2 (p/d))] for [p, d > 0]. *)
Definition floor_log2 (p d : Z) : Z :=
  let e0 := Z.log2 p - Z.log2 d in
  let below := if 0 <=? e0 then p <? d * 2 ^ e0 else p * 2 ^ (- e0) <? d in
  if below then e0 - 1 else e0.

(** The binary64 significand [m] and exponent [u] nearest to [p/d], for
    [p, d > 0]: 53 bits of precision, exponent no smaller than -1074. *)
Definition nearest_pos (p d : Z) : Z * Z :=
  let u := Z.max (floor_log2 p d - 52) (-1074) in
  let m := if 0 <=? u then round_half_even p (d * 2 ^ u)
           else round_half_even (p * 2 ^ (- u)) d in
  (m, u).

Definition dyadic (m u : Z) : Q :=
  if 0 <=? u then (m * 2 ^ u) # 1 else Qred (m # Z.to_pos (2 ^ (- u))).

Definition too_large (m u : Z) : bool :=
  (0 <=? u) && (2 ^ 1024 <=? m * 2 ^ u).

(** Round a rational to binary64. *)
Definition nearest (q : Q) : float :=
  match Qnum q with
  | Z0 => Fin 0
  | Zpos p =>
      let '(m, u) := nearest_pos (Zpos p) (Zpos (Qden q)) in
      if too_large m u then PInf else Fin (dyadic m u)
  | Zneg p =>
      let '(m, u) := nearest_pos (Zpos p) (Zpos (Qden q)) in
      if too_large m u then NInf else Fin (Qopp (dyadic m u))
  end.

(** [a / b] on integers: the correctly rounded quotient; [None] stands for
    [ZeroDivisionError] and [OverflowError]. *)
Definition int_truediv (a b : Z) : option float :=
  match b with
  | Z0 => None
  | Zpos d => match nearest (a # d) with Fin q => Some (Fin q) | _ => None end
  | Zneg d => match nearest ((- a) # d) with Fin q => Some (Fin q) | _ => None end
  end.

(** [x / n] and [x * n] for a float [x] and a small positive integer
    constant [n] (5 and 100 in the source). *)
Definition div_const (x : float) (n : positive) : float :=
  match x with
  | Fin q => nearest (q / (Zpos n # 1))
  | inf => inf
  end.

Definition mul_const (x : float) (n : positive) : float :=
  match x with
  | Fin q => nearest (q * (Zpos n # 1))
  | inf => inf
  end.

(** [round(x, ndigits)] for [ndigits >= 0]: the decimal with [ndigits]
    places nearest to the exact value of [x] (ties to even), read back as a
    float.  Infinities round to themselves. *)
Definition round (x : float) (ndigits : N) : float :=
  match x with
  | Fin q =>
      let s := 10 ^ Z.of_N ndigits in
      let k := round_half_even (Qnum q * s) (Zpos (Qden q)) in
      nearest (k # Z.to_pos s)
  | inf => inf
  end.

Definition gt0 (x : float) : bool :=
  match x with
  | Fin q => 0 <? Qnum q
  | PInf => true
  | NInf => false
  end.

End PyFloat.

(** ** Python values, exceptions and the environment *)

(** The values held by the handlers' dictionaries and by the cells of a row. *)
Inductive pyval := VNone | VInt (z : Z) | VStr (s : string).

(** [str(v)].  An integer is written out in full: the integers the handlers
    store come from [int], which has applied the interpreter's limit on the
    length of such conversions on the way in. *)
Definition py_str (v : pyval) : string :=
  match v with
  | VNone => "None"
  | VInt z => PyStr.of_int z
  | VStr s => s
  end.

Inductive exn :=
| KeyError (k : string)
| IndexError
| TypeError
| ValueError
| OverflowError
| AttributeError.

(** The values of a statistics dictionary. *)
Inductive statval :=
| SInt (z : Z)
| SFloat (x : PyFloat.float)
| SStr (s : string)
| SCounts (d : gmap string Z)
| SErr (e : exn).   (* str(e) for a caught exception e *)

Inductive outcome (A : Type) := Ok (a : A) | Raised (e : exn).
Arguments Ok {A} a.
Arguments Raised {A} e.

#[global] Instance outcome_ret : MRet outcome := fun A a => Ok a.
#[global] Instance outcome_bind : MBind outcome := fun A B f x =>
  match x with Ok a => f a | Raised e => Raised e end.

(** What the world outside the bot decides for one operation: whether the
    service-account credentials load, whether the remote calls go through,
    the clock and the calendar, the configuration read at start-up, and the
    interpreter's tables for text. *)
Record Env := {
  creds_ok : bool;
  api_ok : bool;
  headers_ok : bool;          (* whether the calls of _initialize_headers
                                 go through, once the sheet is open *)
  now : Z;                    (* datetime.now(), in microseconds *)
  now_text : string;          (* datetime.now().strftime(...) *)
  strptime_date : string -> option Z;
                              (* strptime(s, fmt).date() as a day number;
                                 None when strptime raises *)
  ADMIN_ID : Z;               (* Config.ADMIN_ID *)
  SPREADSHEET_ID : option string;
                              (* Config.SPREADSHEET_ID: os.getenv gives None
                                 when the variable is not set *)
  bot_username : string;      (* bot.me().username *)
  runtime : PyStr.Runtime
}.

(** The remote sheet: the rows in store order, each as handed to
    [append_row]. *)
Abbreviation Sheet := (list (list pyval)).

(** The text [get_all_values] shows for a cell: an empty cell for [None]. *)
Definition cell_text (v : pyval) : string :=
  match v with
  | VNone => EmptyString
  | VInt z => PyStr.of_int z
  | VStr s => s
  end.

Definition get_all_values (sh : Sheet) : list (list string) :=
  (fun row : list pyval => cell_text <$> row) <$> sh.

(** ** google_sheets.py *)

Module GoogleSheetsManager.

Record t := { client : bool; sheet : Sheet }.

Definition connect (env : Env) (m : t) : t :=
  {| client := creds_ok env; sheet := sheet m |}.

(** [d.get(k, default)] *)
Definition get (d : gmap string pyval) (k : string) (dflt : pyval) : pyval :=
  default dflt (d !! k).

Definition row_of (env : Env) (user_data feedback_data : gmap string pyval)
  : list pyval :=
  [ VStr (now_text env);
    VStr (py_str (get user_data "id" (VStr EmptyString)));
    get user_data "username" (VStr EmptyString);
    get user_data "first_name" (VStr EmptyString);
    get user_data "last_name" (VStr EmptyString);
    VStr (py_str (get feedback_data "rating" (VStr EmptyString)));
    get feedback_data "type" (VStr EmptyString);
    get feedback_data "comment" (VStr EmptyString);
    VStr "новый" ].

Definition save_feedback (env : Env) (user_data feedback_data : gmap string pyval)
  (m : t) : bool * t :=
  let m1 := if client m then m else connect env m in
  if negb (client m1) then (false, m1)
  else if api_ok env
       then (true, {| client := client m1;
                      sheet := (sheet m1 ++ [row_of env user_data feedback_data])%list |})
       else (false, m1).

Definition fallback : gmap string statval :=
  {[ "total" := SInt 0; "average" := SInt 0 ]}.

(** The loop over the data rows: a rating is collected when the row has a
    sixth cell and that cell is a digit string; [int] raises on a digit
    string it cannot read. *)
Fixpoint collect_ratings (u : PyStr.Runtime) (rows : list (list string))
  : outcome (list Z) :=
  match rows with
  | [] => Ok []
  | row :: rest =>
      match row !! 5%nat with
      | Some c =>
          if PyStr.isdigit u c
          then match PyStr.int u c with
               | Some n => rs ← collect_ratings u rest; Ok (n :: rs)
               | None => Raised ValueError
               end
          else collect_ratings u rest
      | None => collect_ratings u rest
      end
  end.

Definition sum (l : list Z) : Z := fold_right Z.add 0 l.

(** [round(sum(ratings) / len(ratings) if ratings else 0, 2)] *)
Definition average_of (ratings : list Z) : outcome statval :=
  match ratings with
  | [] => Ok (SInt 0)
  | _ =>
      match PyFloat.int_truediv (sum ratings) (Z.of_nat (length ratings)) with
      | Some x => Ok (SFloat (PyFloat.round x 2))
      | None => Raised OverflowError
      end
  end.

(** The body of the [try] block of [get_stats], for remote calls that go
    through. *)
Definition compute_stats (u : PyStr.Runtime) (data : list (list string))
  : outcome (gmap string statval) :=
  if (length data <=? 1)%nat then Ok fallback
  else
    let rows := tail data in
    ratings ← collect_ratings u rows;
    let total := Z.of_nat (length rows) in
    average ← average_of ratings;
    last_feedback ← match last rows with
            | Some r => match r !! 0%nat with
                        | Some c => Ok (SStr c)
                        | None => Raised IndexError
                        end
            | None => Ok (SStr "Нет данных")
            end;
    Ok ({[ "total" := SInt total; "average" := average;
           "last_feedback" := last_feedback ]} : gmap string statval).

(** What the loop takes from one row when it does not raise: the integer
    [int] reads from the rating cell, for a cell that passes [isdigit].  A
    cell such as -3, +2, 4.5 or one with a blank is no digit string: it
    gives no rating, though [int] could read some of these. *)
Definition digit_rating (u : PyStr.Runtime) (row : list string) : option Z :=
  c ← row !! 5%nat; if PyStr.isdigit u c then PyStr.int u c else None.

Definition digit_ratings (u : PyStr.Runtime) (rows : list (list string))
  : list Z :=
  omap (digit_rating u) rows.

(** Data rows whose rating cells the loop can take in. *)
Definition tame_ratings (u : PyStr.Runtime) (rows : list (list string)) : bool :=
  forallb (fun row : list string =>
             match row !! 5%nat with
             | Some c => PyStr.tame u c
             | None => true
             end) rows.

(** The arithmetic mean of a non-empty list of integers. *)
Definition mean (l : list Z) : Q := sum l # Z.to_pos (Z.of_nat (length l)).

Definition get_stats (env : Env) (m : t) : gmap string statval * t :=
  let m1 := if client m then m else connect env m in
  if negb (client m1) then (fallback, m1)
  else if api_ok env
       then match compute_stats (runtime env) (get_all_values (sheet m1)) with
            | Ok d => (d, m1)
            | Raised _ => (fallback, m1)
            end
       else (fallback, m1).

End GoogleSheetsManager.

(** ** keyboards.py: the callback data of the buttons of each keyboard *)

Inductive keyboard :=
| get_main_menu
| get_rating_keyboard
| get_feedback_type_keyboard
| get_confirmation_keyboard.

Definition callback_data (k : keyboard) : list string :=
  match k with
  | get_main_menu => ["start_feedback"; "show_stats"; "about"]
  | get_rating_keyboard =>
      ["rate_1"; "rate_2"; "rate_3"; "rate_4"; "rate_5"; "cancel"]
  | get_feedback_type_keyboard =>
      ["type_suggestion"; "type_bug"; "type_idea"; "type_thanks"; "cancel"]
  | get_confirmation_keyboard => ["submit"; "edit"; "cancel"]
  end.

(** ** main.py *)

Module Bot.

Inductive FeedbackState :=
| waiting_rating
| waiting_type
| waiting_comment
| confirmation.

#[global] Instance FeedbackState_eq_dec : EqDecision FeedbackState.
Proof. solve_decision. Defined.

(** The texts the handlers send, by template, with the values they
    interpolate. *)
Inductive text :=
| welcome_text
| stats_text (total average last_feedback : statval)
| rating_prompt
| rating_error
| type_prompt (rating : Z)
| comment_prompt
| preview (rating type comment : pyval)
| admin_text (username : string) (rating type : pyval) (comment : string)
| thanks_text
| save_error_text
| restart_text
| cancel_text
| current_stats_text (total average last_feedback : statval)
| about_text.

Inductive reply :=
| message_answer (t : text) (kb : keyboard)
| edit_text (t : text) (kb : option keyboard)
| callback_answer (t : option text)
| send_message (chat_id : Z) (t : text).

Record User := {
  id : Z;
  username : option string;
  first_name : string;
  last_name : option string
}.

Inductive event :=
| CallbackQuery (from_user : User) (data : string)
| Message (text caption : option string).

(** One user's FSM context ([state], [data]), the global [sheets_manager],
    and the messages sent so far. *)
Record t := {
  state : option FeedbackState;
  data : gmap string pyval;
  sheets_manager : GoogleSheetsManager.t;
  outbox : list reply
}.

Definition set_state (s : FeedbackState) (b : t) : t :=
  {| state := Some s; data := data b;
     sheets_manager := sheets_manager b; outbox := outbox b |}.

Definition update_data (k : string) (v : pyval) (b : t) : t :=
  {| state := state b; data := <[k := v]> (data b);
     sheets_manager := sheets_manager b; outbox := outbox b |}.

(** [state.clear()]: no state and no data. *)
Definition clear (b : t) : t :=
  {| state := None; data := ∅;
     sheets_manager := sheets_manager b; outbox := outbox b |}.

Definition send (r : reply) (b : t) : t :=
  {| state := state b; data := data b;
     sheets_manager := sheets_manager b; outbox := (outbox b ++ [r])%list |}.

Definition with_manager (m : GoogleSheetsManager.t) (b : t) : t :=
  {| state := state b; data := data b; sheets_manager := m; outbox := outbox b |}.

(** [x or dflt] for an optional string. *)
Definition or_str (x : option string) (dflt : string) : string :=
  match x with
  | Some EmptyString | None => dflt
  | Some s => s
  end.

(** [d[k]] *)
Definition getitem {V} (d : gmap string V) (k : string) : outcome V :=
  match d !! k with
  | Some v => Ok v
  | None => Raised (KeyError k)
  end.

Definition cmd_start (b : t) : outcome unit * t :=
  (Ok tt, send (message_answer welcome_text get_main_menu) b).

Definition cmd_stats (env : Env) (b : t) : outcome unit * t :=
  let '(stats, m) := GoogleSheetsManager.get_stats env (sheets_manager b) in
  let b1 := with_manager m b in
  match (total ← getitem stats "total";
         average ← getitem stats "average";
         last_feedback ← getitem stats "last_feedback";
         mret (stats_text total average last_feedback)) with
  | Ok txt => (Ok tt, send (message_answer txt get_main_menu) b1)
  | Raised e => (Raised e, b1)
  end.

Definition start_feedback (b : t) : outcome unit * t :=
  let b1 := set_state waiting_rating b in
  let b2 := send (edit_text rating_prompt (Some get_rating_keyboard)) b1 in
  (Ok tt, send (callback_answer None) b2).

(** [int(callback.data.split(_)[1])]: the second of the pieces the
    underscores cut the payload into, read as an integer; [None] stands for
    the [IndexError] and [ValueError] the handler catches. *)
Definition payload_rating (env : Env) (cb_data : string) : option Z :=
  PyStr.split "_" cb_data !! 1%nat ≫= PyStr.int (runtime env).

Definition process_rating (env : Env) (cb_data : string) (b : t)
  : outcome unit * t :=
  match payload_rating env cb_data with
  | None => (Ok tt, send (callback_answer (Some rating_error)) b)
  | Some rating =>
      let b1 := update_data "rating" (VInt rating) b in
      let b2 := set_state waiting_type b1 in
      let b3 := send (edit_text (type_prompt rating)
                        (Some get_feedback_type_keyboard)) b2 in
      (Ok tt, send (callback_answer None) b3)
  end.

Definition type_names : gmap string string :=
  {[ "suggestion" := "Предложение";
     "bug" := "Ошибка";
     "idea" := "Идея";
     "thanks" := "Благодарность" ]}.

Definition process_type (cb_data : string) (b : t) : outcome unit * t :=
  match PyStr.split "_" cb_data !! 1%nat with
  | None => (Raised IndexError, b)
  | Some fb_type =>
      match getitem type_names fb_type with
      | Raised e => (Raised e, b)
      | Ok name =>
          let b1 := update_data "type" (VStr name) b in
          let b2 := set_state waiting_comment b1 in
          let b3 := send (edit_text comment_prompt None) b2 in
          (Ok tt, send (callback_answer None) b3)
      end
  end.

Definition no_comment : string := "Нет комментария".

Definition process_comment (msg_text : option string) (b : t)
  : outcome unit * t :=
  let comment :=
    match msg_text with
    | Some txt => if String.eqb txt "/skip" then VStr EmptyString else VStr txt
    | None => VNone
    end in
  let b1 := update_data "comment" comment b in
  match (rating ← getitem (data b1) "rating";
         type ← getitem (data b1) "type";
         mret (preview rating type
                 (GoogleSheetsManager.get (data b1) "comment" (VStr no_comment)))) with
  | Raised e => (Raised e, b1)
  | Ok txt =>
      let b2 := set_state confirmation b1 in
      (Ok tt, send (message_answer txt get_confirmation_keyboard) b2)
  end.

(** The admin notice of [submit_feedback]; slicing the comment raises when
    the comment is not text. *)
Definition admin_notice (user : User) (d : gmap string pyval) : outcome text :=
  rating ← getitem d "rating";
  type ← getitem d "type";
  match GoogleSheetsManager.get d "comment" (VStr no_comment) with
  | VStr c =>
      mret (admin_text (or_str (username user) "без username") rating type
              (PyStr.slice_to 100 c))
  | _ => Raised TypeError
  end.

(** After a save that went through, the thanks text is completed with
    [Config.SPREADSHEET_ID]; the save has just opened the spreadsheet by that
    identifier, so it is a text there and [replace] does not raise. *)
Definition submit_feedback (env : Env) (user : User) (b : t)
  : outcome unit * t :=
  let d := data b in
  let user_info : gmap string pyval :=
    {[ "id" := VInt (id user);
       "username" := VStr (or_str (username user) EmptyString);
       "first_name" := VStr (first_name user);
       "last_name" := VStr (or_str (last_name user) EmptyString) ]} in
  let '(success, m) :=
    GoogleSheetsManager.save_feedback env user_info d (sheets_manager b) in
  let b1 := with_manager m b in
  let finish (txt : text) (b' : t) : outcome unit * t :=
    let b2 := send (edit_text txt (Some get_main_menu)) b' in
    (Ok tt, send (callback_answer None) (clear b2)) in
  if success then
    if ADMIN_ID env =? 0 then finish thanks_text b1
    else match admin_notice user d with
         | Raised e => (Raised e, b1)
         | Ok txt => finish thanks_text (send (send_message (ADMIN_ID env) txt) b1)
         end
  else finish save_error_text b1.

Definition edit_feedback (b : t) : outcome unit * t :=
  let b1 := set_state waiting_rating b in
  let b2 := send (edit_text restart_text (Some get_rating_keyboard)) b1 in
  (Ok tt, send (callback_answer None) b2).

Definition cancel_feedback (b : t) : outcome unit * t :=
  let b1 := clear b in
  let b2 := send (edit_text cancel_text (Some get_main_menu)) b1 in
  (Ok tt, send (callback_answer None) b2).

Definition show_stats (env : Env) (b : t) : outcome unit * t :=
  let '(stats, m) := GoogleSheetsManager.get_stats env (sheets_manager b) in
  let b1 := with_manager m b in
  match (total ← getitem stats "total";
         average ← getitem stats "average";
         last_feedback ← getitem stats "last_feedback";
         mret (current_stats_text total average last_feedback)) with
  | Ok txt =>
      let b2 := send (edit_text txt (Some get_main_menu)) b1 in
      (Ok tt, send (callback_answer None) b2)
  | Raised e => (Raised e, b1)
  end.

(** [text.replace(..., Config.SPREADSHEET_ID)] raises [TypeError] when the
    identifier is [None]. *)
Definition about_project (env : Env) (b : t) : outcome unit * t :=
  match SPREADSHEET_ID env with
  | None => (Raised TypeError, b)
  | Some _ =>
      let b1 := send (edit_text about_text (Some get_main_menu)) b in
      (Ok tt, send (callback_answer None) b1)
  end.

(** The [Command] filter of aiogram: the first word of the text (or
    caption) is [/name], optionally followed by [@mention] naming this bot.
    The word is cut at ASCII white space and the mention is compared after
    lowering its ASCII letters. *)
Definition is_command (env : Env) (name : string) (msg_text caption : option string)
  : bool :=
  let txt := match msg_text with
             | Some EmptyString | None => caption
             | Some s => Some s
             end in
  match txt ≫= PyStr.first_word with
  | Some (String prefix rest) =>
      let '(command, mention) := PyStr.partition "@" rest in
      Ascii.eqb prefix "/"
      && (match mention, bot_username env with
          | EmptyString, _ | _, EmptyString => true
          | mn, me => String.eqb (PyStr.lower mn) (PyStr.lower me)
          end)
      && String.eqb command name
  | _ => false
  end.

(** The dispatcher: the first registered handler whose filter accepts the
    event runs; an event no filter accepts changes nothing. *)
Definition feed_update (env : Env) (ev : event) (b : t) : outcome unit * t :=
  match ev with
  | Message msg_text caption =>
      if is_command env "start" msg_text caption then cmd_start b
      else if is_command env "stats" msg_text caption then cmd_stats env b
      else if decide (state b = Some waiting_comment)
           then process_comment msg_text b
           else (Ok tt, b)
  | CallbackQuery user d =>
      if String.eqb d "start_feedback" then start_feedback b
      else if PyStr.startswith "rate_" d then process_rating env d b
      else if PyStr.startswith "type_" d then process_type d b
      else if String.eqb d "submit" then submit_feedback env user b
      else if String.eqb d "edit" then edit_feedback b
      else if String.eqb d "cancel" then cancel_feedback b
      else if String.eqb d "show_stats" then show_stats env b
      else if String.eqb d "about" then about_project env b
      else (Ok tt, b)
  end.

(** A run: the events are handled one at a time, each under its own
    environment; a handler that raises leaves the state where it stopped. *)
Fixpoint run (evs : list (Env * event)) (b : t) : t :=
  match evs with
  | [] => b
  | (env, ev) :: rest => run rest (feed_update env ev b).2
  end.

End Bot.

(** ** google_sheets_service.py *)

Module GoogleSheetsService.

(** [l[start:stop]] *)
Definition slice {A} (start stop : Z) (l : list A) : list A :=
  let n := Z.of_nat (length l) in
  let norm i := if i <? 0 then Z.max 0 (n + i) else Z.min i n in
  let a := norm start in
  let b := norm stop in
  take (Z.to_nat (b - a)) (drop (Z.to_nat a) l).

(** The fields of the service object. *)
Record t := {
  spreadsheet_id : option string;
  client : bool;
  sheet : bool;
  _stats_cache : option (gmap string statval);
  _cache_time : option Z
}.

Definition CACHE_TIMEOUT : Z := 60.

(** The first worksheet of the spreadsheet, and the number of
    [get_all_values] calls it has served. *)
Record Remote := {
  rows : Sheet;
  get_all_values_calls : nat
}.

Definition headers : list pyval :=
  map VStr
    [ "Timestamp"; "User ID"; "Username"; "First Name"; "Last Name";
      "Rating"; "Type"; "Comment"; "Status"; "Language Code"; "Chat ID";
      "Platform"; "Bot Version"; "Session ID" ].

(** [_initialize_headers]: the header row is inserted above everything when
    the first row shows no value.  The method catches what its remote calls
    raise: when they fail, nothing is inserted and the caller is not told. *)
Definition _initialize_headers (env : Env) (r : Remote) : Remote :=
  let first_row_empty :=
    match get_all_values (rows r) with
    | [] => true
    | row :: _ => forallb (String.eqb EmptyString) row
    end in
  if headers_ok env && first_row_empty
  then {| rows := headers :: rows r;
          get_all_values_calls := get_all_values_calls r |}
  else r.

Definition truthy_str (x : option string) : bool :=
  match x with
  | Some EmptyString | None => false
  | Some _ => true
  end.

Definition connect (env : Env) (s : t) (r : Remote) : bool * (t * Remote) :=
  if creds_ok env then
    let s1 := {| spreadsheet_id := spreadsheet_id s; client := true;
                 sheet := sheet s; _stats_cache := _stats_cache s;
                 _cache_time := _cache_time s |} in
    if truthy_str (spreadsheet_id s) then
      if api_ok env then
        (true, ({| spreadsheet_id := spreadsheet_id s; client := true;
                   sheet := true; _stats_cache := _stats_cache s;
                   _cache_time := _cache_time s |},
                _initialize_headers env r))
      else (false, (s1, r))
    else (false, (s1, r))
  else (false, (s, r)).

Inductive save_error := connect_failed | save_failed.

Record save_result := {
  success : bool;
  row_number : option Z;
  error : option save_error;
  timestamp : option string
}.

Import GoogleSheetsManager (get).

Definition row_data (env : Env) (user_data feedback_data : gmap string pyval)
  : list pyval :=
  [ VStr (now_text env);
    VStr (py_str (get user_data "id" (VStr EmptyString)));
    get user_data "username" (VStr EmptyString);
    get user_data "first_name" (VStr EmptyString);
    get user_data "last_name" (VStr EmptyString);
    VStr (py_str (get feedback_data "rating" (VStr EmptyString)));
    get feedback_data "type" (VStr EmptyString);
    get feedback_data "comment" (VStr EmptyString);
    VStr "🆕 Новый";
    get user_data "language_code" (VStr "ru");
    VStr (py_str (get user_data "chat_id" (VStr EmptyString)));
    VStr "Telegram";
    VStr "1.0";
    get feedback_data "session_id" (VStr EmptyString) ].

Definition save_feedback (env : Env) (user_data feedback_data : gmap string pyval)
  (s : t) (r : Remote) : save_result * (t * Remote) :=
  let '(connected, (s1, r1)) :=
    if client s && sheet s then (true, (s, r)) else connect env s r in
  if negb connected then
    ({| success := false; row_number := None;
        error := Some connect_failed; timestamp := None |}, (s1, r1))
  else if api_ok env then
    let appended := (rows r1 ++ [row_data env user_data feedback_data])%list in
    let all_values := get_all_values appended in
    let r2 := {| rows := appended;
                 get_all_values_calls := S (get_all_values_calls r1) |} in
    let s2 := {| spreadsheet_id := spreadsheet_id s1; client := client s1;
                 sheet := sheet s1; _stats_cache := None;
                 _cache_time := _cache_time s1 |} in
    ({| success := true; row_number := Some (Z.of_nat (length all_values));
        error := None; timestamp := Some (now_text env) |}, (s2, r2))
  else
    ({| success := false; row_number := None;
        error := Some save_failed; timestamp := Some (now_text env) |}, (s1, r1)).

(** One entry of [get_all_feedbacks]: the cells by column title, and the
    [_row] entry, the row's number in the sheet, kept apart from the cells
    (no column is taken to be titled _row). *)
Record feedback := {
  fields : gmap string string;
  _row : Z
}.

(** [feedback[header] = row[j] if j < len(row) else empty], column by column *)
Fixpoint fill (hs row : list string) (d : gmap string string)
  : gmap string string :=
  match hs with
  | [] => d
  | h :: hs' => fill hs' (tail row) (<[h := default EmptyString (head row)]> d)
  end.

(** The loop over the data rows, counting from [i]: a row shorter than the
    header is passed over. *)
Fixpoint to_feedbacks (hs : list string) (i : Z) (data : list (list string))
  : list feedback :=
  match data with
  | [] => []
  | row :: rest =>
      if (length hs <=? length row)%nat
      then {| fields := fill hs row ∅; _row := i |} :: to_feedbacks hs (i + 1) rest
      else to_feedbacks hs (i + 1) rest
  end.

Definition get_all_feedbacks (limit : Z) (env : Env) (s : t) (r : Remote)
  : list feedback * (t * Remote) :=
  let '(s1, r1) := if sheet s then (s, r) else (connect env s r).2 in
  if sheet s1 && api_ok env then
    let all_values := get_all_values (rows r1) in
    let r2 := {| rows := rows r1;
                 get_all_values_calls := S (get_all_values_calls r1) |} in
    match all_values with
    | hs :: _ :: _ =>
        (to_feedbacks hs 2 (slice 1 (limit + 1) all_values), (s1, r2))
    | _ => ([], (s1, r2))
    end
  else ([], (s1, r1)).

(** [d[k] = d.get(k, 0) + 1] *)
Definition count_incr (k : string) (d : gmap string Z) : gmap string Z :=
  <[k := default 0 (d !! k) + 1]> d.

Definition count {A} (f : A -> bool) (l : list A) : Z :=
  Z.of_nat (length (List.filter f l)).

(** [fb.get(k, dflt)] *)
Definition fb_get (fb : feedback) (k dflt : string) : string :=
  default dflt (fields fb !! k).

(** The loop over the entries, for the ratings: [int] raises on a digit
    string it cannot read. *)
Fixpoint collect_ratings (u : PyStr.Runtime) (fbs : list feedback)
  : outcome (list Z) :=
  match fbs with
  | [] => Ok []
  | fb :: rest =>
      match fields fb !! "Rating" with
      | Some c =>
          if negb (String.eqb c EmptyString) && PyStr.isdigit u c
          then match PyStr.int u c with
               | Some n => rs ← collect_ratings u rest; Ok (n :: rs)
               | None => Raised ValueError
               end
          else collect_ratings u rest
      | None => collect_ratings u rest
      end
  end.

(** What the loop takes from one entry when it does not raise: the integer
    [int] reads from the Rating field, for a field that passes [isdigit]. *)
Definition digit_rating (u : PyStr.Runtime) (fb : feedback) : option Z :=
  c ← fields fb !! "Rating"; if PyStr.isdigit u c then PyStr.int u c else None.

Definition digit_ratings (u : PyStr.Runtime) (fbs : list feedback) : list Z :=
  omap (digit_rating u) fbs.

(** Entries whose Rating fields the loop can take in. *)
Definition tame_ratings (u : PyStr.Runtime) (fbs : list feedback) : bool :=
  forallb (fun fb => match fields fb !! "Rating" with
                     | Some c => PyStr.tame u c
                     | None => true
                     end) fbs.

Definition not_given : string := "Не указан".

Definition distribution (k : string) (fbs : list feedback) : gmap string Z :=
  foldl (fun d fb => count_incr (fb_get fb k not_given) d) ∅ fbs.

Definition has_comment (u : PyStr.Runtime) (fb : feedback) : bool :=
  match PyStr.strip u (fb_get fb "Comment" EmptyString) with
  | [] => false
  | _ => true
  end.

(** [datetime.now().date()] as a day number. *)
Definition today_of (env : Env) : Z := now env / 86400000000.

Definition is_today (env : Env) (fb : feedback) : bool :=
  match strptime_date env (fb_get fb "Timestamp" EmptyString) with
  | Some d => d =? today_of env
  | None => false
  end.

Definition in_last_week (env : Env) (fb : feedback) : bool :=
  match strptime_date env (fb_get fb "Timestamp" EmptyString) with
  | Some d => today_of env - d <=? 7
  | None => false
  end.

Definition rating_dist (ratings : list Z) : gmap string Z :=
  foldl (fun d r => count_incr (PyStr.of_int r) d)
    ({[ "1" := 0; "2" := 0; "3" := 0; "4" := 0; "5" := 0 ]} : gmap string Z)
    ratings.

Definition empty_stats : gmap string statval :=
  {[ "total" := SInt 0;
     "average_rating" := SInt 0;
     "rating_distribution" := SCounts ∅;
     "type_distribution" := SCounts ∅;
     "last_week" := SInt 0;
     "today" := SInt 0;
     "with_comments" := SInt 0;
     "status_distribution" := SCounts ∅;
     "last_update" := SStr "Нет данных" ]}.

Definition error_stats (e : exn) : gmap string statval :=
  {[ "total" := SInt 0; "average_rating" := SInt 0; "error" := SErr e ]}.

(** [sum(ratings) / len(ratings) if ratings else 0]: a float, or the
    integer 0. *)
Definition avg_rating (ratings : list Z) : outcome (option PyFloat.float) :=
  match ratings with
  | [] => Ok None
  | _ =>
      match PyFloat.int_truediv (GoogleSheetsManager.sum ratings)
              (Z.of_nat (length ratings)) with
      | Some x => Ok (Some x)
      | None => Raised OverflowError
      end
  end.

(** The body of the [try] block of [get_statistics] after the bulk read. *)
Definition compute_statistics (env : Env) (feedbacks : list feedback)
  : outcome (gmap string statval) :=
  match feedbacks with
  | [] => Ok empty_stats
  | first :: _ =>
      ratings ← collect_ratings (runtime env) feedbacks;
      avg ← avg_rating ratings;
      let n := Z.of_nat (length feedbacks) in
      let with_comments := count (has_comment (runtime env)) feedbacks in
      comment_percentage ←
        match PyFloat.int_truediv with_comments n with
        | Some x => Ok (PyFloat.mul_const x 100)
        | None => Raised OverflowError
        end;
      Ok ({[ "total" := SInt n;
             "average_rating" :=
               match avg with
               | Some x => SFloat (PyFloat.round x 2)
               | None => SInt 0
               end;
             "rating_distribution" := SCounts (rating_dist ratings);
             "type_distribution" := SCounts (distribution "Type" feedbacks);
             "status_distribution" := SCounts (distribution "Status" feedbacks);
             "last_week" := SInt (count (in_last_week env) feedbacks);
             "today" := SInt (count (is_today env) feedbacks);
             "with_comments" := SInt with_comments;
             "comment_percentage" := SFloat (PyFloat.round comment_percentage 1);
             "last_update" := SStr (fb_get first "Timestamp" EmptyString);
             "success_rate" :=
               match avg with
               | Some x =>
                   if PyFloat.gt0 x
                   then SFloat (PyFloat.round
                                  (PyFloat.mul_const (PyFloat.div_const x 5) 100) 1)
                   else SInt 0
               | None => SInt 0
               end ]} : gmap string statval)
  end.

(** [timedelta.seconds] of a difference given in microseconds: the seconds
    within the day, the whole days being held apart. *)
Definition timedelta_seconds (d : Z) : Z := (d / 1000000) mod 86400.

(** The cache test of [get_statistics]. *)
Definition cached (force_refresh : bool) (env : Env) (s : t)
  : option (gmap string statval) :=
  if force_refresh then None
  else match _stats_cache s, _cache_time s with
       | Some d, Some t0 =>
           if (0 <? size d)%nat
              && (timedelta_seconds (now env - t0) <? CACHE_TIMEOUT)
           then Some d else None
       | _, _ => None
       end.

Definition get_statistics (force_refresh : bool) (env : Env) (s : t) (r : Remote)
  : gmap string statval * (t * Remote) :=
  match cached force_refresh env s with
  | Some d => (d, (s, r))
  | None =>
      let '(feedbacks, (s1, r1)) := get_all_feedbacks 100 env s r in
      match compute_statistics env feedbacks with
      | Ok stats =>
          (stats, ({| spreadsheet_id := spreadsheet_id s1; client := client s1;
                      sheet := sheet s1; _stats_cache := Some stats;
                      _cache_time := Some (now env) |}, r1))
      | Raised e => (error_stats e, (s1, r1))
      end
  end.

End GoogleSheetsService.

(** ** Sample inputs *)

Module Sample.

(** An excerpt of an interpreter's tables: the Arabic-Indic digits are
    decimals, the superscripts one, two and three are digits that are no
    decimals, the next-line control and the no-break space are spaces;
    integer texts may have 4300 digits. *)
Definition tables : PyStr.Runtime :=
  {| PyStr.decimal := fun cp =>
       if ((1632 <=? cp) && (cp <=? 1641))%N
       then Some (Z.of_N cp - 1632) else None;
     PyStr.other_digit := fun cp => ((cp =? 178) || (cp =? 179) || (cp =? 185))%N;
     PyStr.space := fun cp => ((cp =? 133) || (cp =? 160))%N;
     PyStr.max_str_digits := 4300 |}.

(** The environment at a given time of the clock, in seconds, with the
    given answers of the store and the given admin. *)
Definition env_with (creds api : bool) (secs admin : Z) : Env :=
  {| creds_ok := creds; api_ok := api; headers_ok := true;
     now := secs * 1000000;
     now_text := "2024-01-01 10:00:00";
     strptime_date := fun _ => None;
     ADMIN_ID := admin; SPREADSHEET_ID := Some "sheet-id";
     bot_username := "feedback_bot"; runtime := tables |}.

(** An environment in which the credentials load and the remote calls go
    through; no admin is configured. *)
Definition env_up : Env := env_with true true 0 0.

Definition ann : Bot.User :=
  {| Bot.id := 7; Bot.username := Some "ann";
     Bot.first_name := "Ann"; Bot.last_name := None |}.

(** A fresh session next to an empty sheet. *)
Definition idle : Bot.t :=
  {| Bot.state := None; Bot.data := ∅;
     Bot.sheets_manager :=
       {| GoogleSheetsManager.client := false; GoogleSheetsManager.sheet := [] |};
     Bot.outbox := [] |}.

(** A session at the confirmation step with a complete draft. *)
Definition confirming : Bot.t :=
  {| Bot.state := Some Bot.confirmation;
     Bot.data := {[ "rating" := VInt 5; "type" := VStr "Идея";
                    "comment" := VStr "ok" ]};
     Bot.sheets_manager :=
       {| GoogleSheetsManager.client := true; GoogleSheetsManager.sheet := [] |};
     Bot.outbox := [] |}.

(** A session waiting for the comment, rating and type already chosen. *)
Definition commenting : Bot.t :=
  {| Bot.state := Some Bot.waiting_comment;
     Bot.data := {[ "rating" := VInt 4; "type" := VStr "Ошибка" ]};
     Bot.sheets_manager :=
       {| GoogleSheetsManager.client := true; GoogleSheetsManager.sheet := [] |};
     Bot.outbox := [] |}.

(** A connected service object with nothing cached. *)
Definition service : GoogleSheetsService.t :=
  {| GoogleSheetsService.spreadsheet_id := Some "sheet-id";
     GoogleSheetsService.client := true;
     GoogleSheetsService.sheet := true;
     GoogleSheetsService._stats_cache := None;
     GoogleSheetsService._cache_time := None |}.

(** A data row as the service writes it, with the given rating. *)
Definition data_row (rating : Z) : list pyval :=
  GoogleSheetsService.row_data env_up
    {[ "id" := VInt 7; "username" := VStr "ann"; "first_name" := VStr "Ann" ]}
    {[ "rating" := VInt rating; "type" := VStr "Идея"; "comment" := VStr "ok" ]}.

(** The worksheet with its header row and [n] data rows rated 5. *)
Definition remote_with (n : nat) : GoogleSheetsService.Remote :=
  {| GoogleSheetsService.rows :=
       GoogleSheetsService.headers :: repeat (data_row 5) n;
     GoogleSheetsService.get_all_values_calls := 0 |}.

(** The clock [secs] seconds after that of [env_up]. *)
Definition env_at (secs : Z) : Env := env_with true true secs 0.

(** A sheet of the manager: a header and rows with the given rating
    cells. *)
Definition rated_sheet (ratings : list string) : Sheet :=
  [VStr "Timestamp"] ::
  map (fun c => [ VStr "2024-01-01 09:00:00"; VStr "7"; VStr "ann"; VStr "Ann";
                  VStr EmptyString; VStr c; VStr "Идея"; VStr "ok";
                  VStr "новый" ]) ratings.

End Sample.

(** ** Runs of the bot: what is looked at *)

Module Runs.

(** The callback that reaches [submit_feedback]. *)
Definition is_submit (ev : Bot.event) : bool :=
  match ev with
  | Bot.CallbackQuery _ d => String.eqb d "submit"
  | Bot.Message _ _ => false
  end.

(** A draft as the handlers write it: the rating an integer, the type one of
    the names of [type_names], the comment a text or [None]. *)
Definition draft_ok (d : gmap string pyval) : Prop :=
  (forall v, d !! "rating" = Some v -> exists n, v = VInt n)
  /\ (forall v, d !! "type" = Some v ->
        exists k name, Bot.type_names !! k = Some name /\ v = VStr name)
  /\ (forall v, d !! "comment" = Some v -> v = VNone \/ exists c, v = VStr c).

(** A row as [save_feedback] of the sheets manager writes it from such a
    draft. *)
Definition row_ok (row : list pyval) : Prop :=
  length row = 9%nat
  /\ row !! 8%nat = Some (VStr "новый")
  /\ (row !! 5%nat = Some (VStr EmptyString)
      \/ exists n, row !! 5%nat = Some (VStr (PyStr.of_int n)))
  /\ (row !! 6%nat = Some (VStr EmptyString)
      \/ exists k name, Bot.type_names !! k = Some name
                        /\ row !! 6%nat = Some (VStr name))
  /\ (row !! 7%nat = Some VNone \/ exists c, row !! 7%nat = Some (VStr c)).

(** The name a type payload stands for: the second of the pieces the
    underscores cut it into, looked up in [type_names]. *)
Definition payload_type (cb_data : string) : option string :=
  PyStr.split "_" cb_data !! 1%nat ≫= (Bot.type_names !!.).


End Runs.

(** ** Proof automation *)

(** Looks a concrete key up in a dictionary written as a chain of
    inserts. *)
Ltac lookup_key :=
  repeat (rewrite lookup_insert_ne by discriminate);
  first [ apply lookup_insert_eq
        | apply lookup_singleton_eq
        | rewrite lookup_singleton_ne by discriminate; reflexivity
        | apply lookup_empty ].

(** * Properties *)

(** ** Text: what [isdigit] and [int] make of ASCII digits *)

Lemma length_list_ascii_of_string s :
  length (list_ascii_of_string s) = String.length s.
Proof. induction s; simpl; congruence. Qed.

Lemma ascii_digit_range c :
  PyStr.ascii_digit c = true -> (48 <= N_of_ascii c <= 57)%N.
Proof.
  unfold PyStr.ascii_digit. intros H. apply andb_true_iff in H as [H1 H2].
  apply N.leb_le in H1, H2. lia.
Qed.

(** A text of ASCII characters is its own sequence of code points. *)
Lemma chars_ascii s :
  forallb (fun c => (N_of_ascii c <? 128)%N) (list_ascii_of_string s) = true ->
  PyStr.chars s = N_of_ascii <$> list_ascii_of_string s.
Proof.
  unfold PyStr.chars. induction (list_ascii_of_string s) as [|c l IH];
    [reflexivity|].
  cbn [forallb fmap list_fmap fold_right]. intros H.
  apply andb_true_iff in H as [Hc Hl]. specialize (IH Hl).
  destruct (fold_right PyStr.utf8_step (0%N, 0%N, []) (N_of_ascii <$> l))
    as [[acc bits] out].
  cbn [snd] in IH. subst out. unfold PyStr.utf8_step. rewrite Hc. reflexivity.
Qed.

Lemma chars_digits s :
  forallb PyStr.ascii_digit (list_ascii_of_string s) = true ->
  PyStr.chars s = N_of_ascii <$> list_ascii_of_string s.
Proof.
  intros H. apply chars_ascii. rewrite forallb_forall in *.
  intros c Hc. specialize (H c Hc). apply ascii_digit_range in H.
  apply N.ltb_lt. lia.
Qed.

Lemma is_digit_ascii u c :
  PyStr.ascii_digit c = true -> PyStr.is_digit u (N_of_ascii c) = true.
Proof.
  intros H. pose proof (ascii_digit_range c H) as R. unfold PyStr.is_digit.
  assert (H1 : (N_of_ascii c <? 128)%N = true) by (apply N.ltb_lt; lia).
  rewrite H1. exact H.
Qed.

Lemma int_char_ascii u c :
  PyStr.ascii_digit c = true ->
  PyStr.int_char_of u (N_of_ascii c)
  = PyStr.IDigit (Z.of_N (N_of_ascii c) - 48).
Proof.
  intros H. pose proof (ascii_digit_range c H) as R. unfold PyStr.int_char_of.
  assert (H1 : (N_of_ascii c <? 128)%N = true) by (apply N.ltb_lt; lia).
  rewrite H1. unfold PyStr.ascii_digit in H. rewrite H. reflexivity.
Qed.

(** A non-empty text of ASCII digits is a digit string. *)
Lemma isdigit_plain u s :
  s <> EmptyString ->
  forallb PyStr.ascii_digit (list_ascii_of_string s) = true ->
  PyStr.isdigit u s = true.
Proof.
  intros Hne H. unfold PyStr.isdigit. rewrite (chars_digits s H).
  destruct s as [|c s]; [congruence|].
  cbn [list_ascii_of_string fmap list_fmap] in *.
  change (forallb (PyStr.is_digit u)
            (N_of_ascii <$> (c :: list_ascii_of_string s)) = true).
  rewrite forallb_forall in *. intros cp Hcp.
  apply list_elem_of_In, list_elem_of_fmap in Hcp as (c' & -> & Hc').
  apply is_digit_ascii, H, list_elem_of_In, Hc'.
Qed.

Lemma int_digits_plain u l : forall acc count,
  forallb PyStr.ascii_digit l = true ->
  PyStr.int_digits acc count true (PyStr.int_char_of u <$> (N_of_ascii <$> l))
  = Some (PyStr.digits_value acc l, (count + N.of_nat (length l))%N, []).
Proof.
  induction l as [|c l IH]; intros acc count H.
  - cbn. rewrite N.add_0_r. reflexivity.
  - cbn [forallb] in H. apply andb_true_iff in H as [Hc Hl].
    cbn [fmap list_fmap]. rewrite (int_char_ascii u c Hc).
    cbn [PyStr.int_digits]. rewrite (IH _ _ Hl).
    unfold PyStr.digits_value. cbn [fold_left length].
    replace (count + 1 + N.of_nat (length l))%N
      with (count + N.of_nat (S (length l)))%N by lia.
    reflexivity.
Qed.

Lemma digits_value_bound l : forall acc,
  0 <= acc -> forallb PyStr.ascii_digit l = true ->
  0 <= PyStr.digits_value acc l < (acc + 1) * 10 ^ Z.of_nat (length l).
Proof.
  unfold PyStr.digits_value.
  induction l as [|c l IH]; intros acc Hacc H; [simpl; lia|].
  cbn [forallb] in H. apply andb_true_iff in H as [Hc Hl].
  apply ascii_digit_range in Hc.
  cbn [fold_left length]. rewrite Nat2Z.inj_succ, Z.pow_succ_r by lia.
  assert (Hp : 0 < 10 ^ Z.of_nat (length l)) by (apply Z.pow_pos_nonneg; lia).
  specialize (IH (10 * acc + (Z.of_N (N_of_ascii c) - 48)) ltac:(lia) Hl).
  nia.
Qed.

(** What [int] reads from a non-empty text of at most 640 ASCII digits. *)
Lemma int_plain u s :
  s <> EmptyString ->
  forallb PyStr.ascii_digit (list_ascii_of_string s) = true ->
  (String.length s <= 640)%nat ->
  PyStr.int u s = Some (PyStr.digits_value 0 (list_ascii_of_string s)).
Proof.
  intros Hne H Hlen. unfold PyStr.int. rewrite (chars_digits s H).
  rewrite <- length_list_ascii_of_string in Hlen.
  destruct (list_ascii_of_string s) as [|c l] eqn:E.
  { destruct s; [congruence|discriminate E]. }
  pose proof H as Hall. cbn [forallb] in H. apply andb_true_iff in H as [Hc Hl].
  cbn [fmap list_fmap]. rewrite (int_char_ascii u c Hc).
  cbn [PyStr.skip_space]. unfold PyStr.int_literal.
  cbn [PyStr.int_digits]. rewrite (int_digits_plain u l _ _ Hl).
  cbn [PyStr.skip_space].
  assert (Hc640 : (640 <? 0 + 1 + N.of_nat (length l))%N = false).
  { apply N.ltb_ge. cbn [length] in Hlen. lia. }
  rewrite Hc640. reflexivity.
Qed.

Lemma pow_10_300 : 10 ^ 300 < 2 ^ 1023.
Proof. vm_compute. reflexivity. Qed.

Lemma isdigit_nonempty u s : PyStr.isdigit u s = true -> s <> EmptyString.
Proof. intros H ->. discriminate H. Qed.

(** A digit string that is tame is read by [int], as a natural number that
    a float can hold. *)
Lemma tame_digit u c :
  PyStr.tame u c = true -> PyStr.isdigit u c = true ->
  exists n, PyStr.int u c = Some n /\ 0 <= n < 2 ^ 1023.
Proof.
  unfold PyStr.tame, PyStr.plain_digits. intros Ht Hd. rewrite Hd in Ht.
  cbn [negb orb] in Ht. apply andb_true_iff in Ht as [Hlen Hall].
  apply Nat.leb_le in Hlen.
  rewrite (int_plain u c (isdigit_nonempty u c Hd) Hall ltac:(lia)).
  eexists. split; [reflexivity|].
  pose proof (digits_value_bound (list_ascii_of_string c) 0 ltac:(lia) Hall) as Hb.
  rewrite length_list_ascii_of_string in Hb.
  assert (10 ^ Z.of_nat (String.length c) <= 10 ^ 300)
    by (apply Z.pow_le_mono_r; lia).
  pose proof pow_10_300. lia.
Qed.

(** ** Floats: the quotient of two integers is finite *)

Lemma round_half_even_bounds p d :
  0 < d -> p / d <= PyFloat.round_half_even p d <= p / d + 1.
Proof.
  intros Hd. unfold PyFloat.round_half_even.
  destruct (2 * (p mod d) <? d); [lia|].
  destruct (d <? 2 * (p mod d)); [lia|].
  destruct (Z.even (p / d)); lia.
Qed.

Lemma floor_log2_lower a d :
  0 < a -> 0 < d -> 0 <= PyFloat.floor_log2 a d ->
  d * 2 ^ PyFloat.floor_log2 a d <= a.
Proof.
  intros Ha Hd. unfold PyFloat.floor_log2.
  set (e0 := Z.log2 a - Z.log2 d).
  destruct (0 <=? e0) eqn:He0.
  - apply Z.leb_le in He0.
    destruct (Z.ltb_spec a (d * 2 ^ e0)) as [Hlt|Hge]; [|lia].
    intros He.
    pose proof (Z.log2_spec a Ha) as [Hla _].
    pose proof (Z.log2_spec d Hd) as [_ Hld].
    assert (Hp : 2 ^ (Z.log2 d + 1) * 2 ^ (e0 - 1) = 2 ^ Z.log2 a).
    { rewrite <- Z.pow_add_r by (pose proof (Z.log2_nonneg d); lia).
      f_equal. subst e0. lia. }
    assert (0 < 2 ^ (e0 - 1)) by (apply Z.pow_pos_nonneg; lia).
    nia.
  - apply Z.leb_gt in He0.
    destruct (a * 2 ^ (- e0) <? d); lia.
Qed.

Lemma nearest_pos_small a d :
  0 < a -> 0 < d -> a < d * 2 ^ 1023 ->
  let '(m, u) := PyFloat.nearest_pos a d in PyFloat.too_large m u = false.
Proof.
  intros Ha Hd Hlt. unfold PyFloat.nearest_pos, PyFloat.too_large.
  set (fl := PyFloat.floor_log2 a d).
  set (u := Z.max (fl - 52) (-1074)).
  destruct (Z.leb_spec 0 u) as [Hu|Hu]; [|reflexivity].
  simpl. apply Z.leb_gt.
  assert (Hfl : 0 <= fl) by lia.
  pose proof (floor_log2_lower a d Ha Hd Hfl) as Hlow. fold fl in Hlow.
  assert (Hfl' : fl < 1023).
  { destruct (Z.lt_ge_cases fl 1023) as [|Hge]; [assumption|exfalso].
    assert (2 ^ 1023 <= 2 ^ fl) by (apply Z.pow_le_mono_r; lia).
    nia. }
  assert (Hu' : u <= 970) by lia.
  assert (Hpu : 0 < 2 ^ u) by (apply Z.pow_pos_nonneg; lia).
  assert (Hdu : 0 < d * 2 ^ u) by nia.
  pose proof (round_half_even_bounds a (d * 2 ^ u) Hdu) as [_ Hm].
  set (m := PyFloat.round_half_even a (d * 2 ^ u)) in *.
  assert (Hq : a / (d * 2 ^ u) * 2 ^ u < 2 ^ 1023).
  { pose proof (Z.mul_div_le a (d * 2 ^ u) Hdu).
    assert (0 < 2 ^ 1023) by (apply Z.pow_pos_nonneg; lia).
    nia. }
  assert (H970 : 2 ^ u <= 2 ^ 970) by (apply Z.pow_le_mono_r; lia).
  assert (Hsum : 2 ^ 1023 + 2 ^ 970 < 2 ^ 1024).
  { change 1024 with (Z.succ 1023). rewrite Z.pow_succ_r by lia.
    assert (2 ^ 970 < 2 ^ 1023) by (apply Z.pow_lt_mono_r; lia). lia. }
  nia.
Qed.

Lemma int_truediv_finite a b :
  0 < b -> Z.abs a < b * 2 ^ 1023 ->
  exists q, PyFloat.int_truediv a b = Some (PyFloat.Fin q).
Proof.
  intros Hb Ha. destruct b as [|d|d]; try lia.
  unfold PyFloat.int_truediv, PyFloat.nearest. simpl Qnum. simpl Qden.
  destruct a as [|p|p].
  - eexists; reflexivity.
  - pose proof (nearest_pos_small (Zpos p) (Zpos d)) as H.
    destruct (PyFloat.nearest_pos (Z.pos p) (Z.pos d)) as [m u].
    rewrite H by lia. eexists; reflexivity.
  - pose proof (nearest_pos_small (Zpos p) (Zpos d)) as H.
    destruct (PyFloat.nearest_pos (Z.pos p) (Z.pos d)) as [m u].
    rewrite H by lia. eexists; reflexivity.
Qed.

(** ** Floats: rounding stays close *)

Lemma round_half_even_error p d :
  0 < d -> 2 * Z.abs (PyFloat.round_half_even p d * d - p) <= d.
Proof.
  intros Hd. unfold PyFloat.round_half_even.
  pose proof (Z.div_mod p d ltac:(lia)) as Hdm.
  pose proof (Z.mod_pos_bound p d Hd) as Hr.
  destruct (Z.ltb_spec (2 * (p mod d)) d); [nia|].
  destruct (Z.ltb_spec d (2 * (p mod d))); [nia|].
  destruct (Z.even (p / d)); nia.
Qed.

Lemma floor_log2_upper a d :
  0 < a -> 0 < d -> a < d * 2 ^ 41 -> PyFloat.floor_log2 a d <= 40.
Proof.
  intros Ha Hd Hlt.
  destruct (Z.le_gt_cases (PyFloat.floor_log2 a d) 40) as [|Hgt]; [assumption|].
  exfalso.
  pose proof (floor_log2_lower a d Ha Hd ltac:(lia)) as Hlow.
  assert (2 ^ 41 <= 2 ^ PyFloat.floor_log2 a d) by (apply Z.pow_le_mono_r; lia).
  nia.
Qed.

(** A positive rational below [2^41] rounds to a finite float no further
    than [2^-13] from it. *)
Lemma nearest_close (a : Z) (d : positive) :
  0 < a -> a < Zpos d * 2 ^ 41 ->
  exists x, PyFloat.nearest (a # d) = PyFloat.Fin x
            /\ (0 <= x)%Q
            /\ (Qabs (x - (a # d)) <= 1 # 8192)%Q.
Proof.
  intros Ha Hlt. unfold PyFloat.nearest. simpl Qnum. simpl Qden.
  destruct a as [|p|p]; try lia.
  pose proof (floor_log2_upper (Zpos p) (Zpos d) ltac:(lia) ltac:(lia) Hlt) as Hfl.
  unfold PyFloat.nearest_pos.
  set (u := Z.max (PyFloat.floor_log2 (Z.pos p) (Z.pos d) - 52) (-1074)).
  assert (Hu : -1074 <= u <= -12) by lia.
  destruct (Z.leb_spec 0 u) as [|_]; [lia|].
  set (P := 2 ^ (- u)).
  assert (HP : 4096 <= P).
  { change 4096 with (2 ^ 12). apply Z.pow_le_mono_r; lia. }
  set (m := PyFloat.round_half_even (Z.pos p * P) (Z.pos d)).
  pose proof (round_half_even_error (Z.pos p * P) (Z.pos d) ltac:(lia)) as He.
  fold m in He.
  unfold PyFloat.too_large.
  destruct (Z.leb_spec 0 u) as [|_]; [lia|]. cbn [andb].
  assert (Hm : 0 <= m).
  { pose proof (round_half_even_bounds (Z.pos p * P) (Z.pos d) ltac:(lia)) as [Hb _].
    fold m in Hb. pose proof (Z.div_pos (Z.pos p * P) (Z.pos d)). nia. }
  eexists. split; [reflexivity|].
  unfold PyFloat.dyadic.
  destruct (Z.leb_spec 0 u) as [|_]; [lia|]. fold P.
  rewrite Qred_correct. split.
  { unfold Qle. simpl. lia. }
  apply Qabs_Qle_condition.
  unfold Qle, Qminus, Qplus, Qopp. simpl Qnum. simpl Qden.
  rewrite Z2Pos.id by lia.
  rewrite !Pos2Z.inj_mul. rewrite Z2Pos.id by lia.
  split; nia.
Qed.

(** [round(x, 2)] of a float between 0 and [2^40] is a finite float no
    further than 1/200 + [2^-13] from it. *)
Lemma round2_close (x : Q) :
  (0 <= x)%Q -> (x <= 2 ^ 40 + 1)%Q ->
  exists y, PyFloat.round (PyFloat.Fin x) 2 = PyFloat.Fin y
            /\ (Qabs (y - x) <= (1 # 200) + (1 # 8192))%Q.
Proof.
  intros H0 Hx. destruct x as [n d]. unfold PyFloat.round.
  cbn [Z.of_N Qnum Qden]. change (10 ^ 2) with 100. change (Z.to_pos 100) with 100%positive.
  set (k := PyFloat.round_half_even (n * 100) (Z.pos d)).
  pose proof (round_half_even_error (n * 100) (Z.pos d) ltac:(lia)) as He.
  pose proof (round_half_even_bounds (n * 100) (Z.pos d) ltac:(lia)) as [Hb _].
  fold k in He, Hb.
  assert (Hn : 0 <= n) by (unfold Qle in H0; simpl in H0; lia).
  assert (Hk : 0 <= k) by (pose proof (Z.div_pos (n * 100) (Z.pos d)); nia).
  assert (Hkx : (Qabs ((k # 100) - (n # d)) <= 1 # 200)%Q).
  { apply Qabs_Qle_condition.
    unfold Qle, Qminus, Qplus, Qopp. simpl Qnum. simpl Qden.
    rewrite !Pos2Z.inj_mul. split; nia. }
  destruct (Z.eq_dec k 0) as [Hk0|Hk0].
  - exists 0%Q. split; [rewrite Hk0; reflexivity|].
    rewrite Hk0 in He.
    apply Qabs_Qle_condition.
    unfold Qle, Qminus, Qplus, Qopp. simpl Qnum. simpl Qden.
    rewrite ?Pos2Z.inj_mul. split; nia.
  - assert (Hlt : k < Z.pos 100 * 2 ^ 41).
    { unfold Qle in Hx. simpl in Hx.
      assert (Hnd : n <= (2 ^ 40 + 1) * Z.pos d).
      { change (Qnum (2 ^ 40 + 1)) with (2 ^ 40 + 1)%Z in Hx.
        change (Z.pos (Qden (2 ^ 40 + 1))) with 1%Z in Hx. lia. }
      assert (2 ^ 40 + 1 < 2 ^ 41) by (vm_compute; reflexivity).
      nia. }
    destruct (nearest_close k 100 ltac:(lia) Hlt) as (y & Hy & _ & Hyk).
    exists y. split; [exact Hy|].
    assert (Heq : (y - (n # d) == (y - (k # 100)) + ((k # 100) - (n # d)))%Q) by ring.
    rewrite Heq.
    eapply Qle_trans; [apply Qabs_triangle|].
    rewrite (Qplus_comm (1 # 200)).
    apply Qplus_le_compat; assumption.
Qed.

Lemma sum_range (B : Z) l :
  Forall (fun r => 0 <= r <= B) l ->
  0 <= GoogleSheetsManager.sum l <= Z.of_nat (length l) * B.
Proof.
  intros H. induction H as [|r l Hr Hl IH]; [simpl; lia|].
  cbn [GoogleSheetsManager.sum fold_right length].
  fold (GoogleSheetsManager.sum l). rewrite Nat2Z.inj_succ. lia.
Qed.

(** The average of ratings between 0 and [2^40], as the code computes it,
    is a finite float within one hundredth of their arithmetic mean. *)
Lemma rounded_mean_close l :
  l <> [] -> Forall (fun r => 0 <= r <= 2 ^ 40) l ->
  exists y,
    PyFloat.round (PyFloat.nearest (GoogleSheetsManager.mean l)) 2 = PyFloat.Fin y
    /\ (Qabs (y - GoogleSheetsManager.mean l) <= 1 # 100)%Q.
Proof.
  intros Hne Hall. pose proof (sum_range _ l Hall) as Hs.
  unfold GoogleSheetsManager.mean.
  set (s := GoogleSheetsManager.sum l) in *.
  assert (Hlen : 0 < Z.of_nat (length l)) by (destruct l; [congruence|simpl; lia]).
  destruct (Z.of_nat (length l)) as [|n|n] eqn:En; try lia.
  simpl Z.to_pos.
  destruct (Z.eq_dec s 0) as [->|Hs0].
  - exists 0%Q. split; [reflexivity|].
    apply Qabs_Qle_condition. unfold Qle, Qminus, Qplus, Qopp. simpl. lia.
  - assert (H41 : 2 ^ 40 < 2 ^ 41) by (vm_compute; reflexivity).
    destruct (nearest_close s n ltac:(lia) ltac:(nia)) as (x & Hx & Hx0 & Hxm).
    rewrite Hx.
    assert (Hmu : (s # n <= 2 ^ 40)%Q).
    { unfold Qle. simpl Qnum. simpl Qden.
      change (Qnum (2 ^ 40)) with (2 ^ 40)%Z.
      change (Z.pos (Qden (2 ^ 40))) with 1%Z. lia. }
    assert (Hxu : (x <= 2 ^ 40 + 1)%Q).
    { apply Qabs_Qle_condition in Hxm as [_ Hup].
      assert (Hx' : (x == (x - (s # n)) + (s # n))%Q) by ring.
      rewrite Hx'.
      apply Qle_trans with ((1 # 8192) + 2 ^ 40)%Q;
        [apply Qplus_le_compat; assumption|].
      rewrite Qplus_comm. apply Qplus_le_r. discriminate. }
    destruct (round2_close x Hx0 Hxu) as (y & Hy & Hyx).
    exists y. split; [exact Hy|].
    assert (Heq : (y - (s # n) == (y - x) + (x - (s # n)))%Q) by ring.
    rewrite Heq.
    eapply Qle_trans; [apply Qabs_triangle|].
    apply Qle_trans with (((1 # 200) + (1 # 8192)) + (1 # 8192))%Q;
      [apply Qplus_le_compat; assumption|].
    discriminate.
Qed.

Import Bot.

(** ** The conversation handlers *)

Lemma cancel_dispatch env user b :
  feed_update env (CallbackQuery user "cancel") b = cancel_feedback b.
Proof. reflexivity. Qed.

Lemma edit_dispatch env user b :
  feed_update env (CallbackQuery user "edit") b = edit_feedback b.
Proof. reflexivity. Qed.

Lemma submit_dispatch env user b :
  feed_update env (CallbackQuery user "submit") b = submit_feedback env user b.
Proof. reflexivity. Qed.

(** C9: in every state of the session, so in every non-Idle one, and for
    every draft, the cancel event leaves no state and an empty draft, and the
    sheets manager with its sheet is exactly what it was: nothing is
    appended. *)
Theorem cancel_returns_to_idle env user (b : Bot.t) :
  let b' := (feed_update env (CallbackQuery user "cancel") b).2 in
  (feed_update env (CallbackQuery user "cancel") b).1 = Ok tt
  /\ state b' = None
  /\ data b' = ∅
  /\ sheets_manager b' = sheets_manager b
  /\ GoogleSheetsManager.sheet (sheets_manager b')
     = GoogleSheetsManager.sheet (sheets_manager b).
Proof. rewrite cancel_dispatch. repeat split. Qed.

(** What a save does to the sheet: one row at the end when the manager is or
    gets connected and the remote calls go through, nothing otherwise.  The
    draft plays no part in the decision. *)
Lemma manager_save_sheet env ud fd (m : GoogleSheetsManager.t) :
  let res := GoogleSheetsManager.save_feedback env ud fd m in
  let reachable :=
    (GoogleSheetsManager.client m || creds_ok env) && api_ok env in
  res.1 = reachable
  /\ GoogleSheetsManager.sheet res.2 =
     if reachable
     then (GoogleSheetsManager.sheet m ++ [GoogleSheetsManager.row_of env ud fd])%list
     else GoogleSheetsManager.sheet m.
Proof.
  unfold GoogleSheetsManager.save_feedback, GoogleSheetsManager.connect.
  destruct m as [c sh]; simpl.
  destruct c, (creds_ok env), (api_ok env); simpl; auto.
Qed.

Lemma submit_manager env user b :
  sheets_manager (submit_feedback env user b).2 =
  (GoogleSheetsManager.save_feedback env
     {[ "id" := VInt (id user);
        "username" := VStr (or_str (username user) EmptyString);
        "first_name" := VStr (first_name user);
        "last_name" := VStr (or_str (last_name user) EmptyString) ]}
     (data b) (sheets_manager b)).2.
Proof.
  unfold submit_feedback.
  destruct (GoogleSheetsManager.save_feedback _ _ _ _) as [ok m]; simpl.
  destruct ok; [destruct (ADMIN_ID env =? 0)|]; simpl; try reflexivity.
  destruct (admin_notice user (data b)); reflexivity.
Qed.

Lemma row_of_draft_cells env ud fd :
  let row := GoogleSheetsManager.row_of env ud fd in
  row !! 5%nat = Some (VStr (from_option py_str EmptyString (fd !! "rating")))
  /\ row !! 6%nat = Some (default (VStr EmptyString) (fd !! "type"))
  /\ row !! 7%nat = Some (default (VStr EmptyString) (fd !! "comment")).
Proof.
  unfold GoogleSheetsManager.row_of, GoogleSheetsManager.get; simpl.
  repeat split. destruct (fd !! "rating"); reflexivity.
Qed.

Lemma process_rating_cases env cb_data (b : Bot.t) :
  let b' := (process_rating env cb_data b).2 in
  sheets_manager b' = sheets_manager b
  /\ match payload_rating env cb_data with
     | Some n =>
         state b' = Some waiting_type
         /\ data b' = <["rating" := VInt n]> (data b)
     | None => state b' = state b /\ data b' = data b
     end.
Proof.
  unfold process_rating.
  destruct (payload_rating env cb_data); simpl; auto.
Qed.

(** The pieces of a split: a text without the separator is one piece, and
    the first piece ends at the first separator. *)
Lemma split_piece sep p :
  forallb (fun c => negb (Ascii.eqb c sep)) (list_ascii_of_string p) = true ->
  PyStr.split sep p = [p]
  /\ forall rest, PyStr.split sep (p +:+ String sep rest)
                  = p :: PyStr.split sep rest.
Proof.
  induction p as [|c p IH]; intros H.
  - split; [reflexivity|]. intros rest.
    change (EmptyString +:+ String sep rest) with (String sep rest).
    cbn [PyStr.split]. rewrite Ascii.eqb_refl. reflexivity.
  - cbn [list_ascii_of_string forallb] in H.
    apply andb_true_iff in H as [Hc Hp]. apply negb_true_iff in Hc.
    destruct (IH Hp) as [I1 I2]. split.
    + cbn [PyStr.split]. rewrite Hc, I1. reflexivity.
    + intros rest.
      change (String c p +:+ String sep rest)
        with (String c (p +:+ String sep rest)).
      cbn [PyStr.split]. rewrite Hc, I2. reflexivity.
Qed.

(** The text a rating payload is read from: what stands between the
    first underscore and the next one, or the end. *)
Lemma payload_rating_piece env p :
  forallb (fun c => negb (Ascii.eqb c "_")) (list_ascii_of_string p) = true ->
  payload_rating env ("rate_" +:+ p) = PyStr.int (runtime env) p
  /\ forall rest,
       payload_rating env ("rate_" +:+ p +:+ String "_" rest)
       = PyStr.int (runtime env) p.
Proof.
  intros H. destruct (split_piece "_" p H) as [S1 S2].
  unfold payload_rating.
  change ("rate_" +:+ p) with ("rate" +:+ String "_" p).
  split.
  - rewrite (proj2 (split_piece "_" "rate" eq_refl) p), S1. reflexivity.
  - intros rest.
    change ("rate_" +:+ p +:+ String "_" rest)
      with ("rate" +:+ String "_" (p +:+ String "_" rest)).
    rewrite (proj2 (split_piece "_" "rate" eq_refl) _), S2. reflexivity.
Qed.

(** C1, the counterexample: the payload rate_9 is accepted as a rating, and
    the run start, rate_9, type_bug, /skip, submit appends a record whose
    rating cell is 9, outside 1..5. *)
Lemma rating_nine_is_accepted_and_saved :
  let accepted := (process_rating Sample.env_up "rate_9" Sample.idle).2 in
  let final :=
    run [ (Sample.env_up, CallbackQuery Sample.ann "start_feedback");
          (Sample.env_up, CallbackQuery Sample.ann "rate_9");
          (Sample.env_up, CallbackQuery Sample.ann "type_bug");
          (Sample.env_up, Message (Some "/skip") None);
          (Sample.env_up, CallbackQuery Sample.ann "submit") ] Sample.idle in
  state accepted = Some waiting_type
  /\ data accepted !! "rating" = Some (VInt 9)
  /\ ~ (1 <= 9 <= 5)
  /\ exists row,
       GoogleSheetsManager.sheet (sheets_manager final) = [row]
       /\ row !! 5%nat = Some (VStr "9").
Proof.
  repeat split; try (vm_compute; reflexivity); [lia|].
  eexists; split; vm_compute; reflexivity.
Qed.

(** C1, amended: the rating handler reads the rating from the second of
    the pieces the underscores cut the payload into, the text between the
    first underscore and the next one or the end: 5 for rate_5_x, 1 for
    rate_1_2.  It accepts the payload exactly when [int] reads that piece as
    an integer, whatever the value, and stores that integer as the draft's
    rating: rate_9 and rate_-3 are accepted; a payload whose piece [int]
    does not read, as the empty piece of rate_, changes neither the state
    nor the draft.  Each rating payload the rating keyboard offers stores a
    rating in 1..5.  A save that goes through appends one row whose rating
    cell is [str] of the draft's rating, or the empty string when the draft
    has none. *)
Theorem process_rating_guard :
  (forall env cb_data (b : Bot.t),
     let b' := (process_rating env cb_data b).2 in
     sheets_manager b' = sheets_manager b
     /\ match payload_rating env cb_data with
        | Some n =>
            state b' = Some waiting_type
            /\ data b' = <["rating" := VInt n]> (data b)
        | None => state b' = state b /\ data b' = data b
        end)
  /\ (forall env p,
        forallb (fun c => negb (Ascii.eqb c "_")) (list_ascii_of_string p) = true ->
        payload_rating env ("rate_" +:+ p) = PyStr.int (runtime env) p
        /\ forall rest,
             payload_rating env ("rate_" +:+ p +:+ String "_" rest)
             = PyStr.int (runtime env) p)
  /\ (forall env,
        payload_rating env "rate_5_x" = Some 5
        /\ payload_rating env "rate_1_2" = Some 1
        /\ payload_rating env "rate_9" = Some 9
        /\ payload_rating env "rate_-3" = Some (-3)
        /\ payload_rating env "rate_" = None)
  /\ (forall env,
        Forall (fun d =>
          if PyStr.startswith "rate_" d
          then exists n, payload_rating env d = Some n /\ 1 <= n <= 5
          else True)
          (callback_data get_rating_keyboard))
  /\ (forall env ud fd (m : GoogleSheetsManager.t),
        let res := GoogleSheetsManager.save_feedback env ud fd m in
        if res.1
        then exists row,
               GoogleSheetsManager.sheet res.2
                 = (GoogleSheetsManager.sheet m ++ [row])%list
               /\ row !! 5%nat
                  = Some (VStr (from_option py_str EmptyString (fd !! "rating")))
        else GoogleSheetsManager.sheet res.2 = GoogleSheetsManager.sheet m).
Proof.
  split; [exact process_rating_cases|].
  split; [exact payload_rating_piece|].
  split; [intros env; repeat split; reflexivity|]. split.
  - intros env. cbn [callback_data].
    constructor; [exists 1; split; [reflexivity|lia]|].
    constructor; [exists 2; split; [reflexivity|lia]|].
    constructor; [exists 3; split; [reflexivity|lia]|].
    constructor; [exists 4; split; [reflexivity|lia]|].
    constructor; [exists 5; split; [reflexivity|lia]|].
    constructor; [exact I|]. constructor.
  - intros env ud fd m res.
    destruct (manager_save_sheet env ud fd m) as [H1 H2].
    fold res in H1, H2. rewrite H1, H2.
    destruct (_ && _); [|reflexivity].
    eexists; split; [reflexivity|]. apply row_of_draft_cells.
Qed.

(** C2, the counterexample: after edit at the confirmation step the draft
    still holds the rating, type and comment, and a submit right after it is
    not rejected: it appends a row made of those answers. *)
Lemma edit_keeps_the_draft :
  let edited :=
    (feed_update Sample.env_up (CallbackQuery Sample.ann "edit")
       Sample.confirming).2 in
  let after :=
    (feed_update Sample.env_up (CallbackQuery Sample.ann "submit") edited).2 in
  state edited = Some waiting_rating
  /\ data edited <> ∅
  /\ data edited !! "rating" = Some (VInt 5)
  /\ data edited !! "type" = Some (VStr "Идея")
  /\ data edited !! "comment" = Some (VStr "ok")
  /\ exists row,
       GoogleSheetsManager.sheet (sheets_manager after) = [row]
       /\ row !! 5%nat = Some (VStr "5")
       /\ row !! 6%nat = Some (VStr "Идея")
       /\ row !! 7%nat = Some (VStr "ok").
Proof.
  repeat split; try (vm_compute; reflexivity).
  - intros H. apply (f_equal (fun d => d !! "rating")) in H.
    vm_compute in H. discriminate.
  - eexists; repeat split; vm_compute; reflexivity.
Qed.

(** C2, amended: after the edit event the session is in waiting_rating and
    the draft is exactly what it was, nothing is discarded; the sheet is
    untouched.  Submit is not guarded by the state or by completeness, so a
    submit right after the edit saves what a submit in place of the edit
    would have saved. *)
Theorem edit_retains_draft env env' user (b : Bot.t) :
  let edited := (feed_update env (CallbackQuery user "edit") b).2 in
  (feed_update env (CallbackQuery user "edit") b).1 = Ok tt
  /\ state edited = Some waiting_rating
  /\ data edited = data b
  /\ sheets_manager edited = sheets_manager b
  /\ sheets_manager (feed_update env' (CallbackQuery user "submit") edited).2
     = sheets_manager (feed_update env' (CallbackQuery user "submit") b).2.
Proof.
  intros edited. subst edited.
  rewrite edit_dispatch, !submit_dispatch, !submit_manager.
  repeat split; reflexivity.
Qed.

(** C3, the counterexample: submit on a session with an empty draft is not
    refused; it appends a row whose rating, type and comment cells are
    empty. *)
Lemma submit_empty_draft_appends :
  let after :=
    (feed_update Sample.env_up (CallbackQuery Sample.ann "submit")
       Sample.idle).2 in
  data Sample.idle = ∅
  /\ GoogleSheetsManager.sheet (sheets_manager Sample.idle) = []
  /\ GoogleSheetsManager.sheet (sheets_manager after)
     = [[ VStr "2024-01-01 10:00:00"; VStr "7"; VStr "ann"; VStr "Ann";
          VStr EmptyString; VStr EmptyString; VStr EmptyString;
          VStr EmptyString; VStr "новый" ]].
Proof. repeat split; vm_compute; reflexivity. Qed.

(** C3, amended: submit does not validate the draft.  Whether a row is
    appended depends only on the store being reachable (the manager is or
    gets connected and the remote calls go through); the row then carries
    [str] of the rating, the type and the comment as the draft has them, the
    empty string standing for each absent one.  Nothing is appended exactly
    when the store is not reachable. *)
Theorem submit_does_not_validate env user (b : Bot.t) :
  let m := sheets_manager b in
  let after := (feed_update env (CallbackQuery user "submit") b).2 in
  let reachable :=
    (GoogleSheetsManager.client m || creds_ok env) && api_ok env in
  if reachable
  then exists row,
         GoogleSheetsManager.sheet (sheets_manager after)
           = (GoogleSheetsManager.sheet m ++ [row])%list
         /\ row !! 5%nat
            = Some (VStr (from_option py_str EmptyString (data b !! "rating")))
         /\ row !! 6%nat = Some (default (VStr EmptyString) (data b !! "type"))
         /\ row !! 7%nat = Some (default (VStr EmptyString) (data b !! "comment"))
  else GoogleSheetsManager.sheet (sheets_manager after)
       = GoogleSheetsManager.sheet m.
Proof.
  intros m after reachable. subst after.
  rewrite submit_dispatch, submit_manager.
  match goal with
  | |- context [GoogleSheetsManager.save_feedback ?e ?u ?f ?mm] =>
      destruct (manager_save_sheet e u f mm) as [_ H]
  end.
  rewrite H. fold m reachable. destruct reachable; [|reflexivity].
  eexists; split; [reflexivity|]. apply row_of_draft_cells.
Qed.

(** A comment given as text: the draft's comment is the empty string for the
    skip marker and the text itself otherwise. *)
Lemma process_comment_text txt (b : Bot.t) :
  data (process_comment (Some txt) b).2 !! "comment"
  = Some (VStr (if String.eqb txt "/skip" then EmptyString else txt)).
Proof.
  unfold process_comment.
  set (c := if String.eqb txt "/skip" then VStr EmptyString else VStr txt).
  assert (Hc : c = VStr (if String.eqb txt "/skip" then EmptyString else txt))
    by (subst c; destruct (String.eqb txt "/skip"); reflexivity).
  rewrite <- Hc.
  destruct (_ ← getitem _ "rating"; _) eqn:E; simpl;
    apply lookup_insert_eq.
Qed.

(** C7, at the failing input: a message without text (a sticker, a photo)
    received while waiting for the comment is taken as the comment, the draft
    then holds [None], the session moves on to confirmation, and submit
    appends a row whose comment cell is [None], not a string. *)
Theorem textless_comment_is_saved_as_none :
  let commented :=
    (feed_update Sample.env_up (Message None None) Sample.commenting).2 in
  let after :=
    (feed_update Sample.env_up (CallbackQuery Sample.ann "submit") commented).2 in
  state commented = Some confirmation
  /\ data commented !! "comment" = Some VNone
  /\ exists row,
       GoogleSheetsManager.sheet (sheets_manager after) = [row]
       /\ row !! 7%nat = Some VNone.
Proof.
  repeat split; try (vm_compute; reflexivity).
  eexists; split; vm_compute; reflexivity.
Qed.

(** ** Statistics of the sheets manager *)

Lemma get_stats_fallback env (m : GoogleSheetsManager.t) :
  (length (GoogleSheetsManager.sheet m) <= 1)%nat
  \/ (GoogleSheetsManager.client m || creds_ok env) && api_ok env = false ->
  (GoogleSheetsManager.get_stats env m).1 = GoogleSheetsManager.fallback.
Proof.
  intros H.
  unfold GoogleSheetsManager.get_stats, GoogleSheetsManager.connect.
  destruct m as [c sh]; simpl in *.
  assert (Hc : GoogleSheetsManager.compute_stats (runtime env) (get_all_values sh)
               = Ok GoogleSheetsManager.fallback
               \/ (c || creds_ok env) && api_ok env = false).
  { destruct H as [H|H]; [left|right; exact H].
    unfold GoogleSheetsManager.compute_stats, get_all_values.
    rewrite length_fmap.
    destruct (Nat.leb_spec (length sh) 1) as [_|Hlt]; [reflexivity|lia]. }
  destruct c, (creds_ok env), (api_ok env); simpl in *;
    try reflexivity;
    destruct Hc as [-> | Hc]; try reflexivity; discriminate.
Qed.

(** C10: when the sheet has no data row (at most the header), or the store
    cannot be read (no connection, or the remote calls fail), [get_stats]
    returns the dictionary with the keys total and average only, and both
    statistics handlers, reached by the /stats command and by the show_stats
    button, raise [KeyError] on last_feedback and send nothing. *)
Theorem stats_handlers_raise_without_data env user (b : Bot.t) :
  (length (GoogleSheetsManager.sheet (sheets_manager b)) <= 1)%nat
  \/ (GoogleSheetsManager.client (sheets_manager b) || creds_ok env)
     && api_ok env = false ->
  (GoogleSheetsManager.get_stats env (sheets_manager b)).1
    = GoogleSheetsManager.fallback
  /\ dom GoogleSheetsManager.fallback = ({[ "total"; "average" ]} : gset string)
  /\ GoogleSheetsManager.fallback !! "last_feedback" = None
  /\ (feed_update env (Message (Some "/stats") None) b).1
     = Raised (KeyError "last_feedback")
  /\ outbox (feed_update env (Message (Some "/stats") None) b).2 = outbox b
  /\ (feed_update env (CallbackQuery user "show_stats") b).1
     = Raised (KeyError "last_feedback")
  /\ outbox (feed_update env (CallbackQuery user "show_stats") b).2 = outbox b.
Proof.
  intros H. pose proof (get_stats_fallback env _ H) as Hf.
  split; [exact Hf|]. split.
  { unfold GoogleSheetsManager.fallback.
    rewrite dom_insert_L, dom_singleton_L. reflexivity. }
  split; [reflexivity|].
  change (feed_update env (Message (Some "/stats") None) b)
    with (cmd_stats env b).
  change (feed_update env (CallbackQuery user "show_stats") b)
    with (show_stats env b).
  unfold cmd_stats, show_stats.
  destruct (GoogleSheetsManager.get_stats env (sheets_manager b)) as [stats m].
  simpl in Hf. subst stats. repeat split.
Qed.

Lemma stats_handlers_raise_without_data_witness :
  ((length (GoogleSheetsManager.sheet (sheets_manager Sample.idle)) <= 1)%nat
   \/ (GoogleSheetsManager.client (sheets_manager Sample.idle)
       || creds_ok Sample.env_up) && api_ok Sample.env_up = false)
  /\ (feed_update Sample.env_up (Message (Some "/stats") None) Sample.idle).1
     = Raised (KeyError "last_feedback").
Proof.
  assert (H : (length (GoogleSheetsManager.sheet (sheets_manager Sample.idle)) <= 1)%nat
              \/ (GoogleSheetsManager.client (sheets_manager Sample.idle)
                  || creds_ok Sample.env_up) && api_ok Sample.env_up = false).
  { left. simpl. lia. }
  split; [exact H|].
  exact (proj1 (proj2 (proj2 (proj2
    (stats_handlers_raise_without_data Sample.env_up Sample.ann Sample.idle H))))).
Defined.

(** ** The average of the sheets manager *)

(** When the loop over the rows returns, it returns the digit ratings. *)
Lemma manager_collect_ratings_ok u rows l :
  GoogleSheetsManager.collect_ratings u rows = Ok l ->
  l = GoogleSheetsManager.digit_ratings u rows.
Proof.
  revert l. induction rows as [|row rows IH]; intros l H.
  - injection H as <-. reflexivity.
  - unfold GoogleSheetsManager.digit_ratings in *.
    cbn [GoogleSheetsManager.collect_ratings omap list_omap] in *.
    unfold GoogleSheetsManager.digit_rating at 1.
    destruct (row !! 5%nat) as [c|]; simpl; [|exact (IH l H)].
    destruct (PyStr.isdigit u c); [|exact (IH l H)].
    destruct (PyStr.int u c) as [n|]; [|discriminate].
    destruct (GoogleSheetsManager.collect_ratings u rows) as [rs|]; [|discriminate].
    cbn in H. injection H as <-. rewrite (IH rs eq_refl). reflexivity.
Qed.

(** On tame rating cells the loop returns, and what it collects a float
    can hold. *)
Lemma manager_collect_ratings u rows :
  GoogleSheetsManager.tame_ratings u rows = true ->
  GoogleSheetsManager.collect_ratings u rows
  = Ok (GoogleSheetsManager.digit_ratings u rows)
  /\ Forall (fun r => Z.abs r < 2 ^ 1023)
       (GoogleSheetsManager.digit_ratings u rows).
Proof.
  induction rows as [|row rows IH]; intros H; [split; [reflexivity|constructor]|].
  cbn [GoogleSheetsManager.tame_ratings forallb] in H.
  apply andb_true_iff in H as [Hrow Hrest].
  destruct (IH Hrest) as [IH1 IH2]. clear IH.
  unfold GoogleSheetsManager.digit_ratings in *.
  cbn [GoogleSheetsManager.collect_ratings omap list_omap].
  unfold GoogleSheetsManager.digit_rating.
  destruct (row !! 5%nat) as [c|]; cbn [mbind option_bind];
    [|split; [exact IH1|exact IH2]].
  destruct (PyStr.isdigit u c) eqn:Hd; [|split; [exact IH1|exact IH2]].
  destruct (tame_digit u c Hrow Hd) as (n & -> & Hn).
  rewrite IH1. split; [reflexivity|]. constructor; [lia|exact IH2].
Qed.

Lemma sum_bound (B : Z) l :
  Forall (fun r => Z.abs r < B) l ->
  l <> [] -> Z.abs (GoogleSheetsManager.sum l) < Z.of_nat (length l) * B.
Proof.
  intros H. induction H as [|r l Hr Hl IH]; [congruence|].
  intros _. cbn [GoogleSheetsManager.sum fold_right length].
  fold (GoogleSheetsManager.sum l).
  destruct l as [|r' l'].
  - simpl. lia.
  - specialize (IH ltac:(discriminate)).
    rewrite Nat2Z.inj_succ. lia.
Qed.

(** The quotient [sum / len] of bounded ratings is a finite float, the one
    nearest to their mean. *)
Lemma truediv_mean l :
  l <> [] -> Forall (fun r => Z.abs r < 2 ^ 1023) l ->
  exists q,
    PyFloat.nearest (GoogleSheetsManager.mean l) = PyFloat.Fin q
    /\ PyFloat.int_truediv (GoogleSheetsManager.sum l) (Z.of_nat (length l))
       = Some (PyFloat.Fin q).
Proof.
  intros Hne Hall.
  pose proof (sum_bound _ l Hall Hne) as Hs.
  assert (Hlen : 0 < Z.of_nat (length l)) by (destruct l; [congruence|simpl; lia]).
  destruct (int_truediv_finite _ _ Hlen Hs) as [q Hq].
  exists q. split; [|exact Hq].
  unfold GoogleSheetsManager.mean.
  unfold PyFloat.int_truediv in Hq.
  destruct (Z.of_nat (length l)) as [|d|d] eqn:E; try lia.
  simpl Z.to_pos.
  destruct (PyFloat.nearest (GoogleSheetsManager.sum l # d)); congruence.
Qed.

Lemma manager_average_of l :
  Forall (fun r => Z.abs r < 2 ^ 1023) l ->
  GoogleSheetsManager.average_of l
  = Ok (match l with
        | [] => SInt 0
        | _ => SFloat (PyFloat.round (PyFloat.nearest (GoogleSheetsManager.mean l)) 2)
        end).
Proof.
  intros Hall. destruct l as [|r l]; [reflexivity|].
  destruct (truediv_mean (r :: l) ltac:(discriminate) Hall) as (q & Hn & Hd).
  unfold GoogleSheetsManager.average_of. rewrite Hd, Hn. reflexivity.
Qed.

(** ** The bulk read of the service *)

Import GoogleSheetsService.

Lemma slice_data {A} (limit : Z) (hs : A) (drows : list A) :
  0 <= limit -> slice 1 (limit + 1) (hs :: drows) = take (Z.to_nat limit) drows.
Proof.
  intros Hl. unfold slice. cbn [length].
  rewrite Nat2Z.inj_succ.
  assert (H1 : (if 1 <? 0 then Z.max 0 (Z.succ (Z.of_nat (length drows)) + 1)
                else Z.min 1 (Z.succ (Z.of_nat (length drows)))) = 1).
  { destruct (Z.ltb_spec 1 0); lia. }
  rewrite H1. change (Z.to_nat 1) with 1%nat. cbn [drop].
  destruct (Z.ltb_spec (limit + 1) 0) as [|_]; [lia|].
  destruct (Z.le_ge_cases limit (Z.of_nat (length drows))) as [Hle|Hge].
  - rewrite Z.min_l by lia. f_equal. lia.
  - rewrite Z.min_r by lia.
    rewrite (take_ge drows (Z.to_nat limit)) by lia.
    apply take_ge. lia.
Qed.

Lemma fill_lookup_notin hs : forall row d (h : string),
  h ∉ hs -> fill hs row d !! h = d !! h.
Proof.
  induction hs as [|h0 hs IH]; intros row d h Hh; [reflexivity|].
  cbn [fill]. apply not_elem_of_cons in Hh as [Hne Hh].
  rewrite IH by assumption. apply lookup_insert_ne. congruence.
Qed.

(** With distinct column titles, an entry gives for each title the cell of
    that column, and the empty text where the row has no such cell. *)
Lemma fill_lookup hs : forall row d (j : nat) (h : string),
  NoDup hs -> hs !! j = Some h ->
  fill hs row d !! h = Some (default EmptyString (row !! j)).
Proof.
  induction hs as [|h0 hs IH]; intros row d j h Hnd Hj; [discriminate|].
  pose proof (NoDup_cons_1_1 _ _ Hnd) as Hnotin.
  apply NoDup_cons_1_2 in Hnd. cbn [fill].
  destruct j as [|j]; simpl in Hj.
  - injection Hj as ->. rewrite fill_lookup_notin by assumption.
    rewrite lookup_insert_eq. destruct row; reflexivity.
  - rewrite (IH (tail row) _ j h Hnd Hj). destruct row; reflexivity.
Qed.

(** Every text of an entry is a cell of its row, or the empty text. *)
Lemma fill_lookup_elem hs : forall row d (k c : string),
  fill hs row d !! k = Some c ->
  c ∈ row \/ c = EmptyString \/ d !! k = Some c.
Proof.
  induction hs as [|h0 hs IH]; intros row d k c H; [auto|].
  cbn [fill] in H. apply IH in H as [H|[H|H]]; [|auto|].
  - left. destruct row; [inversion H|]. right. exact H.
  - destruct (decide (h0 = k)) as [->|Hne].
    + rewrite lookup_insert_eq in H. injection H as <-.
      destruct row; simpl; [auto|]. left. left.
    + rewrite lookup_insert_ne in H by assumption. auto.
Qed.

Lemma to_feedbacks_full hs : forall drows i,
  Forall (fun row : list string => (length hs <= length row)%nat) drows ->
  to_feedbacks hs i drows
  = imap (fun k row => {| fields := fill hs row ∅; _row := i + Z.of_nat k |}) drows.
Proof.
  induction drows as [|row drows IH]; intros i Hall; [reflexivity|].
  inversion Hall as [|? ? Hrow Hall']; subst. clear Hall. rename Hall' into Hall.
  cbn [to_feedbacks imap].
  apply Nat.leb_le in Hrow. rewrite Hrow.
  rewrite Z.add_0_r. f_equal.
  rewrite IH by assumption. apply imap_ext. intros k x _. simpl.
  f_equal. lia.
Qed.

Lemma to_feedbacks_elem hs : forall drows i fb,
  fb ∈ to_feedbacks hs i drows ->
  exists row, row ∈ drows /\ fields fb = fill hs row ∅.
Proof.
  induction drows as [|row drows IH]; intros i fb H; [inversion H|].
  cbn [to_feedbacks] in H.
  destruct (length hs <=? length row)%nat.
  - apply elem_of_cons in H as [->|H].
    + exists row. split; [left|reflexivity].
    + apply IH in H as (row' & Hr & Hf). exists row'. split; [right|]; assumption.
  - apply IH in H as (row' & Hr & Hf). exists row'. split; [right|]; assumption.
Qed.

Lemma slice_elem {A} (a b : Z) (l : list A) x : x ∈ slice a b l -> x ∈ l.
Proof.
  unfold slice. intros H.
  apply elem_of_take in H as (i & H & _).
  rewrite lookup_drop in H. eapply list_elem_of_lookup_2; exact H.
Qed.

(** The bulk read of a connected service whose remote calls go through. *)
Lemma get_all_feedbacks_connected limit env (s : GoogleSheetsService.t) r :
  sheet s = true -> api_ok env = true ->
  get_all_feedbacks limit env s r
  = (match get_all_values (rows r) with
     | hs :: _ :: _ =>
         to_feedbacks hs 2 (slice 1 (limit + 1) (get_all_values (rows r)))
     | _ => []
     end,
     (s, {| rows := rows r;
            get_all_values_calls := S (get_all_values_calls r) |})).
Proof.
  intros Hs Ha. unfold get_all_feedbacks. rewrite Hs. cbn [fst snd].
  rewrite Hs, Ha. cbn [andb].
  destruct (get_all_values (rows r)) as [|hs [|row rest]]; reflexivity.
Qed.

Lemma get_all_feedbacks_elem limit env (s : GoogleSheetsService.t) r fb :
  fb ∈ (get_all_feedbacks limit env s r).1 ->
  forall k c, fields fb !! k = Some c ->
    c = EmptyString
    \/ exists row, row ∈ get_all_values (rows (get_all_feedbacks limit env s r).2.2)
                   /\ c ∈ row.
Proof.
  unfold get_all_feedbacks.
  destruct (if sheet s then (s, r) else (connect env s r).2) as [s1 r1].
  destruct (sheet s1 && api_ok env); cbn [fst snd rows]; [|intros H; inversion H].
  destruct (get_all_values (rows r1)) as [|hs [|row rest]] eqn:E;
    cbn [fst snd]; try (intros H; inversion H; fail).
  intros H k c Hk.
  apply to_feedbacks_elem in H as (row' & Hrow & Hf).
  rewrite Hf in Hk. apply fill_lookup_elem in Hk as [Hk|[Hk|Hk]].
  - right. exists row'. split; [|exact Hk].
    cbn [rows]. rewrite E. eapply slice_elem. exact Hrow.
  - left. exact Hk.
  - rewrite lookup_empty in Hk. discriminate.
Qed.

(** ** The statistics of the service *)

(** The guard of the loop: a Rating field that is a digit string is not
    empty, so the test for the empty text adds nothing. *)
Lemma rating_guard u c :
  negb (String.eqb c EmptyString) && PyStr.isdigit u c = PyStr.isdigit u c.
Proof. destruct c; reflexivity. Qed.

(** When the loop over the entries returns, it returns the digit ratings. *)
Lemma service_collect_ratings_ok u fbs l :
  collect_ratings u fbs = Ok l -> l = digit_ratings u fbs.
Proof.
  revert l. induction fbs as [|fb fbs IH]; intros l H.
  - injection H as <-. reflexivity.
  - unfold digit_ratings in *. cbn [collect_ratings omap list_omap] in *.
    unfold digit_rating.
    destruct (fields fb !! "Rating") as [c|]; cbn [mbind option_bind];
      [|exact (IH l H)].
    rewrite rating_guard in H.
    destruct (PyStr.isdigit u c); [|exact (IH l H)].
    destruct (PyStr.int u c) as [n|]; [|discriminate].
    destruct (collect_ratings u fbs) as [rs|]; [|discriminate].
    cbn in H. injection H as <-. rewrite (IH rs eq_refl). reflexivity.
Qed.

(** On tame Rating fields the loop returns, and what it collects a float
    can hold. *)
Lemma service_collect_ratings u fbs :
  tame_ratings u fbs = true ->
  collect_ratings u fbs = Ok (digit_ratings u fbs)
  /\ Forall (fun n => Z.abs n < 2 ^ 1023) (digit_ratings u fbs).
Proof.
  induction fbs as [|fb fbs IH]; intros H; [split; [reflexivity|constructor]|].
  cbn [tame_ratings forallb] in H. apply andb_true_iff in H as [Hfb Hrest].
  destruct (IH Hrest) as [IH1 IH2]. clear IH.
  unfold digit_ratings in *. cbn [collect_ratings omap list_omap].
  unfold digit_rating.
  destruct (fields fb !! "Rating") as [c|]; cbn [mbind option_bind];
    [|split; [exact IH1|exact IH2]].
  rewrite rating_guard.
  destruct (PyStr.isdigit u c) eqn:Hd; [|split; [exact IH1|exact IH2]].
  destruct (tame_digit u c Hfb Hd) as (n & -> & Hn).
  rewrite IH1. split; [reflexivity|]. constructor; [lia|exact IH2].
Qed.

Lemma count_le {A} (f : A -> bool) l : 0 <= count f l <= Z.of_nat (length l).
Proof.
  unfold count. pose proof (filter_length_le f l). lia.
Qed.

(** The computation behind [get_statistics] does not raise on tame Rating
    fields; it counts every entry in total and averages the digit
    ratings. *)
Lemma compute_statistics_ok env fbs :
  tame_ratings (runtime env) fbs = true ->
  exists stats,
    compute_statistics env fbs = Ok stats
    /\ stats !! "total" = Some (SInt (Z.of_nat (length fbs)))
    /\ stats !! "average_rating"
       = Some (match digit_ratings (runtime env) fbs with
               | [] => SInt 0
               | l => SFloat (PyFloat.round
                                (PyFloat.nearest (GoogleSheetsManager.mean l)) 2)
               end)
    /\ stats !! "rating_distribution"
       = Some (SCounts (match fbs with
                        | [] => ∅
                        | _ => rating_dist (digit_ratings (runtime env) fbs)
                        end))
    /\ stats !! "error" = None
    /\ (0 < size stats)%nat.
Proof.
  intros Htame. destruct fbs as [|first rest].
  - exists empty_stats. repeat split; try (vm_compute; reflexivity).
    apply Nat.ltb_lt. vm_compute. reflexivity.
  - set (fbs := first :: rest) in *.
    destruct (service_collect_ratings (runtime env) fbs Htame) as [Hcol Hb].
    unfold compute_statistics. fold fbs.
    rewrite Hcol. cbn [mbind outcome_bind].
    set (ratings := digit_ratings (runtime env) fbs) in *.
    assert (Havg : exists a,
      avg_rating ratings = Ok a
      /\ match a with
         | Some x => SFloat (PyFloat.round x 2)
         | None => SInt 0
         end
         = match ratings with
           | [] => SInt 0
           | l => SFloat (PyFloat.round
                            (PyFloat.nearest (GoogleSheetsManager.mean l)) 2)
           end).
    { destruct ratings as [|x l] eqn:E; [exists None; split; reflexivity|].
      destruct (truediv_mean (x :: l) ltac:(discriminate) Hb) as (q & Hn & Hd).
      exists (Some (PyFloat.Fin q)). unfold avg_rating. rewrite Hd, Hn.
      split; reflexivity. }
    destruct Havg as (a & -> & Ha).
    assert (Hlen : 0 < Z.of_nat (length fbs)) by (subst fbs; simpl; lia).
    destruct (int_truediv_finite (count (has_comment (runtime env)) fbs)
                (Z.of_nat (length fbs)) Hlen)
      as [q Hq].
    { pose proof (count_le (has_comment (runtime env)) fbs).
      assert (1 < 2 ^ 1023) by (vm_compute; reflexivity). nia. }
    rewrite Hq. cbn [mbind outcome_bind].
    eexists. split; [reflexivity|].
    split; [lookup_key|].
    split; [rewrite lookup_insert_ne by discriminate;
            rewrite lookup_insert_eq; f_equal; rewrite Ha;
            destruct ratings; reflexivity|].
    split; [lookup_key|]. split; [lookup_key|].
    apply Nat.neq_0_lt_0. intros Hsz. apply map_size_empty_iff in Hsz.
    apply (f_equal (fun m => m !! "total")) in Hsz.
    rewrite lookup_insert_eq, lookup_empty in Hsz. discriminate.
Qed.

Lemma compute_statistics_size env fbs stats :
  compute_statistics env fbs = Ok stats -> (0 < size stats)%nat.
Proof.
  intros H.
  assert (Ht : is_Some (stats !! "total")).
  { unfold compute_statistics in H. destruct fbs as [|first rest].
    - injection H as <-. eexists. reflexivity.
    - destruct (collect_ratings (runtime env) (first :: rest)); [|discriminate].
      cbn [mbind outcome_bind] in H.
      destruct (avg_rating a); [|discriminate].
      cbn [mbind outcome_bind] in H.
      destruct (PyFloat.int_truediv _ _); [|discriminate].
      cbn [mbind outcome_bind] in H. injection H as <-.
      eexists. apply lookup_insert_eq. }
  apply Nat.neq_0_lt_0. intros Hsz. apply map_size_empty_iff in Hsz.
  subst stats. destruct Ht as [? Ht]. rewrite lookup_empty in Ht. discriminate.
Qed.

Lemma timedelta_seconds_small d :
  0 <= d < 60 * 1000000 -> timedelta_seconds d < CACHE_TIMEOUT.
Proof.
  intros H. unfold timedelta_seconds, CACHE_TIMEOUT.
  assert (0 <= d / 1000000 < 60).
  { split; [apply Z.div_pos; lia|apply Z.div_lt_upper_bound; lia]. }
  rewrite Z.mod_small; lia.
Qed.

(** A read that does not use the cache, on a connected service whose
    remote calls go through, when the Rating fields read are tame: it reads
    the sheet once, computes the statistics of the bulk read and caches them
    with the time of the read. *)
Lemma get_statistics_recompute force env (s : GoogleSheetsService.t) r :
  cached force env s = None ->
  sheet s = true -> api_ok env = true ->
  tame_ratings (runtime env) (get_all_feedbacks 100 env s r).1 = true ->
  let fbs := (get_all_feedbacks 100 env s r).1 in
  exists stats,
    compute_statistics env fbs = Ok stats
    /\ get_statistics force env s r
       = (stats,
          ({| spreadsheet_id := spreadsheet_id s; client := client s;
              sheet := sheet s; _stats_cache := Some stats;
              _cache_time := Some (now env) |},
           {| rows := rows r;
              get_all_values_calls := S (get_all_values_calls r) |}))
    /\ stats !! "total" = Some (SInt (Z.of_nat (length fbs)))
    /\ stats !! "average_rating"
       = Some (match digit_ratings (runtime env) fbs with
               | [] => SInt 0
               | l => SFloat (PyFloat.round
                                (PyFloat.nearest (GoogleSheetsManager.mean l)) 2)
               end).
Proof.
  intros Hc Hs Ha Hm fbs.
  pose proof (get_all_feedbacks_connected 100 env s r Hs Ha) as Hg.
  fold fbs in Hm.
  destruct (compute_statistics_ok env fbs Hm) as (stats & Hstats & Ht & Hav & _).
  exists stats. split; [exact Hstats|]. split; [|split; assumption].
  unfold get_statistics. rewrite Hc.
  assert (Hg' : get_all_feedbacks 100 env s r
                = (fbs, (s, {| rows := rows r;
                               get_all_values_calls := S (get_all_values_calls r) |})))
    by (subst fbs; rewrite Hg; reflexivity).
  rewrite Hg', Hstats. reflexivity.
Qed.

(** C4, the counterexample: with 101 data rows below the header the bulk
    read behind the statistics returns 100 entries and the computed total is
    100, not the number of data rows; and a data row shorter than the header
    is passed over, not filled up with empty texts. *)
Lemma bulk_read_stops_at_limit :
  let r := Sample.remote_with 101 in
  let short :=
    {| rows := [ headers; [VStr "2024-01-01 09:00:00"; VStr "7"] ];
       get_all_values_calls := 0 |} in
  length (rows r) = 102%nat
  /\ length (get_all_feedbacks 100 Sample.env_up Sample.service r).1 = 100%nat
  /\ (get_statistics false Sample.env_up Sample.service r).1 !! "total"
     = Some (SInt 100)
  /\ (get_all_feedbacks 100 Sample.env_up Sample.service short).1 = [].
Proof. repeat split; vm_compute; reflexivity. Qed.

Lemma take_imap {A B} (f : nat -> A -> B) n l :
  take n (imap f l) = imap f (take n l).
Proof.
  revert f n. induction l as [|x l IH]; intros f n; [destruct n; reflexivity|].
  destruct n as [|n]; [reflexivity|]. cbn [imap take]. f_equal. apply IH.
Qed.

(** C4, amended: on a connected service whose remote calls go through, for
    a sheet whose data rows are all at least as wide as the header, the bulk
    read returns one entry for each of the first [limit] data rows (100 for
    the statistics), in store order: entry [k] is data row [k], numbered
    [k + 2], and with distinct column titles each title gives the cell of
    its column.  The read changes no row.  The total of the statistics
    computed from it is the smaller of 100 and the number of data rows,
    provided every Rating field read that is a digit string (for
    [str.isdigit]) is written with at most 300 ASCII digits, so that [int]
    reads it and the average does not overflow. *)
Theorem bulk_read_returns_first_rows limit env (s : GoogleSheetsService.t) r
    hs drows :
  sheet s = true -> api_ok env = true -> 0 <= limit ->
  get_all_values (rows r) = hs :: drows ->
  Forall (fun row : list string => (length hs <= length row)%nat) drows ->
  let fbs := (get_all_feedbacks limit env s r).1 in
  length fbs = Nat.min (Z.to_nat limit) (length drows)
  /\ (forall k row, (k < Z.to_nat limit)%nat -> drows !! k = Some row ->
        exists fb,
          fbs !! k = Some fb
          /\ _row fb = Z.of_nat k + 2
          /\ (NoDup hs -> forall j h, hs !! j = Some h ->
                fields fb !! h = row !! j))
  /\ rows (get_all_feedbacks limit env s r).2.2 = rows r
  /\ (tame_ratings (runtime env) (get_all_feedbacks 100 env s r).1 = true ->
      (get_statistics true env s r).1 !! "total"
      = Some (SInt (Z.of_nat (Nat.min 100 (length drows))))).
Proof.
  intros Hs Ha Hl Hv Hfull fbs.
  assert (Hread : forall lim, 0 <= lim ->
            (get_all_feedbacks lim env s r).1
            = imap (fun k row => {| fields := fill hs row ∅;
                                    _row := 2 + Z.of_nat k |})
                (take (Z.to_nat lim) drows)).
  { intros lim Hlim. rewrite (get_all_feedbacks_connected lim env s r Hs Ha).
    cbn [fst]. rewrite Hv. destruct drows as [|row0 rest].
    - rewrite take_nil. reflexivity.
    - rewrite slice_data by assumption.
      apply to_feedbacks_full.
      apply Forall_forall. intros x Hx.
      rewrite Forall_forall in Hfull. apply Hfull.
      apply elem_of_take in Hx as (i & Hx & _).
      eapply list_elem_of_lookup_2; exact Hx. }
  subst fbs. rewrite (Hread limit Hl).
  split; [rewrite length_imap, length_take; reflexivity|].
  split.
  { intros k row Hk Hrow. eexists. split.
    - rewrite list_lookup_imap, lookup_take_lt by assumption.
      rewrite Hrow. reflexivity.
    - split; [cbn [_row]; lia|]. intros Hnd j h Hj. cbn [fields].
      rewrite (fill_lookup hs row ∅ j h Hnd Hj).
      rewrite Forall_forall in Hfull.
      assert (Hin : row ∈ drows) by (eapply list_elem_of_lookup_2; exact Hrow).
      specialize (Hfull row Hin).
      apply lookup_lt_Some in Hj.
      destruct (lookup_lt_is_Some_2 row j ltac:(lia)) as [c Hc].
      rewrite Hc. reflexivity. }
  split.
  { rewrite (get_all_feedbacks_connected limit env s r Hs Ha). reflexivity. }
  intros Hm.
  destruct (get_statistics_recompute true env s r eq_refl Hs Ha Hm)
    as (stats & _ & -> & Ht & _).
  cbn [fst].
  rewrite Ht, (Hread 100 ltac:(lia)), length_imap, length_take.
  reflexivity.
Qed.

Lemma bulk_read_returns_first_rows_witness :
  let r := Sample.remote_with 2 in
  let hs := cell_text <$> headers in
  let drows := tail (get_all_values (rows r)) in
  (sheet Sample.service = true /\ api_ok Sample.env_up = true /\ 0 <= 100
   /\ get_all_values (rows r) = hs :: drows
   /\ Forall (fun row : list string => (length hs <= length row)%nat) drows
   /\ tame_ratings (runtime Sample.env_up)
        (get_all_feedbacks 100 Sample.env_up Sample.service r).1 = true)
  /\ length (get_all_feedbacks 100 Sample.env_up Sample.service r).1 = 2%nat
  /\ (get_statistics true Sample.env_up Sample.service r).1 !! "total"
     = Some (SInt 2).
Proof.
  intros r hs drows.
  assert (H1 : sheet Sample.service = true) by reflexivity.
  assert (H2 : api_ok Sample.env_up = true) by reflexivity.
  assert (H3 : 0 <= 100) by lia.
  assert (H4 : get_all_values (rows r) = hs :: drows) by reflexivity.
  assert (H5 : Forall (fun row : list string => (length hs <= length row)%nat) drows).
  { repeat constructor; vm_compute; lia. }
  assert (H6 : tame_ratings (runtime Sample.env_up)
                 (get_all_feedbacks 100 Sample.env_up Sample.service r).1 = true)
    by (vm_compute; reflexivity).
  split; [repeat split; assumption|].
  pose proof (bulk_read_returns_first_rows 100 Sample.env_up Sample.service r
                hs drows H1 H2 H3 H4 H5) as (Hlen & _ & _ & Htot).
  split; [exact Hlen | exact (Htot H6)].
Defined.

(** ** Saving through the service *)

Lemma save_feedback_success env ud fd (s : GoogleSheetsService.t) r :
  let res := save_feedback env ud fd s r in
  success res.1 = true ->
  _stats_cache res.2.1 = None
  /\ sheet res.2.1 = true
  /\ client res.2.1 = true
  /\ (rows res.2.2 = (rows r ++ [row_data env ud fd])%list
      \/ rows res.2.2 = (headers :: rows r ++ [row_data env ud fd])%list)
  /\ row_number res.1 = Some (Z.of_nat (length (rows res.2.2))).
Proof.
  unfold save_feedback.
  assert (Hlen : forall sh : Sheet, length (get_all_values sh) = length sh)
    by (intros; unfold get_all_values; apply length_fmap).
  destruct (client s && sheet s) eqn:Hcs.
  - apply andb_true_iff in Hcs as [Hc Hs].
    cbn [negb]. destruct (api_ok env); cbn [fst snd success]; [|discriminate].
    intros _. cbn [_stats_cache sheet client rows row_number].
    rewrite Hlen. repeat split; auto.
  - unfold connect.
    destruct (creds_ok env); [|cbn; discriminate].
    destruct (truthy_str (spreadsheet_id s)); [|cbn; discriminate].
    destruct (api_ok env) eqn:Ha; [|cbn; discriminate].
    cbn [negb fst snd success]. intros _.
    cbn [_stats_cache sheet client rows row_number].
    rewrite Hlen. split; [reflexivity|]. split; [reflexivity|].
    split; [reflexivity|]. split; [|reflexivity].
    unfold _initialize_headers.
    destruct (headers_ok env && _); cbn [rows]; auto.
Qed.

Lemma to_feedbacks_last hs row : forall l i,
  (length hs <=? length row)%nat = true ->
  last (to_feedbacks hs i (l ++ [row]))
  = Some {| fields := fill hs row ∅; _row := i + Z.of_nat (length l) |}.
Proof.
  intros l i Hw. revert i. induction l as [|x l IH]; intros i.
  - cbn [app to_feedbacks]. rewrite Hw. cbn [length last]. do 3 f_equal. lia.
  - cbn [app to_feedbacks length].
    assert (Hi : i + Z.of_nat (S (length l)) = (i + 1) + Z.of_nat (length l)) by lia.
    rewrite Hi. specialize (IH (i + 1)).
    destruct (length hs <=? length x)%nat; [|exact IH].
    destruct (to_feedbacks hs (i + 1) (l ++ [row])) eqn:E; [discriminate IH|].
    exact IH.
Qed.

(** C5, the counterexample: the sheet holds 100 data rows rated 5; a save
    of a feedback rated 1 succeeds and clears the cache; the read right after
    recomputes from the first 100 data rows only: its total is 100 and it
    counts no rating 1, so the new record is not part of the result. *)
Lemma fresh_read_misses_record_101 :
  let saved :=
    save_feedback Sample.env_up {[ "id" := VInt 7 ]}
      {[ "rating" := VInt 1; "type" := VStr "Идея"; "comment" := VStr "new" ]}
      Sample.service (Sample.remote_with 100) in
  let stats :=
    (get_statistics false Sample.env_up saved.2.1 saved.2.2).1 in
  success saved.1 = true
  /\ length (rows saved.2.2) = 102%nat
  /\ stats !! "total" = Some (SInt 100)
  /\ exists d, stats !! "rating_distribution" = Some (SCounts d)
               /\ d !! "1" = Some 0 /\ d !! "5" = Some 100.
Proof.
  repeat split; try (vm_compute; reflexivity).
  eexists. repeat split; vm_compute; reflexivity.
Qed.

(** C5, amended: every successful save clears the cached snapshot, so a
    [get_statistics(false)] right after it never returns the snapshot cached
    before the write: it does what a forced refresh does and recomputes from
    the sheet.  When the remote calls go through and every Rating field read
    that is a digit string is written with at most 300 ASCII digits, the
    recomputation returns statistics that count every entry read, and caches
    them with the time of the call.  The recomputation covers the first 100
    data rows: when the sheet then holds a header of at most 14 columns and
    between 1 and 100 data rows, the new record is the last entry of the bulk
    read the result is computed from, under the row number the save
    returned. *)
Theorem save_clears_cache env env2 ud fd (s : GoogleSheetsService.t) r :
  let saved := save_feedback env ud fd s r in
  success saved.1 = true ->
  _stats_cache saved.2.1 = None
  /\ cached false env2 saved.2.1 = None
  /\ get_statistics false env2 saved.2.1 saved.2.2
     = get_statistics true env2 saved.2.1 saved.2.2
  /\ (exists before, rows saved.2.2 = (before ++ [row_data env ud fd])%list)
  /\ (api_ok env2 = true ->
      let fbs := (get_all_feedbacks 100 env2 saved.2.1 saved.2.2).1 in
      (tame_ratings (runtime env2) fbs = true ->
       exists stats,
         get_statistics false env2 saved.2.1 saved.2.2
         = (stats,
            ({| spreadsheet_id := spreadsheet_id saved.2.1;
                client := client saved.2.1; sheet := sheet saved.2.1;
                _stats_cache := Some stats; _cache_time := Some (now env2) |},
             {| rows := rows saved.2.2;
                get_all_values_calls := S (get_all_values_calls saved.2.2) |}))
         /\ compute_statistics env2 fbs = Ok stats
         /\ stats !! "total" = Some (SInt (Z.of_nat (length fbs))))
      /\ forall hs drows,
           get_all_values (rows saved.2.2) = hs :: drows ->
           drows <> [] -> (length drows <= 100)%nat -> (length hs <= 14)%nat ->
           last fbs
           = Some {| fields := fill hs (cell_text <$> row_data env ud fd) ∅;
                     _row := Z.of_nat (length drows) + 1 |}
           /\ row_number saved.1 = Some (Z.of_nat (length drows) + 1)).
Proof.
  intros saved Hok.
  destruct (save_feedback_success env ud fd s r Hok)
    as (Hcache & Hsheet & _ & Hrows & Hnum).
  fold saved in Hcache, Hsheet, Hrows, Hnum.
  assert (Hc : cached false env2 saved.2.1 = None)
    by (unfold cached; rewrite Hcache; reflexivity).
  split; [exact Hcache|]. split; [exact Hc|].
  split; [unfold get_statistics; rewrite Hc; reflexivity|].
  assert (Hbefore : exists before,
            rows saved.2.2 = (before ++ [row_data env ud fd])%list).
  { destruct Hrows as [->| ->]; [eexists; reflexivity|].
    exists (headers :: rows r). reflexivity. }
  split; [exact Hbefore|].
  intros Ha fbs. split.
  { intros Hm.
    destruct (get_statistics_recompute false env2 _ _ Hc Hsheet Ha Hm)
      as (stats & Hstats & Hget & Ht & _).
    exists stats. split; [exact Hget|]. split; [exact Hstats|exact Ht]. }
  subst fbs. intros hs drows Hv Hne Hlen Hhs.
  destruct Hbefore as [before Hb].
  assert (Hd : exists init,
            drows = (init ++ [cell_text <$> row_data env ud fd])%list).
  { unfold get_all_values in Hv. rewrite Hb, fmap_app in Hv. cbn [fmap list_fmap] in Hv.
    destruct ((λ row : list pyval, cell_text <$> row) <$> before) as [|h0 rest].
    - cbn [app] in Hv. injection Hv as _ <-. congruence.
    - cbn [app] in Hv. injection Hv as _ <-. eexists; reflexivity. }
  destruct Hd as [init ->].
  rewrite (get_all_feedbacks_connected 100 env2 _ _ Hsheet Ha). cbn [fst].
  rewrite Hv. split.
  - assert (Hw : (length hs <=? length (cell_text <$> row_data env ud fd))%nat = true).
    { apply Nat.leb_le. rewrite length_fmap. exact Hhs. }
    destruct init as [|r0 init'].
    + cbn [app]. rewrite slice_data by lia.
      change (Z.to_nat 100) with 100%nat. cbn [take to_feedbacks].
      rewrite Hw. reflexivity.
    + cbn [app]. rewrite slice_data by lia.
      rewrite take_ge by (change (Z.to_nat 100) with 100%nat; exact Hlen).
      rewrite (app_comm_cons init' _ r0).
      rewrite to_feedbacks_last by exact Hw.
      do 2 f_equal. rewrite length_app. cbn [length]. lia.
  - rewrite Hnum. f_equal.
    apply (f_equal length) in Hv. unfold get_all_values in Hv.
    rewrite length_fmap in Hv. rewrite Hv. cbn [length]. lia.
Qed.

Lemma save_clears_cache_witness :
  let saved :=
    save_feedback Sample.env_up {[ "id" := VInt 7 ]}
      {[ "rating" := VInt 1; "type" := VStr "Идея"; "comment" := VStr "new" ]}
      Sample.service (Sample.remote_with 1) in
  success saved.1 = true
  /\ _stats_cache saved.2.1 = None
  /\ get_statistics false (Sample.env_at 5) saved.2.1 saved.2.2
     = get_statistics true (Sample.env_at 5) saved.2.1 saved.2.2.
Proof.
  intros saved.
  assert (H : success saved.1 = true) by reflexivity.
  split; [exact H|].
  pose proof (save_clears_cache Sample.env_up (Sample.env_at 5) _ _
                Sample.service (Sample.remote_with 1) H) as (H1 & _ & H3 & _).
  split; [exact H1 | exact H3].
Defined.

(** A read that finds a non-empty snapshot whose age, in the seconds of
    [timedelta], is below the timeout returns it and touches nothing. *)
Lemma cache_hit env (s : GoogleSheetsService.t) r d t0 :
  _stats_cache s = Some d -> (0 < size d)%nat -> _cache_time s = Some t0 ->
  timedelta_seconds (now env - t0) < CACHE_TIMEOUT ->
  get_statistics false env s r = (d, (s, r)).
Proof.
  intros Hd Hsz Ht Hlt. unfold get_statistics, cached. rewrite Hd, Ht.
  apply Nat.ltb_lt in Hsz. apply Z.ltb_lt in Hlt. rewrite Hsz, Hlt.
  reflexivity.
Qed.

(** After a call that did not fail, the snapshot it returned is the cached
    one; if the call computed it, it is stamped with the time of the call. *)
Lemma call_leaves_snapshot force env (s : GoogleSheetsService.t) r :
  let res := get_statistics force env s r in
  res.1 !! "error" = None ->
  _stats_cache res.2.1 = Some res.1
  /\ (0 < size res.1)%nat
  /\ (cached force env s = None -> _cache_time res.2.1 = Some (now env)).
Proof.
  intros res. assert (E : res = get_statistics force env s r) by reflexivity.
  clearbody res. unfold get_statistics in E.
  destruct (cached force env s) as [d|] eqn:Hc.
  - subst res. cbn [fst snd]. intros _.
    unfold cached in Hc. destruct force; [discriminate|].
    destruct (_stats_cache s) as [d'|]; [|discriminate].
    destruct (_cache_time s) as [t|]; [|discriminate].
    destruct (0 <? size d')%nat eqn:Hsz; [|discriminate].
    cbn [andb] in Hc.
    destruct (timedelta_seconds (now env - t) <? CACHE_TIMEOUT); [|discriminate].
    injection Hc as ->. apply Nat.ltb_lt in Hsz.
    split; [reflexivity|]. split; [exact Hsz|discriminate].
  - destruct (get_all_feedbacks 100 env s r) as [fbs [s1 r1]].
    destruct (compute_statistics env fbs) as [stats|e] eqn:Hs; subst res.
    + cbn [fst snd _stats_cache _cache_time]. intros _.
      apply compute_statistics_size in Hs. auto.
    + cbn [fst]. intros Herr. exfalso. revert Herr.
      unfold error_stats.
      rewrite !lookup_insert_ne by discriminate.
      rewrite lookup_singleton_eq. discriminate.
Qed.

(** C6, the counterexample: a snapshot is computed at second 0; a call at
    second 50 returns it from the cache; a call at second 70, 20 seconds
    after the previous call and with no write in between, is past the
    snapshot's 60 seconds: it reads the sheet again instead of returning the
    cached snapshot without a read. *)
Lemma second_call_within_sixty_rereads :
  let computed :=
    get_statistics true (Sample.env_at 0) Sample.service (Sample.remote_with 1) in
  let call1 :=
    get_statistics false (Sample.env_at 50) computed.2.1 computed.2.2 in
  let call2 :=
    get_statistics false (Sample.env_at 70) call1.2.1 call1.2.2 in
  now (Sample.env_at 70) - now (Sample.env_at 50) < 60 * 1000000
  /\ rows call1.2.2 = rows computed.2.2
  /\ get_all_values_calls call1.2.2 = get_all_values_calls computed.2.2
  /\ get_all_values_calls call2.2.2 = S (get_all_values_calls call1.2.2)
  /\ _cache_time call2.2.1 <> _cache_time call1.2.1.
Proof.
  repeat split; try (vm_compute; reflexivity).
  vm_compute. discriminate.
Qed.

(** C6, amended: the 60 seconds run from the time the cached snapshot was
    computed, not from the previous call.  After any [get_statistics] call
    that did not fail, a [get_statistics(false)] call made while the seconds
    of the time elapsed since the snapshot was computed are below 60 returns
    the identical snapshot and leaves the service and the sheet as they
    were, the count of reads included. *)
Theorem cached_read_is_idempotent force env1 env2
    (s : GoogleSheetsService.t) r t0 :
  let res1 := get_statistics force env1 s r in
  res1.1 !! "error" = None ->
  _cache_time res1.2.1 = Some t0 ->
  timedelta_seconds (now env2 - t0) < CACHE_TIMEOUT ->
  get_statistics false env2 res1.2.1 res1.2.2 = res1.
Proof.
  intros res1 Herr Ht Hlt.
  destruct (call_leaves_snapshot force env1 s r Herr) as (Hcache & Hsize & _).
  fold res1 in Hcache, Hsize.
  rewrite (cache_hit env2 res1.2.1 res1.2.2 res1.1 t0 Hcache Hsize Ht Hlt).
  destruct res1 as [d [s1 r1]]. reflexivity.
Qed.

Lemma cached_read_is_idempotent_witness :
  let res1 :=
    get_statistics true (Sample.env_at 0) Sample.service (Sample.remote_with 1) in
  res1.1 !! "error" = None
  /\ _cache_time res1.2.1 = Some 0
  /\ timedelta_seconds (now (Sample.env_at 50) - 0) < CACHE_TIMEOUT
  /\ get_statistics false (Sample.env_at 50) res1.2.1 res1.2.2 = res1.
Proof.
  intros res1.
  assert (H1 : res1.1 !! "error" = None) by (vm_compute; reflexivity).
  assert (H2 : _cache_time res1.2.1 = Some 0) by (vm_compute; reflexivity).
  assert (H3 : timedelta_seconds (now (Sample.env_at 50) - 0) < CACHE_TIMEOUT)
    by (vm_compute; reflexivity).
  split; [exact H1|]. split; [exact H2|]. split; [exact H3|].
  exact (cached_read_is_idempotent true (Sample.env_at 0) (Sample.env_at 50)
           Sample.service (Sample.remote_with 1) 0 H1 H2 H3).
Defined.

(** The usual case of the window: the first call computes the snapshot, the
    second one comes less than 60 seconds later. *)
Lemma recomputed_then_cached force env1 env2 (s : GoogleSheetsService.t) r :
  let res1 := get_statistics force env1 s r in
  cached force env1 s = None ->
  res1.1 !! "error" = None ->
  0 <= now env2 - now env1 < 60 * 1000000 ->
  get_statistics false env2 res1.2.1 res1.2.2 = res1.
Proof.
  intros res1 Hc Herr Hd.
  destruct (call_leaves_snapshot force env1 s r Herr) as (Hcache & Hsize & Ht).
  fold res1 in Hcache, Hsize, Ht. specialize (Ht Hc).
  rewrite (cache_hit env2 res1.2.1 res1.2.2 res1.1 (now env1) Hcache Hsize Ht
             (timedelta_seconds_small _ Hd)).
  destruct res1 as [d [s1 r1]]. reflexivity.
Qed.

(** ** The average rating *)

Lemma manager_get_stats_reachable env (m : GoogleSheetsManager.t) :
  (GoogleSheetsManager.client m || creds_ok env) && api_ok env = true ->
  (GoogleSheetsManager.get_stats env m).1
  = match GoogleSheetsManager.compute_stats (runtime env)
            (get_all_values (GoogleSheetsManager.sheet m)) with
    | Ok d => d
    | Raised _ => GoogleSheetsManager.fallback
    end.
Proof.
  intros H. apply andb_true_iff in H as [Hc Ha].
  unfold GoogleSheetsManager.get_stats, GoogleSheetsManager.connect.
  destruct m as [c sh]; cbn [GoogleSheetsManager.client GoogleSheetsManager.sheet] in *.
  destruct c; cbn [negb GoogleSheetsManager.client GoogleSheetsManager.sheet].
  - rewrite Ha. destruct (GoogleSheetsManager.compute_stats _); reflexivity.
  - cbn in Hc. rewrite Hc, Ha. cbn [negb].
    destruct (GoogleSheetsManager.compute_stats _); reflexivity.
Qed.

Lemma manager_get_stats_average env (m : GoogleSheetsManager.t) hdr drows :
  (GoogleSheetsManager.client m || creds_ok env) && api_ok env = true ->
  GoogleSheetsManager.sheet m = hdr :: drows ->
  drows <> [] ->
  GoogleSheetsManager.tame_ratings (runtime env) (get_all_values drows) = true ->
  is_Some (last drows ≫= head) ->
  let stats := (GoogleSheetsManager.get_stats env m).1 in
  let ratings :=
    GoogleSheetsManager.digit_ratings (runtime env) (get_all_values drows) in
  stats !! "total" = Some (SInt (Z.of_nat (length drows)))
  /\ stats !! "average"
     = Some (match ratings with
             | [] => SInt 0
             | l => SFloat (PyFloat.round
                              (PyFloat.nearest (GoogleSheetsManager.mean l)) 2)
             end).
Proof.
  intros Hreach Hsheet Hne Hmod Hlast stats ratings.
  destruct (manager_collect_ratings (runtime env) (get_all_values drows) Hmod)
    as [Hcol Hbound].
  assert (Hcomp : GoogleSheetsManager.compute_stats (runtime env)
                    (get_all_values (hdr :: drows))
                  = Ok ({[ "total" := SInt (Z.of_nat (length drows));
                           "average" :=
                             match ratings with
                             | [] => SInt 0
                             | l => SFloat (PyFloat.round
                                      (PyFloat.nearest (GoogleSheetsManager.mean l)) 2)
                             end;
                           "last_feedback" :=
                             SStr (default EmptyString
                                     (last (get_all_values drows) ≫= head)) ]}
                        : gmap string statval)).
  { unfold GoogleSheetsManager.compute_stats.
    assert (Hlen : (length (get_all_values (hdr :: drows)) <=? 1)%nat = false).
    { apply Nat.leb_gt. unfold get_all_values. rewrite length_fmap.
      destruct drows; [congruence|simpl; lia]. }
    rewrite Hlen.
    change (tail (get_all_values (hdr :: drows))) with (get_all_values drows).
    rewrite Hcol. cbn [mbind outcome_bind].
    fold ratings.
    rewrite (manager_average_of ratings Hbound).
    cbn [mbind outcome_bind].
    assert (Hl : exists row c, last (get_all_values drows) = Some row
                               /\ row !! 0%nat = Some c).
    { destruct Hlast as [v Hv].
      destruct (last drows) as [prow|] eqn:El; [|discriminate].
      cbn in Hv. destruct prow as [|v0 prow]; [discriminate|].
      exists (cell_text <$> (v0 :: prow)), (cell_text v0).
      split; [|reflexivity].
      unfold get_all_values. rewrite fmap_last, El. reflexivity. }
    destruct Hl as (row & c & Hl & Hc). rewrite Hl, Hc.
    cbn [mbind outcome_bind]. unfold get_all_values at 1. rewrite length_fmap.
    destruct row; [discriminate|]. injection Hc as ->.
    destruct ratings; reflexivity. }
  subst stats. rewrite (manager_get_stats_reachable env m Hreach).
  rewrite Hsheet, Hcomp. split; lookup_key.
Qed.

(** C8, the counterexample: over the ratings 5, 4, 4 the computed average is
    the float 4.33; it is neither the arithmetic mean 13/3 nor the float
    nearest to it. *)
Lemma average_of_5_4_4_is_rounded :
  let m := {| GoogleSheetsManager.client := true;
              GoogleSheetsManager.sheet := Sample.rated_sheet ["5"; "4"; "4"] |} in
  let four_33 := 2437573298314281 # 562949953421312 in
  (GoogleSheetsManager.get_stats Sample.env_up m).1 !! "average"
    = Some (SFloat (PyFloat.Fin four_33))
  /\ PyFloat.nearest (433 # 100) = PyFloat.Fin four_33
  /\ GoogleSheetsManager.mean [5; 4; 4] = 13 # 3
  /\ ~ Qeq four_33 (13 # 3)
  /\ PyFloat.nearest (13 # 3) <> PyFloat.Fin four_33.
Proof.
  repeat split; try (vm_compute; reflexivity).
  - vm_compute. discriminate.
  - vm_compute. discriminate.
Qed.

(** C8, amended: the computed average is the arithmetic mean of the
    digit ratings rounded to two decimal places: the float nearest to the
    mean, rounded by [round(x, 2)], which for ratings up to [2^40] lies
    within one hundredth of the mean.  The digit ratings are the rating
    fields that are digit strings for [str.isdigit], read by [int].  Over
    the ratings 5, 4, 3 the average is exactly 4.0.  With no digit rating,
    or no data row at all, it is the integer 0 and nothing is divided.  A
    record whose rating field is no digit string is left out of the average
    and counted in the total: that is so for a field that is empty or not
    numeric, and also for -3, +2, 4.5 and a 4 after a blank.  This holds for
    [get_stats] of the sheets manager, over all data rows, and for
    [get_statistics] of the service, over the entries of its bulk read,
    when the store is reachable, every rating field that is a digit string
    is written with at most 300 ASCII digits and, for [get_stats], the last
    data row is not empty. *)
Theorem average_is_rounded_mean :
  (forall env (m : GoogleSheetsManager.t) hdr drows,
     (GoogleSheetsManager.client m || creds_ok env) && api_ok env = true ->
     GoogleSheetsManager.sheet m = hdr :: drows ->
     drows <> [] ->
     GoogleSheetsManager.tame_ratings (runtime env) (get_all_values drows) = true ->
     is_Some (last drows ≫= head) ->
     let stats := (GoogleSheetsManager.get_stats env m).1 in
     let ratings :=
       GoogleSheetsManager.digit_ratings (runtime env) (get_all_values drows) in
     stats !! "total" = Some (SInt (Z.of_nat (length drows)))
     /\ stats !! "average"
        = Some (match ratings with
                | [] => SInt 0
                | l => SFloat (PyFloat.round
                                 (PyFloat.nearest (GoogleSheetsManager.mean l)) 2)
                end))
  /\ (forall force env (s : GoogleSheetsService.t) r,
        cached force env s = None ->
        sheet s = true -> api_ok env = true ->
        tame_ratings (runtime env) (get_all_feedbacks 100 env s r).1 = true ->
        let stats := (get_statistics force env s r).1 in
        let fbs := (get_all_feedbacks 100 env s r).1 in
        stats !! "total" = Some (SInt (Z.of_nat (length fbs)))
        /\ stats !! "average_rating"
           = Some (match digit_ratings (runtime env) fbs with
                   | [] => SInt 0
                   | l => SFloat (PyFloat.round
                                    (PyFloat.nearest (GoogleSheetsManager.mean l)) 2)
                   end))
  /\ (forall u,
        GoogleSheetsManager.digit_ratings u
          (get_all_values
             (tail (Sample.rated_sheet
                      ["5"; "-3"; "+2"; " 4"; "4.5"; "n/a"; EmptyString])))
        = [5])
  /\ (forall env (m : GoogleSheetsManager.t),
        (length (GoogleSheetsManager.sheet m) <= 1)%nat ->
        (GoogleSheetsManager.get_stats env m).1 !! "average" = Some (SInt 0))
  /\ PyFloat.round (PyFloat.nearest (GoogleSheetsManager.mean [5; 4; 3])) 2
     = PyFloat.Fin 4
  /\ (forall l,
        l <> [] -> Forall (fun r => 0 <= r <= 2 ^ 40) l ->
        exists y,
          PyFloat.round (PyFloat.nearest (GoogleSheetsManager.mean l)) 2
          = PyFloat.Fin y
          /\ (Qabs (y - GoogleSheetsManager.mean l) <= 1 # 100)%Q).
Proof.
  split; [exact manager_get_stats_average|].
  split; [|split; [intros u; reflexivity|
           split; [|split; [vm_compute; reflexivity|exact rounded_mean_close]]]].
  2: { intros env m H. rewrite (get_stats_fallback env m (or_introl H)).
       reflexivity. }
  intros force env s r Hc Hs Ha Hm stats fbs.
  destruct (get_statistics_recompute force env s r Hc Hs Ha Hm)
    as (st & _ & Hget & Ht & Hav).
  subst stats. rewrite Hget. cbn [fst]. split; assumption.
Qed.

Lemma average_is_rounded_mean_witness :
  let m := {| GoogleSheetsManager.client := true;
              GoogleSheetsManager.sheet :=
                Sample.rated_sheet ["5"; "4"; "n/a"; "3"] |} in
  let stats := (GoogleSheetsManager.get_stats Sample.env_up m).1 in
  GoogleSheetsManager.digit_ratings (runtime Sample.env_up)
    (get_all_values (tail (GoogleSheetsManager.sheet m))) = [5; 4; 3]
  /\ stats !! "total" = Some (SInt 4)
  /\ stats !! "average" = Some (SFloat (PyFloat.Fin 4)).
Proof.
  intros m stats.
  split; [vm_compute; reflexivity|].
  pose proof (proj1 average_is_rounded_mean Sample.env_up m
                [VStr "Timestamp"] (tail (GoogleSheetsManager.sheet m))
                eq_refl eq_refl ltac:(discriminate) eq_refl
                ltac:(eexists; reflexivity)) as [Ht Ha].
  split; [exact Ht|exact Ha].
Defined.

(** * Further properties *)

(** ** Text: [str] of an integer and [int] of the result *)

Lemma pretty_N_char_digit d :
  (d < 10)%N -> N_of_ascii (pretty_N_char d) = (48 + d)%N.
Proof.
  intros H.
  assert (Hd : (d = 0 \/ d = 1 \/ d = 2 \/ d = 3 \/ d = 4 \/ d = 5 \/ d = 6
                \/ d = 7 \/ d = 8 \/ d = 9)%N) by lia.
  destruct Hd as [->|[->|[->|[->|[->|[->|[->|[->|[->| ->]]]]]]]]]; reflexivity.
Qed.

Lemma pretty_N_char_plain d :
  (d < 10)%N -> PyStr.ascii_digit (pretty_N_char d) = true.
Proof.
  intros H. unfold PyStr.ascii_digit. rewrite (pretty_N_char_digit d H).
  apply andb_true_iff. split; apply N.leb_le; lia.
Qed.

Lemma pretty_N_go_digits x : forall s,
  forallb PyStr.ascii_digit (list_ascii_of_string s) = true ->
  forallb PyStr.ascii_digit (list_ascii_of_string (pretty_N_go x s)) = true.
Proof.
  induction (N.lt_wf_0 x) as [x _ IH]. intros s Hs.
  destruct (N.eq_dec x 0%N) as [->|Hx]; [rewrite pretty_N_go_0; exact Hs|].
  rewrite pretty_N_go_step by lia.
  apply IH; [apply N.div_lt; lia|].
  cbn [list_ascii_of_string forallb]. rewrite Hs.
  rewrite (pretty_N_char_plain (x `mod` 10)%N) by (apply N.mod_lt; lia).
  reflexivity.
Qed.

Lemma pretty_N_go_value x : forall s,
  (0 < x)%N ->
  PyStr.digits_value 0 (list_ascii_of_string (pretty_N_go x s))
  = PyStr.digits_value (Z.of_N x) (list_ascii_of_string s).
Proof.
  induction (N.lt_wf_0 x) as [x _ IH]. intros s Hx.
  rewrite pretty_N_go_step by lia.
  assert (Hc : N_of_ascii (pretty_N_char (x `mod` 10)%N) = (48 + x `mod` 10)%N)
    by (apply pretty_N_char_digit, N.mod_lt; lia).
  pose proof (N.div_mod x 10%N ltac:(lia)) as Hdm.
  destruct (N.eq_dec (x `div` 10)%N 0%N) as [H0|H0].
  - rewrite H0, pretty_N_go_0. unfold PyStr.digits_value.
    cbn [list_ascii_of_string fold_left]. rewrite Hc. f_equal. lia.
  - assert (Hlt : (x `div` 10 < x)%N) by (apply N.div_lt; lia).
    assert (Hpos : (0 < x `div` 10)%N) by (apply N.neq_0_lt_0; exact H0).
    rewrite (IH (x `div` 10)%N Hlt _ Hpos). unfold PyStr.digits_value.
    cbn [list_ascii_of_string fold_left]. rewrite Hc. f_equal. lia.
Qed.

(** For a natural number of at most 640 digits, [str] gives a digit string
    and [int] reads the number back. *)
Lemma of_int_digits u n :
  0 <= n -> (String.length (PyStr.of_int n) <= 640)%nat ->
  PyStr.isdigit u (PyStr.of_int n) = true
  /\ PyStr.int u (PyStr.of_int n) = Some n
  /\ forallb PyStr.ascii_digit (list_ascii_of_string (PyStr.of_int n)) = true.
Proof.
  intros Hn Hlen. destruct n as [|p|p]; [repeat split; reflexivity| |lia].
  revert Hlen.
  unfold PyStr.of_int, pretty, pretty_Z, pretty, pretty_positive, pretty, pretty_N.
  destruct (decide (N.pos p = 0%N)) as [E|_]; [discriminate E|].
  intros Hlen.
  pose proof (pretty_N_go_digits (N.pos p) EmptyString eq_refl) as Hd.
  pose proof (pretty_N_go_value (N.pos p) EmptyString ltac:(lia)) as Hv.
  assert (Hne : pretty_N_go (N.pos p) EmptyString <> EmptyString).
  { intros E. rewrite E in Hv. discriminate Hv. }
  split; [exact (isdigit_plain u _ Hne Hd)|]. split; [|exact Hd].
  rewrite (int_plain u _ Hne Hd Hlen), Hv. reflexivity.
Qed.

(** [str] of a negative integer is not a digit string. *)
Lemma of_int_negative u n : n < 0 -> PyStr.isdigit u (PyStr.of_int n) = false.
Proof.
  intros Hn. destruct n as [|p|p]; try lia.
  change (PyStr.of_int (Z.neg p)) with (String "-" (pretty (N.pos p))).
  unfold PyStr.isdigit, PyStr.chars.
  cbn [list_ascii_of_string fmap list_fmap fold_right].
  destruct (fold_right PyStr.utf8_step _ _) as [[acc bits] out].
  reflexivity.
Qed.

(** ** Dispatch *)

Lemma prefix_app p : forall d,
  String.prefix p d = true -> exists rest, d = p +:+ rest.
Proof.
  induction p as [|a p IH]; intros d H; [exists d; reflexivity|].
  destruct d as [|b d]; [discriminate|]. cbn [String.prefix] in H.
  destruct (ascii_dec a b) as [->|]; [|discriminate].
  destruct (IH d H) as [rest ->]. exists rest. reflexivity.
Qed.


Lemma type_dispatch env user d (b : Bot.t) :
  PyStr.startswith "type_" d = true ->
  feed_update env (CallbackQuery user d) b = process_type d b.
Proof.
  intros H. destruct (prefix_app _ _ H) as [rest ->].
  unfold feed_update. rewrite H. reflexivity.
Qed.

Lemma process_type_cases cb_data (b : Bot.t) :
  match Runs.payload_type cb_data with
  | Some name =>
      (process_type cb_data b).1 = Ok tt
      /\ state (process_type cb_data b).2 = Some waiting_comment
      /\ data (process_type cb_data b).2 = <["type" := VStr name]> (data b)
      /\ sheets_manager (process_type cb_data b).2 = sheets_manager b
  | None =>
      (exists e, (process_type cb_data b).1 = Raised e)
      /\ (process_type cb_data b).2 = b
  end.
Proof.
  unfold Runs.payload_type, process_type, getitem.
  destruct (PyStr.split "_" cb_data !! 1%nat) as [piece|]; cbn [mbind option_bind].
  - destruct (type_names !! piece) as [name|]; cbn; eauto 6.
  - eauto.
Qed.

Lemma split_cons sep s : exists w ws, PyStr.split sep s = w :: ws.
Proof.
  induction s as [|c s (w & ws & IH)]; cbn [PyStr.split]; [eauto|].
  destruct (Ascii.eqb c sep); [eauto|]. rewrite IH. eauto.
Qed.

Lemma type_names_lookup k name :
  type_names !! k = Some name <->
  (k, name) ∈ [ ("suggestion", "Предложение"); ("bug", "Ошибка");
                ("idea", "Идея"); ("thanks", "Благодарность") ].
Proof.
  unfold type_names. rewrite !elem_of_cons, elem_of_nil.
  rewrite !lookup_insert_Some, lookup_singleton_Some.
  split.
  - intros [[<- <-]|[? [[<- <-]|[? [[<- <-]|[? [<- <-]]]]]]]; auto 6.
  - intros [H|[H|[H|[H|[]]]]]; injection H as -> ->;
      [left|right; split; [discriminate|left]
       |right; split; [discriminate|right; split; [discriminate|left]]
       |right; split; [discriminate|right; split; [discriminate|
          right; split; [discriminate|]]]]; auto.
Qed.

(** X1: the type handler is guarded by its table.  The handler looks up
    the second of the pieces the underscores cut the payload into, the text
    between the first underscore and the next one or the end.  When that
    piece is suggestion, bug, idea or thanks, the handler stores the matching
    name as the draft's type and moves the session to the comment step,
    whatever state it was in; for any other piece it raises [KeyError] on
    the piece and leaves the session exactly as it was.  The sheet is never
    touched. *)
Theorem process_type_guard env user d (b : Bot.t) :
  PyStr.startswith "type_" d = true ->
  let res := feed_update env (CallbackQuery user d) b in
  exists piece,
    PyStr.split "_" d !! 1%nat = Some piece
    /\ sheets_manager res.2 = sheets_manager b
    /\ match (type_names !! piece) with
       | Some name =>
           (piece, name) ∈ [ ("suggestion", "Предложение"); ("bug", "Ошибка");
                             ("idea", "Идея"); ("thanks", "Благодарность") ]
           /\ res.1 = Ok tt
           /\ state res.2 = Some waiting_comment
           /\ data res.2 = <["type" := VStr name]> (data b)
       | None =>
           (piece ∉ ["suggestion"; "bug"; "idea"; "thanks"])
           /\ res.1 = Raised (KeyError piece)
           /\ res.2 = b
       end.
Proof.
  intros H res. subst res. rewrite (type_dispatch env user d b H).
  destruct (prefix_app _ _ H) as [rest ->].
  destruct (split_cons "_" rest) as (w & ws & Hs).
  assert (Hp : PyStr.split "_" ("type_" +:+ rest) !! 1%nat = Some w).
  { change ("type_" +:+ rest) with
      (String "t" (String "y" (String "p" (String "e" (String "_" rest))))).
    cbn [PyStr.split]. change (Ascii.eqb "_" "_") with true.
    change (Ascii.eqb "t" "_") with false. change (Ascii.eqb "y" "_") with false.
    change (Ascii.eqb "p" "_") with false. change (Ascii.eqb "e" "_") with false.
    cbn iota. rewrite Hs. reflexivity. }
  exists w. split; [exact Hp|].
  unfold process_type, getitem. rewrite Hp.
  destruct (type_names !! w) as [name|] eqn:E; cbn.
  - split; [reflexivity|]. split; [apply type_names_lookup; exact E|auto].
  - split; [reflexivity|]. split; [|auto].
    intros Hin. rewrite !elem_of_cons, elem_of_nil in Hin.
    destruct Hin as [->|[->|[->|[->|[]]]]]; discriminate E.
Qed.

Lemma process_type_guard_witness :
  PyStr.startswith "type_" "type_bug" = true
  /\ exists piece,
       PyStr.split "_" "type_bug" !! 1%nat = Some piece
       /\ type_names !! piece = Some "Ошибка".
Proof.
  assert (H : PyStr.startswith "type_" "type_bug" = true) by reflexivity.
  split; [exact H|].
  destruct (process_type_guard Sample.env_up Sample.ann "type_bug" Sample.idle H)
    as (piece & Hp & _).
  exists piece. split; [exact Hp|].
  injection Hp as <-. reflexivity.
Defined.

(** ** What an event does to the sheet *)

Lemma manager_get_stats_sheet env (m : GoogleSheetsManager.t) :
  GoogleSheetsManager.sheet (GoogleSheetsManager.get_stats env m).2
  = GoogleSheetsManager.sheet m.
Proof.
  unfold GoogleSheetsManager.get_stats, GoogleSheetsManager.connect.
  destruct m as [c sh]; destruct c; cbn;
    repeat (match goal with |- context [if ?x then _ else _] => destruct x end;
            cbn);
    try reflexivity;
    destruct (GoogleSheetsManager.compute_stats _); reflexivity.
Qed.

Lemma other_events_frame env ev (b : Bot.t) :
  Runs.is_submit ev = false ->
  GoogleSheetsManager.sheet (sheets_manager (feed_update env ev b).2)
  = GoogleSheetsManager.sheet (sheets_manager b)
  /\ (data (feed_update env ev b).2 = data b
      \/ data (feed_update env ev b).2 = ∅
      \/ (exists n, data (feed_update env ev b).2 = <["rating" := VInt n]> (data b))
      \/ (exists k name, type_names !! k = Some name
            /\ data (feed_update env ev b).2 = <["type" := VStr name]> (data b))
      \/ data (feed_update env ev b).2 = <["comment" := VNone]> (data b)
      \/ (exists c, data (feed_update env ev b).2 = <["comment" := VStr c]> (data b))).
Proof.
  intros Hs. destruct ev as [user d|msg_text caption]; cbn [feed_update].
  - cbn [Runs.is_submit] in Hs. rewrite Hs.
    destruct (String.eqb d "start_feedback"); [split; [reflexivity|auto]|].
    destruct (PyStr.startswith "rate_" d).
    { destruct (process_rating_cases env d b) as [Hm Hd].
      rewrite Hm. split; [reflexivity|].
      destruct (payload_rating env d) as [n|]; destruct Hd as [_ ->]; eauto 6. }
    destruct (PyStr.startswith "type_" d).
    { pose proof (process_type_cases d b) as H.
      unfold Runs.payload_type in H.
      destruct (PyStr.split "_" d !! 1%nat) as [piece|] eqn:Ep; cbn in H.
      - destruct (type_names !! piece) as [name|] eqn:En.
        + destruct H as (_ & _ & -> & ->). split; [reflexivity|eauto 10].
        + destruct H as [_ ->]. auto.
      - destruct H as [_ ->]. auto. }
    destruct (String.eqb d "edit"); [split; [reflexivity|auto]|].
    destruct (String.eqb d "cancel"); [split; [reflexivity|auto]|].
    destruct (String.eqb d "show_stats").
    { unfold show_stats.
      pose proof (manager_get_stats_sheet env (sheets_manager b)) as Hg.
      destruct (GoogleSheetsManager.get_stats env (sheets_manager b)) as [st m].
      cbn [snd] in Hg.
      destruct (_ ← getitem st "total"; _); cbn; auto. }
    destruct (String.eqb d "about"); [|split; auto].
    unfold about_project. destruct (SPREADSHEET_ID env); split; auto.
  - destruct (is_command env "start" msg_text caption); [split; [reflexivity|auto]|].
    destruct (is_command env "stats" msg_text caption).
    { unfold cmd_stats.
      pose proof (manager_get_stats_sheet env (sheets_manager b)) as Hg.
      destruct (GoogleSheetsManager.get_stats env (sheets_manager b)) as [st m].
      cbn [snd] in Hg.
      destruct (_ ← getitem st "total"; _); cbn; auto. }
    destruct (decide (state b = Some waiting_comment)); [|split; auto].
    unfold process_comment.
    destruct (_ ← getitem _ "rating"; _); cbn [snd fst];
      (split; [reflexivity|]);
      destruct msg_text as [txt|]; cbn; [destruct (String.eqb txt "/skip")| | destruct (String.eqb txt "/skip")|]; eauto 10.
Qed.

Lemma submit_data env user (b : Bot.t) :
  data (submit_feedback env user b).2 = ∅
  \/ data (submit_feedback env user b).2 = data b.
Proof.
  unfold submit_feedback.
  destruct (GoogleSheetsManager.save_feedback _ _ _ _) as [ok m].
  destruct ok; [destruct (ADMIN_ID env =? 0)|]; cbn; auto.
  destruct (admin_notice user (data b)); cbn; auto.
Qed.

Lemma draft_ok_empty : Runs.draft_ok ∅.
Proof.
  repeat split; intros v H; rewrite lookup_empty in H; discriminate.
Qed.

Lemma draft_ok_step env ev (b : Bot.t) :
  Runs.draft_ok (data b) -> Runs.draft_ok (data (feed_update env ev b).2).
Proof.
  intros Hok. destruct (Runs.is_submit ev) eqn:Hs.
  - destruct ev as [user d|]; [|discriminate]. cbn in Hs.
    apply String.eqb_eq in Hs. subst d. rewrite submit_dispatch.
    destruct (submit_data env user b) as [-> | ->];
      [apply draft_ok_empty|exact Hok].
  - destruct (other_events_frame env ev b Hs) as [_ Hd].
    destruct Hok as (Hr & Ht & Hc).
    destruct Hd as [-> |[-> |[[n ->]|[(k & name & Hk & ->)|[-> |[c ->]]]]]];
      [repeat split; assumption | apply draft_ok_empty | | | |];
      (split; [|split]); intros v Hv;
      try (rewrite lookup_insert_ne in Hv by discriminate; eauto; fail);
      rewrite lookup_insert_eq in Hv; injection Hv as <-; eauto.
Qed.

Lemma row_of_ok env user (d : gmap string pyval) :
  Runs.draft_ok d ->
  Runs.row_ok
    (GoogleSheetsManager.row_of env
       {[ "id" := VInt (id user);
          "username" := VStr (or_str (username user) EmptyString);
          "first_name" := VStr (first_name user);
          "last_name" := VStr (or_str (last_name user) EmptyString) ]} d).
Proof.
  intros (Hr & Ht & Hc). unfold Runs.row_ok.
  split; [reflexivity|]. split; [reflexivity|].
  destruct (row_of_draft_cells env
              ({[ "id" := VInt (id user);
                  "username" := VStr (or_str (username user) EmptyString);
                  "first_name" := VStr (first_name user);
                  "last_name" := VStr (or_str (last_name user) EmptyString) ]}
                 : gmap string pyval) d) as (H5 & H6 & H7).
  rewrite H5, H6, H7. split; [|split].
  - destruct (d !! "rating") as [v|]; [|auto].
    destruct (Hr v eq_refl) as [n ->]. right. exists n. reflexivity.
  - destruct (d !! "type") as [v|]; [|auto].
    destruct (Ht v eq_refl) as (k & name & Hk & ->). right. eauto.
  - destruct (d !! "comment") as [v|]; [|right; eexists; reflexivity].
    destruct (Hc v eq_refl) as [-> |[c ->]]; [auto|right; eexists; reflexivity].
Qed.

(** What one event does to the sheet: nothing, or, for a submit, one row at
    the end, well formed when the draft is. *)
Lemma event_rows env ev (b : Bot.t) :
  exists added,
    GoogleSheetsManager.sheet (sheets_manager (feed_update env ev b).2)
    = (GoogleSheetsManager.sheet (sheets_manager b) ++ added)%list
    /\ (length added <= if Runs.is_submit ev then 1 else 0)%nat
    /\ (Runs.draft_ok (data b) -> Forall Runs.row_ok added).
Proof.
  destruct (Runs.is_submit ev) eqn:Hs.
  - destruct ev as [user d|]; [|discriminate]. cbn in Hs.
    apply String.eqb_eq in Hs. subst d.
    rewrite submit_dispatch, submit_manager.
    match goal with
    | |- context [GoogleSheetsManager.save_feedback ?e ?u ?f ?mm] =>
        destruct (manager_save_sheet e u f mm) as [_ H]
    end.
    rewrite H. destruct (_ && _).
    + eexists. split; [reflexivity|]. split; [simpl; lia|].
      intros Hok. constructor; [|constructor]. apply row_of_ok. exact Hok.
    + exists []. rewrite app_nil_r. split; [reflexivity|].
      split; [simpl; lia|constructor].
  - destruct (other_events_frame env ev b Hs) as [-> _].
    exists []. rewrite app_nil_r. split; [reflexivity|].
    split; [simpl; lia|constructor].
Qed.

(** X2: the sheet only grows, and only by submits.  Whatever the events
    and their environments, the sheet after a run is the sheet before it
    followed by at most one new row per submit callback; no event removes or
    rewrites a row. *)
Theorem run_appends_only (evs : list (Env * event)) (b : Bot.t) :
  exists added,
    GoogleSheetsManager.sheet (sheets_manager (run evs b))
    = (GoogleSheetsManager.sheet (sheets_manager b) ++ added)%list
    /\ (length added
        <= length (List.filter (fun p : Env * event => Runs.is_submit p.2) evs))%nat.
Proof.
  revert b. induction evs as [|[env ev] evs IH]; intros b.
  - exists []. rewrite app_nil_r. split; [reflexivity|simpl; lia].
  - cbn [run List.filter snd].
    destruct (event_rows env ev b) as (a1 & H1 & L1 & _).
    destruct (IH (feed_update env ev b).2) as (a2 & H2 & L2).
    exists (a1 ++ a2)%list. rewrite H2, H1, app_assoc. split; [reflexivity|].
    rewrite length_app. destruct (Runs.is_submit ev); simpl in *; lia.
Qed.

(** X3: what gets written.  From a session whose draft is as the handlers
    write it (an empty one, for a start), every row any run appends has the
    nine cells of the sheet, the status новый, a rating cell that is empty
    or [str] of an integer, a type cell that is empty or one of the four
    names of [type_names], and a comment cell that is a text or [None]; and
    the draft is still of that kind after the run. *)
Theorem run_rows_well_formed (evs : list (Env * event)) (b : Bot.t) :
  Runs.draft_ok (data b) ->
  Runs.draft_ok (data (run evs b))
  /\ exists added,
       GoogleSheetsManager.sheet (sheets_manager (run evs b))
       = (GoogleSheetsManager.sheet (sheets_manager b) ++ added)%list
       /\ Forall Runs.row_ok added.
Proof.
  revert b. induction evs as [|[env ev] evs IH]; intros b Hok.
  - split; [exact Hok|]. exists []. rewrite app_nil_r. split; [reflexivity|constructor].
  - cbn [run].
    destruct (event_rows env ev b) as (a1 & H1 & _ & R1).
    destruct (IH (feed_update env ev b).2 (draft_ok_step env ev b Hok))
      as (Hd & a2 & H2 & R2).
    split; [exact Hd|].
    exists (a1 ++ a2)%list. rewrite H2, H1, app_assoc. split; [reflexivity|].
    apply Forall_app. split; [apply R1; exact Hok|exact R2].
Qed.

Lemma run_rows_well_formed_witness :
  Runs.draft_ok (data Sample.idle)
  /\ exists added,
       GoogleSheetsManager.sheet
         (sheets_manager
            (run [ (Sample.env_up, CallbackQuery Sample.ann "rate_9");
                   (Sample.env_up, CallbackQuery Sample.ann "submit") ]
               Sample.idle))
       = (GoogleSheetsManager.sheet (sheets_manager Sample.idle) ++ added)%list
       /\ Forall Runs.row_ok added.
Proof.
  assert (H : Runs.draft_ok (data Sample.idle)) by exact draft_ok_empty.
  split; [exact H|].
  exact (proj2 (run_rows_well_formed _ Sample.idle H)).
Defined.

(** ** A whole conversation *)





(** ** Submit *)

(** X5: how a submit ends.  The save is attempted first.  If it went
    through, an admin is configured and the admin notice cannot be built
    from the draft (no rating, no type, or a comment that is not text), the
    handler raises after the row is written and the session keeps its state
    and its draft.  In every other case the handler returns normally and the
    session is left with no state and an empty draft, also when the save
    failed: the draft is lost then. *)
Theorem submit_outcome env user (b : Bot.t) :
  let res := feed_update env (CallbackQuery user "submit") b in
  let saved :=
    (GoogleSheetsManager.client (sheets_manager b) || creds_ok env) && api_ok env in
  match admin_notice user (data b) with
  | Raised e =>
      if saved && negb (ADMIN_ID env =? 0)
      then res.1 = Raised e /\ state res.2 = state b /\ data res.2 = data b
           /\ outbox res.2 = outbox b
           /\ length (GoogleSheetsManager.sheet (sheets_manager res.2))
              = S (length (GoogleSheetsManager.sheet (sheets_manager b)))
      else res.1 = Ok tt /\ state res.2 = None /\ data res.2 = ∅
  | Ok _ => res.1 = Ok tt /\ state res.2 = None /\ data res.2 = ∅
  end
  /\ (saved = false ->
      GoogleSheetsManager.sheet (sheets_manager res.2)
      = GoogleSheetsManager.sheet (sheets_manager b)
      /\ last (outbox res.2) = Some (callback_answer None)
      /\ edit_text save_error_text (Some get_main_menu) ∈ outbox res.2).
Proof.
  intros res saved. subst res. rewrite submit_dispatch.
  pose proof (submit_manager env user b) as Hm.
  destruct (manager_save_sheet env
              ({[ "id" := VInt (id user);
                  "username" := VStr (or_str (username user) EmptyString);
                  "first_name" := VStr (first_name user);
                  "last_name" := VStr (or_str (last_name user) EmptyString) ]}
                 : gmap string pyval) (data b) (sheets_manager b)) as [Hok Hsh].
  fold saved in Hok, Hsh. rewrite <- Hm in Hsh. clear Hm.
  revert Hsh. unfold submit_feedback.
  destruct (GoogleSheetsManager.save_feedback _ _ _ _) as [ok m].
  cbn [fst] in Hok. subst ok.
  destruct saved; cbn [andb].
  - destruct (ADMIN_ID env =? 0); cbn [negb].
    + intros _. split; [|discriminate].
      destruct (admin_notice user (data b)); cbn; auto.
    + destruct (admin_notice user (data b)) as [t|e]; cbn [fst snd].
      * intros _. split; [cbn; auto|discriminate].
      * cbn [with_manager sheets_manager state data outbox]. intros ->.
        split; [|discriminate]. rewrite length_app. cbn [length].
        repeat split. lia.
  - cbn [fst snd send clear with_manager sheets_manager state data outbox].
    intros ->. split.
    + destruct (admin_notice user (data b)); auto.
    + intros _. split; [reflexivity|]. split.
      * rewrite last_snoc. reflexivity.
      * apply elem_of_app. left. apply elem_of_app. right. left.
Qed.

(** X6: a submit that raises can be repeated.  When an admin is
    configured, the store is reachable and the admin notice cannot be built
    from the draft, every submit appends one more row and leaves the session
    as it was, so two submits in a row append two rows. *)
Theorem failed_notice_duplicates env1 env2 user e (b : Bot.t) :
  admin_notice user (data b) = Raised e ->
  ADMIN_ID env1 <> 0 -> ADMIN_ID env2 <> 0 ->
  (GoogleSheetsManager.client (sheets_manager b) || creds_ok env1)
  && api_ok env1 = true ->
  api_ok env2 = true ->
  let b1 := (feed_update env1 (CallbackQuery user "submit") b).2 in
  let b2 := (feed_update env2 (CallbackQuery user "submit") b1).2 in
  state b2 = state b /\ data b2 = data b
  /\ exists row1 row2,
       GoogleSheetsManager.sheet (sheets_manager b2)
       = (GoogleSheetsManager.sheet (sheets_manager b) ++ [row1; row2])%list
       /\ row1 !! 5%nat = row2 !! 5%nat
       /\ row1 !! 6%nat = row2 !! 6%nat
       /\ row1 !! 7%nat = row2 !! 7%nat.
Proof.
  intros Hn Ha1 Ha2 Hr1 Hapi2 b1 b2.
  assert (Hstep : forall env (b0 : Bot.t),
            admin_notice user (data b0) = Raised e -> ADMIN_ID env <> 0 ->
            (GoogleSheetsManager.client (sheets_manager b0) || creds_ok env)
            && api_ok env = true ->
            let b' := (feed_update env (CallbackQuery user "submit") b0).2 in
            state b' = state b0 /\ data b' = data b0
            /\ GoogleSheetsManager.client (sheets_manager b') = true
            /\ GoogleSheetsManager.sheet (sheets_manager b')
               = (GoogleSheetsManager.sheet (sheets_manager b0)
                  ++ [GoogleSheetsManager.row_of env
                        {[ "id" := VInt (id user);
                           "username" := VStr (or_str (username user) EmptyString);
                           "first_name" := VStr (first_name user);
                           "last_name" := VStr (or_str (last_name user) EmptyString) ]}
                        (data b0)])%list).
  { intros env b0 Hn0 Ha Hr b'. subst b'. rewrite submit_dispatch.
    unfold submit_feedback, GoogleSheetsManager.save_feedback,
      GoogleSheetsManager.connect.
    apply andb_true_iff in Hr as [Hc Hapi]. rewrite Hn0.
    destruct (Z.eqb_spec (ADMIN_ID env) 0) as [|_]; [contradiction|].
    destruct (sheets_manager b0) as [c sh] eqn:Em.
    cbn [GoogleSheetsManager.client GoogleSheetsManager.sheet] in *.
    destruct c; cbn [negb GoogleSheetsManager.client GoogleSheetsManager.sheet].
    - rewrite Hapi. cbn. auto.
    - cbn in Hc. rewrite Hc, Hapi. cbn. auto. }
  destruct (Hstep env1 b Hn Ha1 Hr1) as (S1 & D1 & C1 & Sh1). fold b1 in S1, D1, C1, Sh1.
  assert (Hr2 : (GoogleSheetsManager.client (sheets_manager b1) || creds_ok env2)
                && api_ok env2 = true) by (rewrite C1, Hapi2; reflexivity).
  assert (Hn1 : admin_notice user (data b1) = Raised e) by (rewrite D1; exact Hn).
  destruct (Hstep env2 b1 Hn1 Ha2 Hr2) as (S2 & D2 & _ & Sh2). fold b2 in S2, D2, Sh2.
  split; [congruence|]. split; [congruence|].
  eexists _, _. split.
  - rewrite Sh2, Sh1, <- app_assoc. reflexivity.
  - rewrite D1. repeat split.
Qed.

Lemma failed_notice_duplicates_witness :
  let b := Sample.idle in
  let env := Sample.env_with true true 0 1 in
  (admin_notice Sample.ann (data b) = Raised (KeyError "rating")
   /\ ADMIN_ID env <> 0
   /\ (GoogleSheetsManager.client (sheets_manager b) || creds_ok env)
      && api_ok env = true
   /\ api_ok env = true)
  /\ state (feed_update env (CallbackQuery Sample.ann "submit")
              (feed_update env (CallbackQuery Sample.ann "submit") b).2).2
     = state b.
Proof.
  intros b env.
  assert (H1 : admin_notice Sample.ann (data b) = Raised (KeyError "rating"))
    by reflexivity.
  assert (H2 : ADMIN_ID env <> 0) by discriminate.
  assert (H3 : (GoogleSheetsManager.client (sheets_manager b) || creds_ok env)
               && api_ok env = true) by reflexivity.
  assert (H4 : api_ok env = true) by reflexivity.
  split; [repeat split; assumption|].
  exact (proj1 (failed_notice_duplicates env env Sample.ann _ b H1 H2 H2 H3 H4)).
Defined.

(** ** The comment step without a rating *)




(** ** The keyboards against the handlers *)




(** ** Saving through the sheets manager, then reading the statistics *)

Lemma manager_compute_stats u hdr drows v0 :
  drows <> [] ->
  GoogleSheetsManager.tame_ratings u (get_all_values drows) = true ->
  last drows ≫= head = Some v0 ->
  GoogleSheetsManager.compute_stats u (get_all_values (hdr :: drows))
  = Ok ({[ "total" := SInt (Z.of_nat (length drows));
           "average" :=
             match GoogleSheetsManager.digit_ratings u (get_all_values drows) with
             | [] => SInt 0
             | l => SFloat (PyFloat.round
                              (PyFloat.nearest (GoogleSheetsManager.mean l)) 2)
             end;
           "last_feedback" := SStr (cell_text v0) ]} : gmap string statval).
Proof.
  intros Hne Hmod Hlast.
  destruct (manager_collect_ratings u (get_all_values drows) Hmod)
    as [Hcol Hbound].
  unfold GoogleSheetsManager.compute_stats.
  assert (Hlen : (length (get_all_values (hdr :: drows)) <=? 1)%nat = false).
  { apply Nat.leb_gt. unfold get_all_values. rewrite length_fmap.
    destruct drows; [congruence|simpl; lia]. }
  rewrite Hlen.
  change (tail (get_all_values (hdr :: drows))) with (get_all_values drows).
  rewrite Hcol. cbn [mbind outcome_bind].
  rewrite (manager_average_of _ Hbound).
  cbn [mbind outcome_bind].
  destruct (last drows) as [prow|] eqn:El; [|discriminate].
  cbn in Hlast. destruct prow as [|v prow]; [discriminate|].
  injection Hlast as ->.
  assert (Hl : last (get_all_values drows) = Some (cell_text <$> (v0 :: prow))).
  { unfold get_all_values. rewrite fmap_last, El. reflexivity. }
  rewrite Hl. cbn [fmap list_fmap lookup list_lookup mbind outcome_bind].
  unfold get_all_values at 1. rewrite length_fmap.
  destruct (GoogleSheetsManager.digit_ratings u (get_all_values drows));
    reflexivity.
Qed.

(** The rating cell the manager writes is read back by the statistics when
    the rating is not negative, and passed over when it is. *)
Lemma digit_rating_row_of u env ud fd n :
  fd !! "rating" = Some (VInt n) ->
  PyStr.tame u (PyStr.of_int n) = true ->
  GoogleSheetsManager.digit_rating u
    (cell_text <$> GoogleSheetsManager.row_of env ud fd)
  = if 0 <=? n then Some n else None.
Proof.
  intros Hr Ht. unfold GoogleSheetsManager.digit_rating.
  rewrite list_lookup_fmap.
  destruct (row_of_draft_cells env ud fd) as (-> & _).
  rewrite Hr. cbn [fmap option_fmap option_map from_option py_str cell_text
                   mbind option_bind].
  destruct (Z.leb_spec 0 n) as [Hn|Hn].
  - destruct (PyStr.isdigit u (PyStr.of_int n)) eqn:Hd.
    + unfold PyStr.tame, PyStr.plain_digits in Ht. rewrite Hd in Ht.
      cbn [negb orb] in Ht. apply andb_true_iff in Ht as [Hlen _].
      apply Nat.leb_le in Hlen.
      destruct (of_int_digits u n Hn ltac:(lia)) as (_ & -> & _). reflexivity.
    + destruct n as [|p|p]; [discriminate Hd| |lia].
      exfalso. revert Hd.
      unfold PyStr.of_int, pretty, pretty_Z, pretty, pretty_positive, pretty,
        pretty_N.
      destruct (decide (N.pos p = 0%N)) as [E|_]; [discriminate E|].
      pose proof (pretty_N_go_digits (N.pos p) EmptyString eq_refl) as Hall.
      pose proof (pretty_N_go_value (N.pos p) EmptyString ltac:(lia)) as Hv.
      assert (Hne : pretty_N_go (N.pos p) EmptyString <> EmptyString).
      { intros E. rewrite E in Hv. discriminate Hv. }
      rewrite (isdigit_plain u _ Hne Hall). discriminate.
  - rewrite (of_int_negative u n Hn). reflexivity.
Qed.

(** X9: a save through the sheets manager, then the statistics.  On a
    sheet with a header row, after a successful save of a draft rated [n]
    the statistics count one record more, give the time of the save as the
    last feedback, and average the former digit ratings together with [n],
    unless [n] is negative: a negative rating is stored and counted in the
    total and left out of the average.  This is for rating cells, the new
    one included, that are tame: a cell that is a digit string is written
    with at most 300 ASCII digits. *)
Theorem save_then_get_stats env1 env2 ud fd n (m : GoogleSheetsManager.t)
    hdr drows :
  GoogleSheetsManager.sheet m = hdr :: drows ->
  fd !! "rating" = Some (VInt n) ->
  (GoogleSheetsManager.client m || creds_ok env1) && api_ok env1 = true ->
  api_ok env2 = true ->
  GoogleSheetsManager.tame_ratings (runtime env2)
    (get_all_values (drows ++ [GoogleSheetsManager.row_of env1 ud fd])) = true ->
  let m1 := (GoogleSheetsManager.save_feedback env1 ud fd m).2 in
  let stats := (GoogleSheetsManager.get_stats env2 m1).1 in
  let old :=
    GoogleSheetsManager.digit_ratings (runtime env2) (get_all_values drows) in
  let ratings := if 0 <=? n then (old ++ [n])%list else old in
  stats !! "total" = Some (SInt (Z.of_nat (length drows) + 1))
  /\ stats !! "average"
     = Some (match ratings with
             | [] => SInt 0
             | l => SFloat (PyFloat.round
                              (PyFloat.nearest (GoogleSheetsManager.mean l)) 2)
             end)
  /\ stats !! "last_feedback" = Some (SStr (now_text env1)).
Proof.
  intros Hsheet Hr Hreach Ha2 Hmod m1 stats old ratings.
  destruct (manager_save_sheet env1 ud fd m) as [_ Hsh].
  rewrite Hreach, Hsheet in Hsh. fold m1 in Hsh.
  assert (Hc1 : GoogleSheetsManager.client m1 = true).
  { subst m1. unfold GoogleSheetsManager.save_feedback, GoogleSheetsManager.connect.
    apply andb_true_iff in Hreach as [Hc Ha].
    destruct m as [c sh]; cbn [GoogleSheetsManager.client] in *.
    destruct c; cbn [negb GoogleSheetsManager.client GoogleSheetsManager.sheet].
    - rewrite Ha. reflexivity.
    - cbn in Hc. rewrite Hc, Ha. reflexivity. }
  assert (Hreach2 : (GoogleSheetsManager.client m1 || creds_ok env2) && api_ok env2
                    = true) by (rewrite Hc1, Ha2; reflexivity).
  subst stats. rewrite (manager_get_stats_reachable env2 m1 Hreach2), Hsh.
  cbn [app].
  set (row := GoogleSheetsManager.row_of env1 ud fd) in *.
  assert (Hlast : last (drows ++ [row]) ≫= head = Some (VStr (now_text env1)))
    by (rewrite last_snoc; reflexivity).
  rewrite (manager_compute_stats (runtime env2) hdr (drows ++ [row]) _
             ltac:(destruct drows; discriminate) Hmod Hlast).
  assert (Htame : PyStr.tame (runtime env2) (PyStr.of_int n) = true).
  { unfold GoogleSheetsManager.tame_ratings, get_all_values in Hmod.
    rewrite fmap_app, forallb_app in Hmod.
    apply andb_true_iff in Hmod as [_ Hnew].
    cbn [fmap list_fmap forallb] in Hnew. rewrite andb_true_r in Hnew.
    subst row. rewrite list_lookup_fmap in Hnew.
    destruct (row_of_draft_cells env1 ud fd) as (Hcell & _).
    rewrite Hcell, Hr in Hnew. exact Hnew. }
  assert (Hrat : GoogleSheetsManager.digit_ratings (runtime env2)
                   (get_all_values (drows ++ [row]))
                 = ratings).
  { unfold GoogleSheetsManager.digit_ratings, get_all_values.
    rewrite fmap_app, omap_app. cbn [fmap list_fmap omap list_omap].
    subst row. rewrite (digit_rating_row_of (runtime env2) env1 ud fd n Hr Htame).
    subst ratings old. unfold GoogleSheetsManager.digit_ratings, get_all_values.
    destruct (0 <=? n); [reflexivity|apply app_nil_r]. }
  rewrite Hrat. rewrite length_app. cbn [length cell_text].
  replace (Z.of_nat (length drows + 1)) with (Z.of_nat (length drows) + 1) by lia.
  clearbody ratings. clear Hrat.
  destruct ratings; (split; [|split]); lookup_key.
Qed.

Lemma save_then_get_stats_witness :
  let m := {| GoogleSheetsManager.client := true;
              GoogleSheetsManager.sheet := Sample.rated_sheet ["5"; "4"] |} in
  let fd : gmap string pyval :=
    {[ "rating" := VInt 3; "type" := VStr "Идея"; "comment" := VStr "ok" ]} in
  let ud : gmap string pyval := {[ "id" := VInt 7 ]} in
  let stats :=
    (GoogleSheetsManager.get_stats Sample.env_up
       (GoogleSheetsManager.save_feedback Sample.env_up ud fd m).2).1 in
  stats !! "total" = Some (SInt 3)
  /\ stats !! "average" = Some (SFloat (PyFloat.Fin 4))
  /\ stats !! "last_feedback" = Some (SStr "2024-01-01 10:00:00").
Proof.
  intros m fd ud stats.
  exact (save_then_get_stats Sample.env_up Sample.env_up ud fd 3 m
           [VStr "Timestamp"] (tail (Sample.rated_sheet ["5"; "4"]))
           eq_refl eq_refl eq_refl eq_refl eq_refl).
Defined.

(** X10: the sheets manager writes no header row, and the statistics
    take the first row for one.  The first record submitted into an empty
    sheet is stored as row 1 and never counted: the statistics are still the
    fallback dictionary, and the statistics button still raises [KeyError]
    on last_feedback. *)
Theorem first_record_is_taken_for_header env env' user (b : Bot.t) :
  GoogleSheetsManager.sheet (sheets_manager b) = [] ->
  (GoogleSheetsManager.client (sheets_manager b) || creds_ok env) && api_ok env
  = true ->
  let b1 := (feed_update env (CallbackQuery user "submit") b).2 in
  length (GoogleSheetsManager.sheet (sheets_manager b1)) = 1%nat
  /\ (GoogleSheetsManager.get_stats env' (sheets_manager b1)).1
     = GoogleSheetsManager.fallback
  /\ (feed_update env' (CallbackQuery user "show_stats") b1).1
     = Raised (KeyError "last_feedback")
  /\ (feed_update env' (Message (Some "/stats") None) b1).1
     = Raised (KeyError "last_feedback").
Proof.
  intros Hsh Hreach b1.
  assert (Hlen : length (GoogleSheetsManager.sheet (sheets_manager b1)) = 1%nat).
  { subst b1. rewrite submit_dispatch, submit_manager.
    match goal with
    | |- context [GoogleSheetsManager.save_feedback ?e ?u ?f ?mm] =>
        destruct (manager_save_sheet e u f mm) as [_ H]
    end.
    rewrite Hreach, Hsh in H. rewrite H. reflexivity. }
  assert (Hfb : forall e, (GoogleSheetsManager.get_stats e (sheets_manager b1)).1
                          = GoogleSheetsManager.fallback).
  { intros e. apply get_stats_fallback. left. rewrite Hlen. lia. }
  split; [exact Hlen|]. split; [apply Hfb|].
  assert (Hcmd : is_command env' "start" (Some "/stats") None = false
                 /\ is_command env' "stats" (Some "/stats") None = true).
  { unfold is_command. cbn. destruct (bot_username env'); split; reflexivity. }
  destruct Hcmd as [Hc1 Hc2].
  split.
  - change (feed_update env' (CallbackQuery user "show_stats") b1)
      with (show_stats env' b1).
    unfold show_stats. specialize (Hfb env').
    destruct (GoogleSheetsManager.get_stats env' (sheets_manager b1)) as [st mm].
    cbn [fst] in Hfb. subst st. reflexivity.
  - cbn [feed_update]. rewrite Hc1, Hc2.
    unfold cmd_stats. specialize (Hfb env').
    destruct (GoogleSheetsManager.get_stats env' (sheets_manager b1)) as [st mm].
    cbn [fst] in Hfb. subst st. reflexivity.
Qed.

Lemma first_record_is_taken_for_header_witness :
  (GoogleSheetsManager.sheet (sheets_manager Sample.idle) = []
   /\ (GoogleSheetsManager.client (sheets_manager Sample.idle)
       || creds_ok Sample.env_up) && api_ok Sample.env_up = true)
  /\ length (GoogleSheetsManager.sheet
               (sheets_manager
                  (feed_update Sample.env_up (CallbackQuery Sample.ann "submit")
                     Sample.idle).2)) = 1%nat.
Proof.
  assert (H1 : GoogleSheetsManager.sheet (sheets_manager Sample.idle) = [])
    by reflexivity.
  assert (H2 : (GoogleSheetsManager.client (sheets_manager Sample.idle)
                || creds_ok Sample.env_up) && api_ok Sample.env_up = true)
    by reflexivity.
  split; [split; assumption|].
  exact (proj1 (first_record_is_taken_for_header Sample.env_up Sample.env_up
                  Sample.ann Sample.idle H1 H2)).
Defined.

(** ** The service: connecting *)






(** ** The bulk read, rows of any width *)

Lemma to_feedbacks_spec hs : forall drows i fb,
  fb ∈ to_feedbacks hs i drows <->
  exists k row,
    drows !! k = Some row /\ (length hs <= length row)%nat
    /\ fb = {| fields := fill hs row ∅; _row := i + Z.of_nat k |}.
Proof.
  induction drows as [|row0 drows IH]; intros i fb.
  - cbn [to_feedbacks]. rewrite elem_of_nil. split; [tauto|].
    intros (k & row & Hk & _). discriminate Hk.
  - assert (Hrest : fb ∈ to_feedbacks hs (i + 1) drows <->
              exists k row, (row0 :: drows) !! S k = Some row
                            /\ (length hs <= length row)%nat
                            /\ fb = {| fields := fill hs row ∅;
                                       _row := i + Z.of_nat (S k) |}).
    { rewrite IH. split; intros (k & row & Hk & Hw & ->); exists k, row;
        (split; [exact Hk|split; [exact Hw|f_equal; lia]]). }
    cbn [to_feedbacks].
    destruct (Nat.leb_spec (length hs) (length row0)) as [Hw|Hw].
    + rewrite elem_of_cons, Hrest. split.
      * intros [->|(k & row & Hk & Hw' & ->)].
        -- exists 0%nat, row0. split; [reflexivity|]. split; [exact Hw|].
           f_equal. lia.
        -- exists (S k), row. auto.
      * intros (k & row & Hk & Hw' & ->). destruct k as [|k].
        -- left. injection Hk as <-. f_equal. lia.
        -- right. exists k, row. auto.
    + rewrite Hrest. split.
      * intros (k & row & Hk & Hw' & ->). exists (S k), row. auto.
      * intros (k & row & Hk & Hw' & ->). destruct k as [|k].
        -- injection Hk as <-. lia.
        -- exists k, row. auto.
Qed.

Lemma to_feedbacks_from hs : forall drows i fb,
  fb ∈ to_feedbacks hs i drows -> i <= _row fb.
Proof.
  intros drows i fb H. apply to_feedbacks_spec in H as (k & row & _ & _ & ->).
  cbn [_row]. lia.
Qed.

Lemma to_feedbacks_increasing hs : forall drows i a b fa fb,
  to_feedbacks hs i drows !! a = Some fa ->
  to_feedbacks hs i drows !! b = Some fb ->
  (a < b)%nat -> _row fa < _row fb.
Proof.
  induction drows as [|row0 drows IH]; intros i a b fa fb Ha Hb Hab;
    [discriminate Ha|].
  cbn [to_feedbacks] in Ha, Hb.
  destruct (length hs <=? length row0)%nat; [|exact (IH _ _ _ _ _ Ha Hb Hab)].
  destruct b as [|b]; [lia|]. cbn [lookup list_lookup] in Hb.
  destruct a as [|a].
  - injection Ha as <-. cbn [_row].
    apply list_elem_of_lookup_2, to_feedbacks_from in Hb. lia.
  - cbn [lookup list_lookup] in Ha. apply (IH _ _ _ _ _ Ha Hb). lia.
Qed.

Lemma to_feedbacks_length hs : forall drows i,
  (length (to_feedbacks hs i drows) <= length drows)%nat.
Proof.
  induction drows as [|row0 drows IH]; intros i; [reflexivity|].
  cbn [to_feedbacks length]. specialize (IH (i + 1)).
  destruct (length hs <=? length row0)%nat; cbn [length]; lia.
Qed.

(** X12: the bulk read over rows of any width.  On a connected service
    whose remote calls go through, the entries are exactly the rows among
    the first [limit] data rows that are at least as wide as the header: a
    narrower row gives no entry.  Each entry carries the number of its row
    in the sheet, so the numbers increase along the result and have gaps
    where rows were passed over. *)
Theorem bulk_read_passes_over_short_rows limit env (s : GoogleSheetsService.t) r
    hs drows :
  sheet s = true -> api_ok env = true -> 0 <= limit ->
  get_all_values (rows r) = hs :: drows ->
  let fbs := (get_all_feedbacks limit env s r).1 in
  (forall fb,
     fb ∈ fbs <->
     exists k row,
       (k < Z.to_nat limit)%nat /\ drows !! k = Some row
       /\ (length hs <= length row)%nat
       /\ fb = {| fields := fill hs row ∅; _row := Z.of_nat k + 2 |})
  /\ (forall a b fa fb,
        fbs !! a = Some fa -> fbs !! b = Some fb -> (a < b)%nat ->
        _row fa < _row fb)
  /\ (length fbs <= Nat.min (Z.to_nat limit) (length drows))%nat.
Proof.
  intros Hs Ha Hl Hv fbs.
  assert (Hread : fbs = to_feedbacks hs 2 (take (Z.to_nat limit) drows)).
  { subst fbs. rewrite (get_all_feedbacks_connected limit env s r Hs Ha).
    cbn [fst]. rewrite Hv. destruct drows as [|row0 rest].
    - rewrite take_nil. reflexivity.
    - rewrite slice_data by assumption. reflexivity. }
  rewrite Hread. split; [|split].
  - intros fb. rewrite to_feedbacks_spec. split.
    + intros (k & row & Hk & Hw & ->).
      apply lookup_take_Some in Hk as [Hk Hlt].
      exists k, row. repeat split; try assumption. f_equal. lia.
    + intros (k & row & Hlt & Hk & Hw & ->).
      exists k, row. split; [|split; [exact Hw|f_equal; lia]].
      rewrite lookup_take_lt by exact Hlt. exact Hk.
  - apply to_feedbacks_increasing.
  - etransitivity; [apply to_feedbacks_length|].
    rewrite length_take. reflexivity.
Qed.

Lemma bulk_read_passes_over_short_rows_witness :
  let r :=
    {| rows := [ headers; [VStr "2024-01-01 09:00:00"; VStr "7"];
                 Sample.data_row 4 ];
       get_all_values_calls := 0 |} in
  (sheet Sample.service = true /\ api_ok Sample.env_up = true /\ 0 <= 100
   /\ get_all_values (rows r)
      = (cell_text <$> headers) :: tail (get_all_values (rows r)))
  /\ _row <$> (get_all_feedbacks 100 Sample.env_up Sample.service r).1 = [3]
  /\ (length (get_all_feedbacks 100 Sample.env_up Sample.service r).1
      <= Nat.min (Z.to_nat 100) 2)%nat.
Proof.
  intros r.
  assert (H1 : sheet Sample.service = true) by reflexivity.
  assert (H2 : api_ok Sample.env_up = true) by reflexivity.
  assert (H3 : 0 <= 100) by lia.
  assert (H4 : get_all_values (rows r)
               = (cell_text <$> headers) :: tail (get_all_values (rows r)))
    by reflexivity.
  split; [repeat split; assumption|]. split; [vm_compute; reflexivity|].
  exact (proj2 (proj2 (bulk_read_passes_over_short_rows 100 Sample.env_up
                         Sample.service r _ _ H1 H2 H3 H4))).
Defined.

(** [l[1:limit+1]] for a negative limit. *)
Lemma slice_negative {A} (limit : Z) (hs : A) (drows : list A) :
  limit < 0 ->
  slice 1 (limit + 1) (hs :: drows)
  = if limit =? -1 then []
    else take (length drows - Z.to_nat (- limit - 1)) drows.
Proof.
  intros Hl. unfold slice. cbn [length]. rewrite Nat2Z.inj_succ.
  assert (H1 : (if 1 <? 0 then Z.max 0 (Z.succ (Z.of_nat (length drows)) + 1)
                else Z.min 1 (Z.succ (Z.of_nat (length drows)))) = 1).
  { destruct (Z.ltb_spec 1 0); lia. }
  rewrite H1. change (Z.to_nat 1) with 1%nat. cbn [drop].
  destruct (Z.eqb_spec limit (-1)) as [->|Hne].
  - assert (H0 : (if -1 + 1 <? 0
                  then Z.max 0 (Z.succ (Z.of_nat (length drows)) + (-1 + 1))
                  else Z.min (-1 + 1) (Z.succ (Z.of_nat (length drows)))) = 0).
    { destruct (Z.ltb_spec (-1 + 1) 0); lia. }
    rewrite H0. reflexivity.
  - destruct (Z.ltb_spec (limit + 1) 0) as [_|]; [|lia].
    f_equal. lia.
Qed.

(** X13: a negative limit is not refused.  With [limit = -1] the bulk
    read returns nothing; with [limit = -k], [k] at least 2, it reads all
    data rows but the last [k - 1]. *)
Theorem negative_limit_drops_the_tail limit env (s : GoogleSheetsService.t) r
    hs drows :
  sheet s = true -> api_ok env = true -> limit < 0 ->
  get_all_values (rows r) = hs :: drows ->
  (get_all_feedbacks limit env s r).1
  = if limit =? -1 then []
    else to_feedbacks hs 2 (take (length drows - Z.to_nat (- limit - 1)) drows).
Proof.
  intros Hs Ha Hl Hv.
  rewrite (get_all_feedbacks_connected limit env s r Hs Ha). cbn [fst].
  rewrite Hv. destruct drows as [|row0 rest].
  - destruct (limit =? -1); reflexivity.
  - rewrite slice_negative by exact Hl.
    destruct (limit =? -1); reflexivity.
Qed.

Lemma negative_limit_drops_the_tail_witness :
  let r := Sample.remote_with 3 in
  (sheet Sample.service = true /\ api_ok Sample.env_up = true /\ -2 < 0
   /\ get_all_values (rows r)
      = (cell_text <$> headers) :: tail (get_all_values (rows r)))
  /\ _row <$> (get_all_feedbacks (-2) Sample.env_up Sample.service r).1 = [2; 3].
Proof.
  intros r.
  assert (H1 : sheet Sample.service = true) by reflexivity.
  assert (H2 : api_ok Sample.env_up = true) by reflexivity.
  assert (H3 : -2 < 0) by lia.
  assert (H4 : get_all_values (rows r)
               = (cell_text <$> headers) :: tail (get_all_values (rows r)))
    by reflexivity.
  split; [repeat split; assumption|].
  rewrite (negative_limit_drops_the_tail (-2) Sample.env_up Sample.service r
             _ _ H1 H2 H3 H4).
  vm_compute. reflexivity.
Defined.

(** ** The statistics of the service: counters and distributions *)

Lemma count_cons {A} (f : A -> bool) a l :
  count f (a :: l) = (if f a then 1 else 0) + count f l.
Proof.
  unfold count. cbn [List.filter]. destruct (f a); cbn [length]; lia.
Qed.


Lemma count_mono {A} (f g : A -> bool) l :
  (forall a, f a = true -> g a = true) -> count f l <= count g l.
Proof.
  intros H. induction l as [|a l IH]; [reflexivity|].
  rewrite !count_cons. specialize (H a).
  destruct (f a), (g a); try lia; discriminate (H eq_refl).
Qed.




Lemma compute_statistics_inv env first rest stats :
  compute_statistics env (first :: rest) = Ok stats ->
  let fbs := first :: rest in
  stats !! "total" = Some (SInt (Z.of_nat (length fbs)))
  /\ stats !! "rating_distribution"
     = Some (SCounts (rating_dist (digit_ratings (runtime env) fbs)))
  /\ stats !! "type_distribution" = Some (SCounts (distribution "Type" fbs))
  /\ stats !! "status_distribution" = Some (SCounts (distribution "Status" fbs))
  /\ stats !! "last_week" = Some (SInt (count (in_last_week env) fbs))
  /\ stats !! "today" = Some (SInt (count (is_today env) fbs))
  /\ stats !! "with_comments" = Some (SInt (count (has_comment (runtime env)) fbs))
  /\ is_Some (stats !! "average_rating").
Proof.
  intros H fbs. unfold compute_statistics in H. fold fbs in H.
  destruct (collect_ratings (runtime env) fbs) as [ratings|] eqn:Hcol;
    [|discriminate].
  apply service_collect_ratings_ok in Hcol. subst ratings.
  cbn [mbind outcome_bind] in H.
  destruct (avg_rating (digit_ratings (runtime env) fbs)) as [avg|]; [|discriminate].
  cbn [mbind outcome_bind] in H.
  destruct (PyFloat.int_truediv _ _); [|discriminate].
  cbn [mbind outcome_bind] in H. injection H as <-.
  repeat split; try lookup_key.
  eexists. lookup_key.
Qed.



Lemma get_all_feedbacks_length env (s : GoogleSheetsService.t) r :
  (length (get_all_feedbacks 100 env s r).1 <= 100)%nat.
Proof.
  unfold get_all_feedbacks.
  destruct (if sheet s then (s, r) else (connect env s r).2) as [s1 r1].
  destruct (sheet s1 && api_ok env); cbn [fst]; [|cbn; lia].
  destruct (get_all_values (rows r1)) as [|hs [|row rest]]; cbn [fst length];
    try lia.
  etransitivity; [apply to_feedbacks_length|].
  unfold slice. rewrite length_take.
  destruct (Z.ltb_spec 1 0); [lia|].
  destruct (Z.ltb_spec (100 + 1) 0); lia.
Qed.

(** X15: the shape of recomputed statistics.  Whatever the service, the
    sheet and the environment, a forced [get_statistics] returns a total
    between 0 and 100 and an average_rating; and unless it reports an error,
    its counters are ordered: the entries of today are among those of the
    last week, and neither these nor the entries with a comment outnumber
    the total. *)
Theorem recomputed_statistics_shape env (s : GoogleSheetsService.t) r :
  let stats := (get_statistics true env s r).1 in
  exists n,
    stats !! "total" = Some (SInt n) /\ 0 <= n <= 100
    /\ is_Some (stats !! "average_rating")
    /\ (stats !! "error" = None ->
        exists t w c,
          stats !! "today" = Some (SInt t)
          /\ stats !! "last_week" = Some (SInt w)
          /\ stats !! "with_comments" = Some (SInt c)
          /\ 0 <= t <= w /\ w <= n /\ 0 <= c <= n).
Proof.
  intros stats. subst stats. unfold get_statistics. cbn [cached].
  pose proof (get_all_feedbacks_length env s r) as Hlen.
  destruct (get_all_feedbacks 100 env s r) as [fbs [s1 r1]]. cbn [fst] in Hlen.
  destruct (compute_statistics env fbs) as [stats|e] eqn:Hs; cbn [fst].
  - destruct fbs as [|first rest].
    + injection Hs as <-. exists 0.
      split; [reflexivity|]. split; [lia|]. split; [eexists; reflexivity|].
      intros _. exists 0, 0, 0. repeat split; try reflexivity; lia.
    + destruct (compute_statistics_inv env first rest stats Hs)
        as (Ht & _ & _ & _ & Hw & Hd & Hc & Ha).
      eexists. split; [exact Ht|]. split; [lia|]. split; [exact Ha|].
      intros _. eexists _, _, _.
      split; [exact Hd|]. split; [exact Hw|]. split; [exact Hc|].
      pose proof (count_le (is_today env) (first :: rest)).
      pose proof (count_le (in_last_week env) (first :: rest)).
      pose proof (count_le (has_comment (runtime env)) (first :: rest)).
      assert (count (is_today env) (first :: rest)
              <= count (in_last_week env) (first :: rest)).
      { apply count_mono. intros fb. unfold is_today, in_last_week.
        destruct (strptime_date env _) as [d|]; [|discriminate].
        intros E. apply Z.eqb_eq in E. apply Z.leb_le. lia. }
      lia.
  - exists 0. unfold error_stats.
    split; [lookup_key|]. split; [lia|].
    split; [eexists; lookup_key|].
    intros Herr. exfalso. revert Herr.
    rewrite !lookup_insert_ne by discriminate.
    rewrite lookup_singleton_eq. discriminate.
Qed.

(** ** The cache of the service: its clock and what it keeps *)

Lemma timedelta_seconds_days k secs :
  0 <= secs < 86400000000 ->
  timedelta_seconds (k * 86400000000 + secs) = secs / 1000000.
Proof.
  intros H. unfold timedelta_seconds.
  replace (k * 86400000000 + secs) with (secs + (k * 86400) * 1000000) by lia.
  rewrite Z.div_add by lia.
  rewrite Z.add_comm, Z.mul_comm, Z.add_comm, Z.mul_comm.
  rewrite Z.mod_add by lia.
  apply Z.mod_small. split; [apply Z.div_pos; lia|].
  apply Z.div_lt_upper_bound; lia.
Qed.

(** X16: the age of a snapshot is taken modulo a day.  The cache test
    reads the [seconds] field of the time elapsed, which leaves whole days
    out: a snapshot that is [k] days and less than 60 seconds old is
    returned without a read, for every [k], and one whose age within the
    day is 60 seconds or more is not used. *)
Theorem snapshot_age_is_taken_modulo_a_day env (s : GoogleSheetsService.t) r
    d0 t0 k secs :
  _stats_cache s = Some d0 -> (0 < size d0)%nat -> _cache_time s = Some t0 ->
  now env - t0 = k * 86400000000 + secs -> 0 <= secs < 86400000000 ->
  (secs < 60000000 -> get_statistics false env s r = (d0, (s, r)))
  /\ (60000000 <= secs -> cached false env s = None).
Proof.
  intros Hd Hsz Ht Hage Hsecs.
  pose proof (timedelta_seconds_days k secs Hsecs) as Htd.
  rewrite <- Hage in Htd. split; intros Hs.
  - apply (cache_hit env s r d0 t0 Hd Hsz Ht).
    rewrite Htd. unfold CACHE_TIMEOUT. apply Z.div_lt_upper_bound; lia.
  - unfold cached. rewrite Hd, Ht, Htd.
    assert (Hge : (secs / 1000000 <? CACHE_TIMEOUT) = false).
    { apply Z.ltb_ge. unfold CACHE_TIMEOUT. apply Z.div_le_lower_bound; lia. }
    rewrite Hge, andb_false_r. reflexivity.
Qed.

Lemma snapshot_age_is_taken_modulo_a_day_witness :
  let computed :=
    get_statistics true (Sample.env_at 0) Sample.service (Sample.remote_with 1) in
  let later := Sample.env_at (3 * 86400 + 30) in
  let grown :=
    {| rows := rows (Sample.remote_with 5);
       get_all_values_calls := get_all_values_calls computed.2.2 |} in
  (_stats_cache computed.2.1 = Some computed.1
   /\ (0 < size computed.1)%nat
   /\ _cache_time computed.2.1 = Some 0
   /\ now later - 0 = 3 * 86400000000 + 30000000
   /\ 0 <= 30000000 < 86400000000)
  /\ get_statistics false later computed.2.1 grown = (computed.1, (computed.2.1, grown)).
Proof.
  intros computed later grown.
  assert (H1 : _stats_cache computed.2.1 = Some computed.1) by reflexivity.
  assert (H2 : (0 < size computed.1)%nat)
    by (apply Nat.ltb_lt; vm_compute; reflexivity).
  assert (H3 : _cache_time computed.2.1 = Some 0) by reflexivity.
  assert (H4 : now later - 0 = 3 * 86400000000 + 30000000) by reflexivity.
  assert (H5 : 0 <= 30000000 < 86400000000) by lia.
  split; [repeat split; try assumption; lia|].
  exact (proj1 (snapshot_age_is_taken_modulo_a_day later computed.2.1 grown
                  computed.1 0 3 30000000 H1 H2 H3 H4 H5) ltac:(lia)).
Defined.

Lemma get_all_feedbacks_down limit env (s : GoogleSheetsService.t) r :
  api_ok env = false ->
  (get_all_feedbacks limit env s r).1 = []
  /\ rows (get_all_feedbacks limit env s r).2.2 = rows r
  /\ get_all_values_calls (get_all_feedbacks limit env s r).2.2
     = get_all_values_calls r
  /\ _stats_cache (get_all_feedbacks limit env s r).2.1 = _stats_cache s.
Proof.
  intros Ha. unfold get_all_feedbacks, connect. rewrite Ha.
  destruct (sheet s); cbn [fst snd]; [rewrite andb_false_r; auto|].
  destruct (creds_ok env); cbn [fst snd].
  - destruct (truthy_str (spreadsheet_id s)); cbn [fst snd sheet];
      rewrite andb_false_r; auto.
  - rewrite andb_false_r; auto.
Qed.

(** X17: a read that fails is cached as no data.  When the remote calls
    do not go through, [get_statistics] does not report an error: the bulk
    read swallows the failure and returns nothing, so the result is the
    statistics of an empty sheet, cached with the time of the call.  A call
    less than 60 seconds later returns that snapshot without reading,
    whatever the sheet holds and although the calls would go through. *)
Theorem failed_read_is_cached_as_no_data force env1 env2
    (s : GoogleSheetsService.t) r :
  cached force env1 s = None -> api_ok env1 = false ->
  0 <= now env2 - now env1 < 60 * 1000000 ->
  let res1 := get_statistics force env1 s r in
  res1.1 = empty_stats
  /\ res1.1 !! "error" = None
  /\ _stats_cache res1.2.1 = Some empty_stats
  /\ _cache_time res1.2.1 = Some (now env1)
  /\ rows res1.2.2 = rows r
  /\ get_all_values_calls res1.2.2 = get_all_values_calls r
  /\ forall r', get_statistics false env2 res1.2.1 r' = (empty_stats, (res1.2.1, r')).
Proof.
  intros Hc Ha Hd res1.
  destruct (get_all_feedbacks_down 100 env1 s r Ha) as (Hf & Hr & Hn & _).
  assert (E : res1.1 = empty_stats
              /\ _stats_cache res1.2.1 = Some empty_stats
              /\ _cache_time res1.2.1 = Some (now env1)
              /\ res1.2.2 = (get_all_feedbacks 100 env1 s r).2.2).
  { subst res1. unfold get_statistics. rewrite Hc.
    destruct (get_all_feedbacks 100 env1 s r) as [fbs [s1 r1]].
    cbn [fst] in Hf. subst fbs. cbn. auto. }
  destruct E as (E1 & E2 & E3 & E4).
  split; [exact E1|]. split; [rewrite E1; reflexivity|].
  split; [exact E2|]. split; [exact E3|].
  split; [rewrite E4; exact Hr|]. split; [rewrite E4; exact Hn|].
  intros r'. apply (cache_hit env2 res1.2.1 r' empty_stats (now env1) E2).
  - apply Nat.ltb_lt. vm_compute. reflexivity.
  - exact E3.
  - apply timedelta_seconds_small. exact Hd.
Qed.

Lemma failed_read_is_cached_as_no_data_witness :
  let down := Sample.env_with true false 0 0 in
  let res1 := get_statistics false down Sample.service (Sample.remote_with 3) in
  (cached false down Sample.service = None /\ api_ok down = false
   /\ 0 <= now (Sample.env_at 30) - now down < 60 * 1000000)
  /\ (get_statistics false (Sample.env_at 30) res1.2.1 (Sample.remote_with 3)).1
     !! "total" = Some (SInt 0).
Proof.
  intros down res1.
  assert (H1 : cached false down Sample.service = None) by reflexivity.
  assert (H2 : api_ok down = false) by reflexivity.
  assert (H3 : 0 <= now (Sample.env_at 30) - now down < 60 * 1000000)
    by (cbn; lia).
  split; [repeat split; try assumption; lia|].
  destruct (failed_read_is_cached_as_no_data false down (Sample.env_at 30)
              Sample.service (Sample.remote_with 3) H1 H2 H3)
    as (_ & _ & _ & _ & _ & _ & Hnext).
  fold res1 in Hnext. rewrite Hnext. reflexivity.
Defined.

(** ** Commands during a conversation *)

(** X18: the commands come before the comment step and leave the
    conversation alone.  A message that is the /start or the /stats command
    is handled as that command in every state, also while a comment is
    awaited: it is not stored as the comment, and the state, the draft and
    the rows of the sheet are what they were. *)
Theorem commands_leave_the_conversation env msg_text caption (b : Bot.t) :
  is_command env "start" msg_text caption
  || is_command env "stats" msg_text caption = true ->
  let b' := (feed_update env (Message msg_text caption) b).2 in
  state b' = state b /\ data b' = data b
  /\ GoogleSheetsManager.sheet (sheets_manager b')
     = GoogleSheetsManager.sheet (sheets_manager b)
  /\ (is_command env "start" msg_text caption = true ->
      (feed_update env (Message msg_text caption) b).1 = Ok tt
      /\ outbox b' = (outbox b ++ [message_answer welcome_text get_main_menu])%list).
Proof.
  intros H b'. subst b'. cbn [feed_update].
  destruct (is_command env "start" msg_text caption).
  - cbn. auto.
  - cbn [orb] in H. rewrite H. unfold cmd_stats.
    pose proof (manager_get_stats_sheet env (sheets_manager b)) as Hsh.
    destruct (GoogleSheetsManager.get_stats env (sheets_manager b)) as [stats m].
    cbn [snd] in Hsh.
    destruct (_ ← getitem stats "total"; _); cbn; repeat split; try exact Hsh;
      discriminate.
Qed.

Lemma commands_leave_the_conversation_witness :
  is_command Sample.env_up "start" (Some "/start@Feedback_Bot now") None
  || is_command Sample.env_up "stats" (Some "/start@Feedback_Bot now") None = true
  /\ state (feed_update Sample.env_up (Message (Some "/start@Feedback_Bot now") None)
              Sample.commenting).2 = Some waiting_comment.
Proof.
  assert (H : is_command Sample.env_up "start" (Some "/start@Feedback_Bot now") None
              || is_command Sample.env_up "stats" (Some "/start@Feedback_Bot now") None
              = true) by reflexivity.
  split; [exact H|].
  exact (proj1 (commands_leave_the_conversation Sample.env_up
                  (Some "/start@Feedback_Bot now") None Sample.commenting H)).
Defined.

(** ** The result of a save through the service *)

(** X19: the result of a save is consistent, and a failed save keeps
    the cache.  The result reports success exactly when it carries no error
    and exactly when it carries a row number; it carries no time exactly
    when the connection could not be made.  A save that does not succeed
    leaves the cached snapshot and its time as they were. *)
Theorem save_result_is_consistent env ud fd (s : GoogleSheetsService.t) r :
  let res := (save_feedback env ud fd s r).1 in
  let s' := (save_feedback env ud fd s r).2.1 in
  (success res = true <-> error res = None)
  /\ (success res = true <-> is_Some (row_number res))
  /\ (timestamp res = None <-> error res = Some connect_failed)
  /\ (timestamp res = None \/ timestamp res = Some (now_text env))
  /\ (success res = false ->
      _stats_cache s' = _stats_cache s /\ _cache_time s' = _cache_time s)
  /\ _cache_time s' = _cache_time s.
Proof.
  unfold save_feedback, connect.
  destruct (client s && sheet s); [|destruct (creds_ok env);
    [destruct (truthy_str (spreadsheet_id s)); [destruct (api_ok env) eqn:Ha|]|]];
    cbn [negb fst snd]; try rewrite Ha;
    try destruct (api_ok env);
    cbn [success error row_number timestamp fst snd _stats_cache _cache_time];
    repeat split; try discriminate; try tauto; try (intros; eauto; fail);
    try (intros [? ?]; discriminate); auto.
Qed.

(** ** Digit strings that [int] cannot read *)

Lemma manager_collect_ratings_raises u c row rows :
  PyStr.isdigit u c = true -> PyStr.int u c = None ->
  row ∈ rows -> row !! 5%nat = Some c ->
  GoogleSheetsManager.collect_ratings u rows = Raised ValueError.
Proof.
  intros Hd Hi Hin Hc. induction rows as [|row0 rows IH]; [inversion Hin|].
  cbn [GoogleSheetsManager.collect_ratings].
  apply elem_of_cons in Hin as [<-|Hin].
  - rewrite Hc, Hd, Hi. reflexivity.
  - rewrite (IH Hin).
    destruct (row0 !! 5%nat) as [c0|]; [|reflexivity].
    destruct (PyStr.isdigit u c0); [|reflexivity].
    destruct (PyStr.int u c0); reflexivity.
Qed.

Lemma service_collect_ratings_raises u c fb fbs :
  PyStr.isdigit u c = true -> PyStr.int u c = None ->
  fb ∈ fbs -> fields fb !! "Rating" = Some c ->
  collect_ratings u fbs = Raised ValueError.
Proof.
  intros Hd Hi Hin Hc. induction fbs as [|fb0 fbs IH]; [inversion Hin|].
  cbn [collect_ratings].
  apply elem_of_cons in Hin as [<-|Hin].
  - rewrite Hc, rating_guard, Hd, Hi. reflexivity.
  - rewrite (IH Hin).
    destruct (fields fb0 !! "Rating") as [c0|]; [|reflexivity].
    rewrite rating_guard.
    destruct (PyStr.isdigit u c0); [|reflexivity].
    destruct (PyStr.int u c0); reflexivity.
Qed.

(** X20: a rating that is a digit string and no number.  [str.isdigit]
    accepts digits that [int] does not read, such as a superscript two.
    One rating field of that kind among the data rows makes the loop over
    the ratings raise: [get_stats] of the sheets manager then returns the
    fallback dictionary, total 0 and average 0, whatever the rows hold, and
    a [get_statistics] of the service that does not use the cache returns
    the error dictionary, total 0, and caches nothing. *)
Theorem unreadable_digit_rating env c :
  PyStr.isdigit (runtime env) c = true -> PyStr.int (runtime env) c = None ->
  (forall (m : GoogleSheetsManager.t) hdr drows row,
     GoogleSheetsManager.sheet m = hdr :: drows ->
     row ∈ get_all_values drows -> row !! 5%nat = Some c ->
     (GoogleSheetsManager.get_stats env m).1 = GoogleSheetsManager.fallback)
  /\ (forall force (s : GoogleSheetsService.t) r fb,
        cached force env s = None ->
        fb ∈ (get_all_feedbacks 100 env s r).1 ->
        fields fb !! "Rating" = Some c ->
        (get_statistics force env s r).1 = error_stats ValueError
        /\ (get_statistics force env s r).2 = (get_all_feedbacks 100 env s r).2
        /\ _stats_cache (get_statistics force env s r).2.1 = _stats_cache s
        /\ _cache_time (get_statistics force env s r).2.1 = _cache_time s).
Proof.
  intros Hd Hi. split.
  - intros m hdr drows row Hsheet Hin Hc.
    assert (Hcomp : GoogleSheetsManager.compute_stats (runtime env)
                      (get_all_values (GoogleSheetsManager.sheet m))
                    = Raised ValueError).
    { rewrite Hsheet. unfold GoogleSheetsManager.compute_stats.
      assert (Hlen : (length (get_all_values (hdr :: drows)) <=? 1)%nat = false).
      { apply Nat.leb_gt. unfold get_all_values in *. rewrite length_fmap.
        destruct drows; [inversion Hin|simpl; lia]. }
      rewrite Hlen.
      change (tail (get_all_values (hdr :: drows))) with (get_all_values drows).
      rewrite (manager_collect_ratings_raises _ c row _ Hd Hi Hin Hc).
      reflexivity. }
    unfold GoogleSheetsManager.get_stats, GoogleSheetsManager.connect.
    destruct m as [cl sh]; cbn [GoogleSheetsManager.client GoogleSheetsManager.sheet] in *.
    destruct cl, (creds_ok env), (api_ok env);
      cbn [negb GoogleSheetsManager.client GoogleSheetsManager.sheet fst];
      try reflexivity; rewrite Hcomp; reflexivity.
  - intros force s r fb Hcache Hin Hc.
    assert (Hkeep : _stats_cache (get_all_feedbacks 100 env s r).2.1 = _stats_cache s
                    /\ _cache_time (get_all_feedbacks 100 env s r).2.1
                       = _cache_time s).
    { unfold get_all_feedbacks, connect.
      destruct (sheet s) eqn:Hs.
      - rewrite Hs. destruct (api_ok env); cbn [andb fst snd].
        + destruct (get_all_values (rows r)) as [|hs [|? ?]]; auto.
        + auto.
      - destruct (creds_ok env);
          [destruct (truthy_str (spreadsheet_id s));
           [destruct (api_ok env)|]|];
          cbn [fst snd sheet andb];
          try (destruct (get_all_values _) as [|hs [|? ?]]); cbn; auto;
          rewrite Hs; cbn; auto. }
    unfold get_statistics. rewrite Hcache.
    destruct (get_all_feedbacks 100 env s r) as [fbs [s1 r1]].
    cbn [fst snd] in *.
    assert (Hcomp : compute_statistics env fbs = Raised ValueError).
    { unfold compute_statistics. destruct fbs as [|first rest]; [inversion Hin|].
      rewrite (service_collect_ratings_raises _ c fb _ Hd Hi Hin Hc).
      reflexivity. }
    rewrite Hcomp. cbn [fst snd]. destruct Hkeep. auto.
Qed.

Lemma unreadable_digit_rating_witness :
  let m := {| GoogleSheetsManager.client := true;
              GoogleSheetsManager.sheet := Sample.rated_sheet ["5"; "²"; "4"] |} in
  (PyStr.isdigit (runtime Sample.env_up) "²" = true
   /\ PyStr.int (runtime Sample.env_up) "²" = None)
  /\ (GoogleSheetsManager.get_stats Sample.env_up m).1
     = GoogleSheetsManager.fallback.
Proof.
  intros m.
  assert (H1 : PyStr.isdigit (runtime Sample.env_up) "²" = true) by reflexivity.
  assert (H2 : PyStr.int (runtime Sample.env_up) "²" = None) by reflexivity.
  split; [split; assumption|].
  refine (proj1 (unreadable_digit_rating Sample.env_up "²" H1 H2) m
            [VStr "Timestamp"] (tail (Sample.rated_sheet ["5"; "²"; "4"]))
            [ "2024-01-01 09:00:00"; "7"; "ann"; "Ann"; ""; "²"; "Идея"; "ok";
              "новый" ] eq_refl _ eq_refl).
  right. left.
Defined.
